(** * Order lifecycle of the storefront / admin panel

    A shallow embedding of the order-management code:

    - [AdminOrderService] (frontend/src/pages/Products.jsx): [updateOrderStatus],
      [updateShippingInfo], [bulkOperation], [restoreInventory];
    - the admin Orders page handler [updateOrderStatus] (unnamed/part_003);
    - [completeOrder] of the Cart page (unnamed/part_001);
    - the missing-total computation of [fetchOrders] in MyAccount
      (unnamed/part_000).

    Conventions of the embedding.

    - Firestore is the environment.  A collection is a finite map from document
      ids to documents; [getDoc] is a lookup, [updateDoc] / [transaction.update]
      / [batch.update] a partial merge of top-level fields that fails when the
      document is absent, and a write batch is atomic.  The store itself is
      reliable (no network failure) and there is a single writer.
    - A JS object is a record whose optional properties are [option]s; an
      absent property and a property holding [undefined] are both [None], and
      the store takes an update object as it is given (the [db] handle is
      configured outside these sources).  The [items] of an order document
      are optional like the rest: the service reads them with [order.items?.]
      in its reports and without a guard in [updateOrderStatus].
      Objects whose keys are computed or spread ([tracking], [metadata], the
      fields only ever written) are [gmap string JVal].
    - [a || b] is JS truthiness: the empty string, [0], [false], [null] and
      [undefined] fall through to [b].
    - Monetary amounts in documents are rationals ([Qc]): the JS doubles are
      idealised, and what is proved of them is proved of exact amounts.  The
      one calculation a claim is about, the missing total of [fetchOrders],
      is read a second time on the doubles themselves, in [Float64].
      Quantities and stock counters are integers.
    - Instants ([new Date()]) are integers (milliseconds since the epoch),
      read from a clock passed to each operation.  [setDate] works on the
      local calendar, so the time zone of the runtime is a parameter
      ([TimeZone]).
    - Strings are byte strings.  [toLowerCase] / [toUpperCase] map the ASCII
      letters, as the JS methods do on a string of ASCII characters
      ([ascii_only]): the statuses, the carrier names and the carrier codes
      are such strings, and what is said of the upper case of a carrier
      typed in by an admin is said of an ASCII one.
    - The [toast] the Orders page imports comes from a package outside these
      sources; the page inspects it before every call, and what it finds is a
      parameter ([ToastImport]). *)

From Stdlib Require Import Ascii String QArith Qcanon DecimalString.
From Stdlib Require Floats.
From stdpp Require Import gmap strings list numbers.

Open Scope Z_scope.
Open Scope string_scope.
Open Scope list_scope.

(** ** JavaScript values and operators *)

Module JS.

Inductive JVal :=
| JStr (s : string)
| JNum (q : Qc)
| JBool (b : bool)
| JTime (t : Z)            (* an ISO-8601 string of the instant [t] *)
| JServerTimestamp         (* the [serverTimestamp()] sentinel *)
| JNull.

(** Truthiness, per type. *)
Class Truthy (A : Type) := truthy : A → bool.

#[export] Instance truthy_string : Truthy string :=
  λ s, match s with EmptyString => false | _ => true end.
#[export] Instance truthy_Qc : Truthy Qc :=
  λ q, negb (Qc_eq_bool q 0%Qc).
#[export] Instance truthy_Z : Truthy Z :=
  λ n, negb (Z.eqb n 0).
#[export] Instance truthy_bool : Truthy bool := λ b, b.
#[export] Instance truthy_list {A} : Truthy (list A) := λ _, true.
#[export] Instance truthy_gmap {A} : Truthy (gmap string A) := λ _, true.
#[export] Instance truthy_JVal : Truthy JVal :=
  λ v, match v with
       | JStr s => truthy s
       | JNum q => truthy q
       | JBool b => b
       | JTime _ | JServerTimestamp => true
       | JNull => false
       end.

(** [!x] for a possibly undefined [x]. *)
Definition falsy {A} `{Truthy A} (x : option A) : bool :=
  match x with Some a => negb (truthy a) | None => true end.

(** [x || d] where [d] is defined. *)
Definition or_else {A} `{Truthy A} (x : option A) (d : A) : A :=
  match x with
  | Some a => if truthy a then a else d
  | None => d
  end.

(** [x || y] where [y] may itself be undefined. *)
Definition or_opt {A} `{Truthy A} (x y : option A) : option A :=
  match x with
  | Some a => if truthy a then Some a else y
  | None => y
  end.

(** [arr.includes(x)] *)
Definition includes (arr : list string) (x : string) : bool :=
  bool_decide (x ∈ arr).

(** A value inside a template literal. *)
Definition show (x : option string) : string :=
  match x with Some s => s | None => "undefined" end.

Definition lower_ascii (c : ascii) : ascii :=
  let n := nat_of_ascii c in
  if (Nat.leb 65 n && Nat.leb n 90) then ascii_of_nat (n + 32)%nat else c.

Definition upper_ascii (c : ascii) : ascii :=
  let n := nat_of_ascii c in
  if (Nat.leb 97 n && Nat.leb n 122) then ascii_of_nat (n - 32)%nat else c.

Fixpoint map_chars (f : ascii → ascii) (s : string) : string :=
  match s with
  | EmptyString => EmptyString
  | String c s' => String (f c) (map_chars f s')
  end.

(** [s.toLowerCase()] and [s.toUpperCase()] for a string of ASCII
    characters: the letters a-z and A-Z are mapped, every other character is
    kept.  (The JS methods also map letters outside ASCII; such strings are
    outside this embedding, see [ascii_only].) *)
Definition toLowerCase : string → string := map_chars lower_ascii.
Definition toUpperCase : string → string := map_chars upper_ascii.

(** A string of ASCII characters. *)
Definition ascii_only (s : string) : bool :=
  forallb (λ c, Nat.ltb (nat_of_ascii c) 128) (list_ascii_of_string s).

(** [{...a, ...b}] on objects kept as maps: the right operand wins. *)
Definition spread (a b : gmap string JVal) : gmap string JVal := b ∪ a.

(** [...x] of a possibly undefined object. *)
Definition obj (x : option (gmap string JVal)) : gmap string JVal :=
  default ∅ x.

(** Names every object inherits from [Object.prototype]. *)
Definition object_prototype_keys : list string :=
  ["constructor"; "hasOwnProperty"; "isPrototypeOf"; "propertyIsEnumerable";
   "toLocaleString"; "toString"; "valueOf"; "__proto__";
   "__defineGetter__"; "__defineSetter__";
   "__lookupGetter__"; "__lookupSetter__"].

(** The time zone of the runtime, as ECMAScript's [LocalTZA(t, isUTC)]: the
    offset of local time from UTC, in milliseconds, at the UTC instant [t]
    ([isUTC = true]) or at the local time [t] ([isUTC = false]). *)
Class TimeZone := { LocalTZA : Z → bool → Z }.

Definition msPerDay : Z := 86400000.

(** [LocalTime(t)] and [UTC(t)] of ECMAScript. *)
Definition LocalTime `{TimeZone} (t : Z) : Z := t + LocalTZA t true.
Definition UTC `{TimeZone} (t : Z) : Z := t - LocalTZA t false.

(** What [typeof] and the comparison with [null] tell of an imported binding
    that is expected to carry the methods [success] and [error]. *)
Inductive Imported :=
| IsObject (success error : bool)  (* a non-null object; is each method a function? *)
| IsFunction                       (* typeof gives "function" *)
| IsNull
| IsUndefined.

End JS.
Export JS.

(** ** Outcomes and the effect monad

    An operation runs against a [World] (the three collections and the console
    warnings emitted so far) and either returns or throws an [Error] carrying
    its message.  A throw keeps the writes already committed. *)

Inductive Outcome (A : Type) :=
| Returned (a : A)
| Threw (message : string).
Arguments Returned {A} a.
Arguments Threw {A} message.

(** ** Documents *)

(** An entry of [statusHistory].  Every writer sets [status], [timestamp] and
    [note]; the admin service adds [updatedBy] and more. *)
Record HistoryEntry := {
  h_status : string;
  h_timestamp : Z;
  h_note : string;
  h_updatedBy : option string;
  h_previousStatus : option string;
  h_adminNotes : option string;
  h_metadata : option (gmap string JVal)
}.

(** A line item of an order. *)
Record Item := {
  i_productId : string;
  i_name : string;
  i_price : Qc;
  i_quantity : Z;
  i_image : string
}.

(** A document of the [orders] collection (and of [users/{uid}/orders]).
    [o_shippingCountry] is [shipping?.address?.country] and [o_shippingCost]
    is [shipping?.cost]; [o_extra] holds the fields that are written but never
    read back by the code below. *)
Record Order := {
  o_userId : option string;
  o_globalOrderId : option string;
  o_items : option (list Item);
  o_status : option string;
  o_statusHistory : option (list HistoryEntry);
  o_priority : option string;
  o_tracking : option (gmap string JVal);
  o_tags : option (list string);
  o_adminNotes : option string;
  o_subtotal : option Qc;
  o_tax : option Qc;
  o_discount : option Qc;
  o_importDuty : option Qc;
  o_total : option Qc;
  o_totalAmount : option Qc;
  o_shippingCountry : option string;
  o_shippingCost : option Qc;
  o_extra : gmap string JVal
}.

(** A document of the [products] collection. *)
Record Product := {
  p_name : string;
  p_price : Qc;
  p_image : string;
  p_stock : option Z;
  p_extra : gmap string JVal
}.

(** The object handed to [update]: the top-level fields it names are replaced,
    all others are kept. *)
Record OrderUpdate := {
  u_status : option string;
  u_statusHistory : option (list HistoryEntry);
  u_priority : option string;
  u_tracking : option (gmap string JVal);
  u_tags : option (list string);
  u_adminNotes : option string;
  u_extra : gmap string JVal
}.

Record ProductUpdate := {
  pu_stock : option Z;
  pu_extra : gmap string JVal
}.

(** [let updateData = {}] *)
Definition empty_update : OrderUpdate :=
  {| u_status := None; u_statusHistory := None; u_priority := None;
     u_tracking := None; u_tags := None; u_adminNotes := None;
     u_extra := ∅ |}.

Definition defined {A} (x : option A) : bool :=
  match x with Some _ => true | None => false end.

(** [Object.keys(updateData).length > 0] *)
Definition has_keys (u : OrderUpdate) : bool :=
  defined (u_status u) || defined (u_statusHistory u)
  || defined (u_priority u) || defined (u_tracking u)
  || defined (u_tags u) || defined (u_adminNotes u)
  || negb (bool_decide (dom (u_extra u) = ∅)).

(** A written field replaces the stored one. *)
Definition written {A} (new old : option A) : option A :=
  match new with Some _ => new | None => old end.

Definition merge_order (u : OrderUpdate) (o : Order) : Order :=
  {| o_userId := o_userId o;
     o_globalOrderId := o_globalOrderId o;
     o_items := o_items o;
     o_status := written (u_status u) (o_status o);
     o_statusHistory := written (u_statusHistory u) (o_statusHistory o);
     o_priority := written (u_priority u) (o_priority o);
     o_tracking := written (u_tracking u) (o_tracking o);
     o_tags := written (u_tags u) (o_tags o);
     o_adminNotes := written (u_adminNotes u) (o_adminNotes o);
     o_subtotal := o_subtotal o;
     o_tax := o_tax o;
     o_discount := o_discount o;
     o_importDuty := o_importDuty o;
     o_total := o_total o;
     o_totalAmount := o_totalAmount o;
     o_shippingCountry := o_shippingCountry o;
     o_shippingCost := o_shippingCost o;
     o_extra := u_extra u ∪ o_extra o |}.

Definition merge_product (u : ProductUpdate) (p : Product) : Product :=
  {| p_name := p_name p;
     p_price := p_price p;
     p_image := p_image p;
     p_stock := written (pu_stock u) (p_stock p);
     p_extra := pu_extra u ∪ p_extra p |}.

(** ** The store *)

Record Db := {
  orders : gmap string Order;
  products : gmap string Product;
  userOrders : gmap (string * string) Order   (* users/{uid}/orders/{id} *)
}.

Inductive Warning :=
| WarnTransition (currentStatus : string) (newStatus : string)
| WarnUnknownCarrier (carrier : string).

Record World := {
  db : Db;
  warnings : list Warning    (* console.warn, oldest first *)
}.

Definition with_orders (f : gmap string Order → gmap string Order) (d : Db) : Db :=
  {| orders := f (orders d); products := products d;
     userOrders := userOrders d |}.

Definition with_products (f : gmap string Product → gmap string Product)
    (d : Db) : Db :=
  {| orders := orders d; products := f (products d);
     userOrders := userOrders d |}.

Definition with_userOrders
    (f : gmap (string * string) Order → gmap (string * string) Order)
    (d : Db) : Db :=
  {| orders := orders d; products := products d;
     userOrders := f (userOrders d) |}.

Definition Eff (A : Type) : Type := World → Outcome A * World.

#[export] Instance eff_ret : MRet Eff := λ A a w, (Returned a, w).
#[export] Instance eff_bind : MBind Eff := λ A B k m w,
  match m w with
  | (Returned a, w') => k a w'
  | (Threw e, w') => (Threw e, w')
  end.

(** [throw new Error(message)] *)
Definition throw {A} (message : string) : Eff A := λ w, (Threw message, w).

(** [try { body } catch (error) { handler(error.message) }] *)
Definition try_catch {A} (body : Eff A) (handler : string → Eff A) : Eff A :=
  λ w, match body w with
       | (Returned a, w') => (Returned a, w')
       | (Threw e, w') => handler e w'
       end.

(** [console.warn] *)
Definition warn (x : Warning) : Eff unit :=
  λ w, (Returned tt, {| db := db w; warnings := warnings w ++ [x] |}).

Definition read {A} (f : Db → A) : Eff A := λ w, (Returned (f (db w)), w).

Definition write (f : Db → Db) : Eff unit :=
  λ w, (Returned tt, {| db := f (db w); warnings := warnings w |}).

(** [getDoc(doc(db, "orders", id))]: [None] when [!snapshot.exists()]. *)
Definition getOrder (id : string) : Eff (option Order) :=
  read (λ d, orders d !! id).

Definition getProduct (id : string) : Eff (option Product) :=
  read (λ d, products d !! id).

(** The message Firestore gives when an updated document does not exist. *)
Definition no_document : string := "No document to update".

(** [updateDoc(doc(db, "orders", id), u)] *)
Definition updateDoc (id : string) (u : OrderUpdate) : Eff unit :=
  o ← getOrder id;
  match o with
  | Some o => write (with_orders <[id := merge_order u o]>)
  | None => throw no_document
  end.

(** A write batch: the updates in the order they were added.  [commit]
    applies them in that order, or none of them when one targets an absent
    document. *)
Fixpoint apply_batch {D U} (merge : U → D → D) (batch : list (string * U))
    (m : gmap string D) : option (gmap string D) :=
  match batch with
  | [] => Some m
  | (id, u) :: rest =>
      match m !! id with
      | Some d => apply_batch merge rest (<[id := merge u d]> m)
      | None => None
      end
  end.

Definition commit_orders (batch : list (string * OrderUpdate)) : Eff unit :=
  λ w, match apply_batch merge_order batch (orders (db w)) with
       | Some m => write (with_orders (λ _, m)) w
       | None => throw no_document w
       end.

Definition commit_products (batch : list (string * ProductUpdate)) : Eff unit :=
  λ w, match apply_batch merge_product batch (products (db w)) with
       | Some m => write (with_products (λ _, m)) w
       | None => throw no_document w
       end.

(** ** Constants of the admin order service *)

Module ORDER_STATUSES.
Definition PLACED := "Placed".
Definition APPROVED := "Approved".
Definition PACKED := "Packed".
Definition SHIPPED := "Shipped".
Definition DELIVERED := "Delivered".
Definition DECLINED := "Declined".
Definition CANCELLED := "Cancelled".
Definition REFUNDED := "Refunded".

(** [Object.values(ORDER_STATUSES)] *)
Definition values : list string :=
  [PLACED; APPROVED; PACKED; SHIPPED; DELIVERED; DECLINED; CANCELLED; REFUNDED].
End ORDER_STATUSES.

Module ORDER_PRIORITIES.
Definition LOW := "low".
Definition NORMAL := "normal".
Definition HIGH := "high".
Definition URGENT := "urgent".
Definition values : list string := [LOW; NORMAL; HIGH; URGENT].
End ORDER_PRIORITIES.

Record Carrier := {
  c_name : string;
  c_code : string;
  c_trackingUrl : string;
  c_standardDays : Z;
  c_expressDays : Z
}.

Module SHIPPING_CARRIERS.
Definition INDIA_POST : Carrier :=
  {| c_name := "IndiaPost"; c_code := "INDIAPOST";
     c_trackingUrl := "https://www.indiapost.gov.in/_layouts/15/dop.portal.tracking/trackconsignment.aspx";
     c_standardDays := 7; c_expressDays := 3 |}.
Definition DHL : Carrier :=
  {| c_name := "DHL"; c_code := "DHL";
     c_trackingUrl := "https://www.dhl.com/in-en/home/tracking.html";
     c_standardDays := 3; c_expressDays := 1 |}.
Definition FEDEX : Carrier :=
  {| c_name := "FedEx"; c_code := "FEDEX";
     c_trackingUrl := "https://www.fedex.com/en-in/tracking.html";
     c_standardDays := 3; c_expressDays := 1 |}.
Definition BLUEDART : Carrier :=
  {| c_name := "BlueDart"; c_code := "BLUEDART";
     c_trackingUrl := "https://www.bluedart.com/web/guest/trackdartresult";
     c_standardDays := 2; c_expressDays := 1 |}.
Definition values : list Carrier := [INDIA_POST; DHL; FEDEX; BLUEDART].
End SHIPPING_CARRIERS.

(** [arr.join(sep)] *)
Fixpoint join (sep : string) (l : list string) : string :=
  match l with
  | [] => ""
  | [x] => x
  | x :: rest => x +:+ sep +:+ join sep rest
  end.

(** [updateData.key = v] *)
Definition set_extra (key : string) (v : JVal) (u : OrderUpdate) : OrderUpdate :=
  {| u_status := u_status u; u_statusHistory := u_statusHistory u;
     u_priority := u_priority u; u_tracking := u_tracking u;
     u_tags := u_tags u; u_adminNotes := u_adminNotes u;
     u_extra := <[key := v]> (u_extra u) |}.

Definition set_priority (p : string) (u : OrderUpdate) : OrderUpdate :=
  {| u_status := u_status u; u_statusHistory := u_statusHistory u;
     u_priority := Some p; u_tracking := u_tracking u;
     u_tags := u_tags u; u_adminNotes := u_adminNotes u;
     u_extra := u_extra u |}.

Definition set_tracking (t : gmap string JVal) (u : OrderUpdate) : OrderUpdate :=
  {| u_status := u_status u; u_statusHistory := u_statusHistory u;
     u_priority := u_priority u; u_tracking := Some t;
     u_tags := u_tags u; u_adminNotes := u_adminNotes u;
     u_extra := u_extra u |}.

(** The result of looking a key up in an object literal. *)
Inductive Property (A : Type) :=
| Own (a : A)      (* a property of the literal *)
| Inherited        (* a member of Object.prototype *)
| Missing.         (* undefined *)
Arguments Own {A} a.
Arguments Inherited {A}.
Arguments Missing {A}.

(** ** AdminOrderService *)

Module AdminOrderService.
Import ORDER_STATUSES.

(** The [updateInfo] argument of [updateOrderStatus]; [{}] by default. *)
Record UpdateInfo := {
  ui_note : option string;
  ui_adminNotes : option string;
  ui_reason : option string;
  ui_ipAddress : option string;
  ui_userAgent : option string;
  ui_metadata : option (gmap string JVal);
  ui_priority : option string;
  ui_packingNotes : option string;
  ui_tracking : option (gmap string JVal);
  ui_deliveryConfirmation : option string;
  ui_refundAmount : option Qc;
  ui_refundMethod : option string
}.

Definition no_info : UpdateInfo :=
  {| ui_note := None; ui_adminNotes := None; ui_reason := None;
     ui_ipAddress := None; ui_userAgent := None; ui_metadata := None;
     ui_priority := None; ui_packingNotes := None; ui_tracking := None;
     ui_deliveryConfirmation := None; ui_refundAmount := None;
     ui_refundMethod := None |}.

(** *** restoreInventory *)

Definition restoredStock (p : Product) (item : Item) : Z :=
  or_else (p_stock p) 0 + i_quantity item.

Definition stock_update (p : Product) (item : Item) : ProductUpdate :=
  {| pu_stock := Some (restoredStock p item);
     pu_extra := {["lastRestored" := JServerTimestamp]} |}.

(** The [for (const item of orderItems)] loop: every product is read from the
    store, the writes are queued in [batch]. *)
Fixpoint restore_loop (orderItems : list Item)
    (batch : list (string * ProductUpdate)) : Eff (list (string * ProductUpdate)) :=
  match orderItems with
  | [] => mret batch
  | item :: rest =>
      productSnapshot ← getProduct (i_productId item);
      match productSnapshot with
      | Some p =>
          restore_loop rest (batch ++ [(i_productId item, stock_update p item)])
      | None => restore_loop rest batch
      end
  end.

(** The message of the [TypeError] the engine raises when [for ... of] is
    given [undefined]. *)
Definition not_iterable : string := "orderItems is not iterable".

(** [orderItems] is what the caller found under [items]: [None] when the
    document has no such member. *)
Definition restoreInventory (orderItems : option (list Item)) : Eff unit :=
  try_catch
    (match orderItems with
     | Some orderItems =>
         batch ← restore_loop orderItems [];
         commit_products batch
     | None => throw not_iterable
     end)
    (λ error, throw error).

(** *** updateOrderStatus *)

(** The [validTransitions] literal, indexed by a string key. *)
Definition validTransitions (key : string) : Property (list string) :=
  if decide (key = PLACED) then Own [APPROVED; DECLINED; CANCELLED]
  else if decide (key = APPROVED) then Own [PACKED; CANCELLED]
  else if decide (key = PACKED) then Own [SHIPPED; CANCELLED]
  else if decide (key = SHIPPED) then Own [DELIVERED]
  else if decide (key = DELIVERED) then Own [REFUNDED]
  else if decide (key = DECLINED) then Own []
  else if decide (key = CANCELLED) then Own [REFUNDED]
  else if decide (key = REFUNDED) then Own []
  else if includes object_prototype_keys key then Inherited
  else Missing.

(** The transition check: it warns and continues. *)
Definition check_transition (currentStatus : option string) (newStatus : string)
    : Eff unit :=
  match validTransitions (show currentStatus) with
  | Own allowed =>
      if negb (includes allowed newStatus)
      then warn (WarnTransition (show currentStatus) newStatus)
      else mret tt
  | Inherited =>
      throw "validTransitions[currentStatus].includes is not a function"
  | Missing => mret tt
  end.

Definition statusHistoryEntry (currentOrder : Order) (newStatus : string)
    (updateInfo : UpdateInfo) (adminUserId : string) (now : Z) : HistoryEntry :=
  {| h_status := newStatus;
     h_timestamp := now;
     h_note := or_else (ui_note updateInfo)
                 ("Order " +:+ toLowerCase newStatus +:+ " by admin");
     h_updatedBy := Some adminUserId;
     h_previousStatus := o_status currentOrder;
     h_adminNotes := Some (or_else (ui_adminNotes updateInfo) "");
     h_metadata := Some (spread
       {[ "updateReason" := JStr (or_else (ui_reason updateInfo) "Status change");
          "ipAddress" := JStr (or_else (ui_ipAddress updateInfo) "unknown");
          "userAgent" := JStr (or_else (ui_userAgent updateInfo) "admin-panel") ]}
       (obj (ui_metadata updateInfo))) |}.

(** [updateData] before the [switch]. *)
Definition base_update (currentOrder : Order) (newStatus : string)
    (updateInfo : UpdateInfo) (adminUserId : string) (now : Z) : OrderUpdate :=
  {| u_status := Some newStatus;
     u_statusHistory := Some ((default [] (o_statusHistory currentOrder)
         ++ [statusHistoryEntry currentOrder newStatus updateInfo adminUserId now])%list);
     u_priority := None; u_tracking := None; u_tags := None;
     u_adminNotes := None;
     u_extra := {[ "updatedAt" := JServerTimestamp;
                   "lastUpdatedBy" := JStr adminUserId ]} |}.

(** The [switch (newStatus)]: status-specific fields, and the inventory
    restoration of the Declined and Cancelled cases. *)
Definition status_specific (currentOrder : Order) (newStatus : string)
    (updateInfo : UpdateInfo) (adminUserId : string) (now : Z)
    (updateData : OrderUpdate) : Eff OrderUpdate :=
  if decide (newStatus = APPROVED) then
    mret (set_priority
            (or_else (or_opt (ui_priority updateInfo) (o_priority currentOrder))
                     ORDER_PRIORITIES.NORMAL)
         (set_extra "approvedBy" (JStr adminUserId)
         (set_extra "approvedAt" JServerTimestamp updateData)))
  else if decide (newStatus = PACKED) then
    let updateData :=
      set_extra "packingNotes" (JStr (or_else (ui_packingNotes updateInfo) ""))
      (set_extra "packedBy" (JStr adminUserId)
      (set_extra "packedAt" JServerTimestamp updateData)) in
    if falsy (o_tracking currentOrder ≫= (.!! "carrier")) then
      let isInternational :=
        negb (bool_decide (o_shippingCountry currentOrder = Some "India")) in
      mret (set_tracking
              (<["carrier" := JStr (if isInternational
                                    then c_name SHIPPING_CARRIERS.DHL
                                    else c_name SHIPPING_CARRIERS.INDIA_POST)]>
                 (obj (o_tracking currentOrder)))
              updateData)
    else mret updateData
  else if decide (newStatus = SHIPPED) then
    let updateData :=
      set_extra "shippedBy" (JStr adminUserId)
      (set_extra "shippedAt" JServerTimestamp updateData) in
    match ui_tracking updateInfo with
    | Some tracking =>
        mret (set_tracking
                (<["shippedDate" := JTime now]>
                   (spread (obj (o_tracking currentOrder)) tracking))
                updateData)
    | None => mret updateData
    end
  else if decide (newStatus = DELIVERED) then
    mret (set_extra "deliveryConfirmation"
            (JStr (or_else (ui_deliveryConfirmation updateInfo)
                           "Admin marked as delivered"))
         (set_extra "deliveredAt" JServerTimestamp updateData))
  else if decide (newStatus = DECLINED) then
    let updateData :=
      set_extra "declineReason"
        (JStr (or_else (ui_reason updateInfo) "Order declined by admin"))
      (set_extra "declinedBy" (JStr adminUserId)
      (set_extra "declinedAt" JServerTimestamp updateData)) in
    _ ← restoreInventory (o_items currentOrder);
    mret updateData
  else if decide (newStatus = CANCELLED) then
    let updateData :=
      set_extra "cancellationReason"
        (JStr (or_else (ui_reason updateInfo) "Order cancelled"))
      (set_extra "cancelledBy" (JStr adminUserId)
      (set_extra "cancelledAt" JServerTimestamp updateData)) in
    _ ← restoreInventory (o_items currentOrder);
    mret updateData
  else if decide (newStatus = REFUNDED) then
    let updateData :=
      set_extra "refundedBy" (JStr adminUserId)
      (set_extra "refundedAt" JServerTimestamp updateData) in
    let updateData :=
      match or_opt (ui_refundAmount updateInfo) (o_total currentOrder) with
      | Some amount => set_extra "refundAmount" (JNum amount) updateData
      | None => updateData
      end in
    mret (set_extra "refundMethod"
            (JStr (or_else (ui_refundMethod updateInfo) "original_payment_method"))
         (set_extra "refundReason"
            (JStr (or_else (ui_reason updateInfo) "Refund processed"))
            updateData))
  else mret updateData.

(** The documents of [users/{userId}/orders] selected by
    [where("globalOrderId", "==", orderId)], each updated with [updateData]. *)
Definition sync_user_orders (userId orderId : string) (updateData : OrderUpdate)
    (m : gmap (string * string) Order) : gmap (string * string) Order :=
  map_imap (λ key userOrderDoc,
    Some (if bool_decide (key.1 = userId
                          ∧ o_globalOrderId userOrderDoc = Some orderId)
          then merge_order updateData userOrderDoc
          else userOrderDoc)) m.

(** The [runTransaction] block: the order document and the customer's copies
    are updated together. *)
Definition transaction (orderId : string) (currentOrder : Order)
    (updateData : OrderUpdate) : Eff unit :=
  stored ← getOrder orderId;
  match stored with
  | None => throw no_document
  | Some o =>
      write (λ d,
        (if negb (falsy (o_userId currentOrder))
         then with_userOrders
                (sync_user_orders (default "" (o_userId currentOrder))
                                  orderId updateData)
         else id)
        (with_orders <[orderId := merge_order updateData o]> d))
  end.

Inductive StatusResult :=
| StatusUpdated (message : string) (orderId : string)
    (previousStatus : option string) (newStatus : string) (timestamp : Z)
    (updateData : OrderUpdate)                       (* success: true *)
| StatusFailed (error : string) (orderId : string).  (* success: false *)

(** Lines 1308-1438: the history entry, the update and its commit.  Nothing
    here depends on the transition table. *)
Definition apply_status (orderId : string) (currentOrder : Order)
    (newStatus : string) (updateInfo : UpdateInfo) (adminUserId : string)
    (now : Z) : Eff StatusResult :=
  let currentStatus := o_status currentOrder in
  let entry :=
    statusHistoryEntry currentOrder newStatus updateInfo adminUserId now in
  updateData ← status_specific currentOrder newStatus updateInfo
                 adminUserId now
                 (base_update currentOrder newStatus updateInfo adminUserId now);
  _ ← transaction orderId currentOrder updateData;
  mret (StatusUpdated ("Order status successfully updated to " +:+ newStatus)
          orderId currentStatus newStatus (h_timestamp entry) updateData).

Definition updateOrderStatus (orderId newStatus : string)
    (updateInfo : UpdateInfo) (adminUserId : string) (now : Z)
    : Eff StatusResult :=
  try_catch
    (if negb (includes ORDER_STATUSES.values newStatus) then
       throw ("Invalid order status: " +:+ newStatus +:+ ". Must be one of: "
              +:+ join ", " ORDER_STATUSES.values)
     else
       orderSnapshot ← getOrder orderId;
       match orderSnapshot with
       | None =>
           throw ("Order with ID " +:+ orderId +:+ " not found in database")
       | Some currentOrder =>
           _ ← check_transition (o_status currentOrder) newStatus;
           apply_status orderId currentOrder newStatus updateInfo adminUserId now
       end)
    (λ error,
       mret (StatusFailed (or_else (Some error) "Failed to update order status")
                          orderId)).

(** *** updateShippingInfo *)

Record ShippingInfo := {
  si_trackingNumber : option string;
  si_carrier : option string;
  si_service : option string;
  si_weight : option JVal;
  si_dimensions : option JVal;
  si_shippingCost : option Qc;
  si_notes : option string
}.

(** [Object.values(SHIPPING_CARRIERS).find(...)] *)
Definition find_carrier (carrier : string) : option Carrier :=
  List.find (λ c,
      bool_decide (toLowerCase (c_name c) = toLowerCase carrier)
      || bool_decide (toLowerCase (c_code c) = toLowerCase carrier))
    SHIPPING_CARRIERS.values.

(** [d.setDate(d.getDate() + days)] for the date [d] of the instant [t]:
    the local calendar day moves by [days] and the local time of day is kept
    ([MakeDate(MakeDay(year, month, date + days), TimeWithinDay)]), and the
    result is read back as an instant. *)
Definition addDays `{TimeZone} (t days : Z) : Z :=
  UTC (LocalTime t + days * msPerDay).

Definition or_null (x : option JVal) : JVal :=
  match x with
  | Some v => if truthy v then v else JNull
  | None => JNull
  end.

Definition trackingData `{TimeZone} (currentOrder : Order)
    (shippingInfo : ShippingInfo)
    (trackingNumber carrier : string) (adminUserId : string) (now : Z)
    : gmap string JVal :=
  let carrierConfig := find_carrier carrier in
  let deliveryDays := or_else (c_standardDays <$> carrierConfig) 7 in
  list_to_map
    [ ("code", JStr trackingNumber);
      ("carrier", JStr (or_else (c_name <$> carrierConfig) carrier));
      ("carrierCode",
         JStr (or_else (c_code <$> carrierConfig) (toUpperCase carrier)));
      ("url", or_null (JStr <$> (c_trackingUrl <$> carrierConfig)));
      ("estimatedDelivery", JTime (addDays now deliveryDays));
      ("shippedDate", JTime now);
      ("service", JStr (or_else (si_service shippingInfo) "standard"));
      ("weight", or_null (si_weight shippingInfo));
      ("dimensions", or_null (si_dimensions shippingInfo));
      ("cost", JNum (or_else (or_opt (si_shippingCost shippingInfo)
                                     (o_shippingCost currentOrder)) 0%Qc));
      ("notes", JStr (or_else (si_notes shippingInfo) ""));
      ("updatedBy", JStr adminUserId);
      ("updatedAt", JTime now) ].

Definition shipping_statusUpdate (carrierName trackingNumber : string)
    (adminUserId : string) (now estimatedDelivery : Z) : HistoryEntry :=
  {| h_status := SHIPPED;
     h_timestamp := now;
     h_note := "Order shipped via " +:+ carrierName
               +:+ " with tracking number " +:+ trackingNumber;
     h_updatedBy := Some adminUserId;
     h_previousStatus := None;
     h_adminNotes := None;
     h_metadata := Some
       {[ "trackingNumber" := JStr trackingNumber;
          "carrier" := JStr carrierName;
          "estimatedDelivery" := JTime estimatedDelivery ]} |}.

Inductive ShippingResult :=
| ShippingUpdated (message : string) (orderId : string)
    (trackingNumber : string) (carrier : string) (estimatedDelivery : Z)
    (trackingUrl : JVal)                 (* success: true *)
| ShippingFailed (error : string).       (* success: false *)

Definition updateShippingInfo `{TimeZone} (orderId : string)
    (shippingInfo : ShippingInfo)
    (adminUserId : string) (now : Z) : Eff ShippingResult :=
  try_catch
    (if falsy (si_trackingNumber shippingInfo) then
       throw "Tracking number is required for shipping updates"
     else if falsy (si_carrier shippingInfo) then
       throw "Shipping carrier is required for shipping updates"
     else
       let trackingNumber := default "" (si_trackingNumber shippingInfo) in
       let carrier := default "" (si_carrier shippingInfo) in
       orderSnapshot ← getOrder orderId;
       match orderSnapshot with
       | None => throw ("Order " +:+ orderId +:+ " not found")
       | Some currentOrder =>
           if negb (bool_decide (o_status currentOrder = Some PACKED))
              && negb (bool_decide (o_status currentOrder = Some SHIPPED))
           then
             throw ("Order must be in " +:+ PACKED +:+ " or " +:+ SHIPPED
                    +:+ " status to update shipping info. Current status: "
                    +:+ show (o_status currentOrder))
           else
             let carrierConfig := find_carrier carrier in
             _ ← (if defined carrierConfig then mret tt
                  else warn (WarnUnknownCarrier carrier));
             let tracking :=
               trackingData currentOrder shippingInfo trackingNumber carrier
                            adminUserId now in
             let carrierName := or_else (c_name <$> carrierConfig) carrier in
             let estimatedDelivery :=
               addDays now (or_else (c_standardDays <$> carrierConfig) 7) in
             let statusUpdate :=
               shipping_statusUpdate carrierName trackingNumber adminUserId
                                     now estimatedDelivery in
             let updateData :=
               {| u_status := Some SHIPPED;
                  u_statusHistory :=
                    Some ((default [] (o_statusHistory currentOrder)
                           ++ [statusUpdate])%list);
                  u_priority := None;
                  u_tracking := Some tracking;
                  u_tags := None;
                  u_adminNotes := None;
                  u_extra := {[ "shippedAt" := JServerTimestamp;
                                "shippedBy" := JStr adminUserId;
                                "updatedAt" := JServerTimestamp ]} |} in
             _ ← updateDoc orderId updateData;
             mret (ShippingUpdated "Shipping information updated successfully"
                     orderId trackingNumber carrierName estimatedDelivery
                     (or_null (JStr <$> (c_trackingUrl <$> carrierConfig))))
       end)
    (λ error,
       mret (ShippingFailed
               (or_else (Some error) "Failed to update shipping information"))).

(** *** bulkOperation *)

(** The [operationData] argument; the tag operations take [od_tag]. *)
Record OperationData := {
  od_status : option string;
  od_priority : option string;
  od_tag : string;
  od_note : option string
}.

(** An element of [results]. *)
Record ItemResult := {
  r_orderId : string;
  r_success : bool;
  r_error : option string;
  r_operation : option string
}.

Definition failed (orderId error : string) : ItemResult :=
  {| r_orderId := orderId; r_success := false; r_error := Some error;
     r_operation := None |}.

Definition succeeded (orderId operation : string) : ItemResult :=
  {| r_orderId := orderId; r_success := true; r_error := None;
     r_operation := Some operation |}.

Definition newline : string := String (ascii_of_nat 10) EmptyString.

(** [updatedAt] and [lastUpdatedBy], set by every bulk update. *)
Definition stamp (adminUserId : string) : gmap string JVal :=
  {[ "updatedAt" := JServerTimestamp; "lastUpdatedBy" := JStr adminUserId ]}.

(** The [switch (operation)]: the update to queue, or the error recorded
    before the [continue]. *)
Definition bulk_update (operation : string) (operationData : OperationData)
    (adminUserId : string) (now : Z) (currentOrder : Order)
    : string + OrderUpdate :=
  if decide (operation = "update_status") then
    match od_status operationData with
    | Some status =>
        if includes ORDER_STATUSES.values status
        then
          inr {| u_status := Some status;
                 u_statusHistory := Some ((default [] (o_statusHistory currentOrder)
                   ++ [ {| h_status := status;
                           h_timestamp := now;
                           h_note := or_else (od_note operationData)
                                       ("Bulk status update to " +:+ status);
                           h_updatedBy := Some adminUserId;
                           h_previousStatus := None;
                           h_adminNotes := None;
                           h_metadata := Some {[ "bulkOperation" := JBool true ]} |} ])%list);
                 u_priority := None; u_tracking := None; u_tags := None;
                 u_adminNotes := None;
                 u_extra := stamp adminUserId |}
        else inl ("Invalid status: " +:+ status)
    | None => inl ("Invalid status: " +:+ show None)
    end
  else if decide (operation = "update_priority") then
    match od_priority operationData with
    | Some priority =>
        if includes ORDER_PRIORITIES.values priority
        then inr {| u_status := None; u_statusHistory := None;
                    u_priority := Some priority; u_tracking := None;
                    u_tags := None; u_adminNotes := None;
                    u_extra := stamp adminUserId |}
        else inl ("Invalid priority: " +:+ priority)
    | None => inl ("Invalid priority: " +:+ show None)
    end
  else if decide (operation = "add_tag") then
    let currentTags := default [] (o_tags currentOrder) in
    if negb (includes currentTags (od_tag operationData))
    then inr {| u_status := None; u_statusHistory := None;
                u_priority := None; u_tracking := None;
                u_tags := Some (currentTags ++ [od_tag operationData])%list;
                u_adminNotes := None;
                u_extra := stamp adminUserId |}
    else inr empty_update
  else if decide (operation = "remove_tag") then
    inr {| u_status := None; u_statusHistory := None;
           u_priority := None; u_tracking := None;
           u_tags := Some (List.filter
                             (λ tag, negb (bool_decide (tag = od_tag operationData)))
                             (default [] (o_tags currentOrder)));
           u_adminNotes := None;
           u_extra := stamp adminUserId |}
  else if decide (operation = "add_admin_note") then
    inr {| u_status := None; u_statusHistory := None;
           u_priority := None; u_tracking := None; u_tags := None;
           u_adminNotes := Some (or_else (o_adminNotes currentOrder) ""
                                 +:+ newline +:+ show (od_note operationData));
           u_extra := stamp adminUserId |}
  else inl ("Unknown operation: " +:+ operation).

(** One iteration of [for (const orderId of orderIds)]. *)
Definition bulk_step (operation : string) (operationData : OperationData)
    (adminUserId : string) (now : Z) (orderId : string)
    (acc : list ItemResult * list (string * OrderUpdate))
    : Eff (list ItemResult * list (string * OrderUpdate)) :=
  let '(results, batch) := acc in
  try_catch
    (orderSnapshot ← getOrder orderId;
     match orderSnapshot with
     | None => mret ((results ++ [failed orderId "Order not found"])%list, batch)
     | Some currentOrder =>
         match bulk_update operation operationData adminUserId now currentOrder with
         | inl error => mret ((results ++ [failed orderId error])%list, batch)
         | inr updateData =>
             if has_keys updateData
             then mret ((results ++ [succeeded orderId operation])%list,
                        (batch ++ [(orderId, updateData)])%list)
             else mret (results, batch)
         end
     end)
    (λ orderError, mret ((results ++ [failed orderId orderError])%list, batch)).

Fixpoint bulk_loop (operation : string) (operationData : OperationData)
    (adminUserId : string) (now : Z) (orderIds : list string)
    (acc : list ItemResult * list (string * OrderUpdate))
    : Eff (list ItemResult * list (string * OrderUpdate)) :=
  match orderIds with
  | [] => mret acc
  | orderId :: rest =>
      acc' ← bulk_step operation operationData adminUserId now orderId acc;
      bulk_loop operation operationData adminUserId now rest acc'
  end.

Inductive BulkResult :=
| BulkDone (operation : string) (totalOrders successCount failureCount : nat)
    (results : list ItemResult)                     (* success: true *)
| BulkFailed (error : string) (operation : string).  (* success: false *)

Definition bulkOperation (operation : string) (orderIds : list string)
    (operationData : OperationData) (adminUserId : string) (now : Z)
    : Eff BulkResult :=
  try_catch
    (if bool_decide (length orderIds = 0%nat) then
       throw "No order IDs provided for bulk operation"
     else if bool_decide (50 < length orderIds)%nat then
       throw "Bulk operations are limited to 50 orders at a time for performance reasons"
     else
       '(results, batch) ← bulk_loop operation operationData adminUserId now
                             orderIds ([], []);
       _ ← commit_orders batch;
       let successCount := length (List.filter r_success results) in
       let failureCount := length (List.filter (λ r, negb (r_success r)) results) in
       mret (BulkDone operation (length orderIds) successCount failureCount
                      results))
    (λ error,
       mret (BulkFailed (or_else (Some error) "Failed to perform bulk operation")
                        operation)).

End AdminOrderService.

(** ** The admin Orders page *)

Module Orders.

(** The [toast] binding the page imports. *)
Class ToastImport := { toast : Imported }.

(** The call a handler makes to [toast], if any. *)
Inductive Toast :=
| ToastSuccess (message : string)
| ToastError (message : string)
| NoToast.

(** [typeof toast === "object" && toast !== null
     && typeof toast.success === "function"], and the same for [toast.error]. *)
Definition has_success `{ToastImport} : bool :=
  match toast with IsObject success _ => success | _ => false end.

Definition has_error `{ToastImport} : bool :=
  match toast with IsObject _ error => error | _ => false end.

(** The guarded calls [toast.success(message)] and [toast.error(message)]. *)
Definition toast_success `{ToastImport} (message : string) : Toast :=
  if has_success then ToastSuccess message else NoToast.

Definition toast_error `{ToastImport} (message : string) : Toast :=
  if has_error then ToastError message else NoToast.

(** [updateOrderStatus] of the page.  [note] is [additionalInfo.note] and
    [confirmed] the answer given to [window.confirm]. *)
Definition updateOrderStatus `{ToastImport} (orderId newStatus : string)
    (note : option string) (confirmed : bool) (now : Z) : Eff Toast :=
  try_catch
    (orderSnap ← getOrder orderId;
     match orderSnap with
     | None => throw "Order not found"
     | Some orderData =>
         if includes ["Declined"; "Cancelled"] newStatus && negb confirmed
         then mret NoToast
         else
           let statusUpdate :=
             {| h_status := newStatus;
                h_timestamp := now;
                h_note := or_else note
                            ("Order " +:+ toLowerCase newStatus +:+ " by admin");
                h_updatedBy := None;
                h_previousStatus := None;
                h_adminNotes := None;
                h_metadata := None |} in
           _ ← updateDoc orderId
                 {| u_status := Some newStatus;
                    u_statusHistory :=
                      Some ((default [] (o_statusHistory orderData)
                             ++ [statusUpdate])%list);
                    u_priority := None; u_tracking := None; u_tags := None;
                    u_adminNotes := None; u_extra := ∅ |};
           mret (toast_success
                   ("Order "
                    +:+ or_else (match o_extra orderData !! "orderId" with
                                 | Some (JStr s) => Some s
                                 | _ => None
                                 end) orderId
                    +:+ " " +:+ toLowerCase newStatus +:+ " successfully"))
     end)
    (λ error, mret (toast_error ("Failed to update order: " +:+ error))).

End Orders.

(** ** Checkout (the Cart page) *)

Module Cart.

Record User := {
  uid : string;
  email : string;
  displayName : option string
}.

(** An entry of [state.cart.items]. *)
Record CartItem := {
  ci_productId : string;
  ci_quantity : Z
}.

(** A product as the page holds it in [products]. *)
Record CatalogProduct := {
  cp_id : string;
  cp_name : string;
  cp_price : Qc;
  cp_image : string
}.

Record Address := {
  a_houseNo : option string;
  a_line1 : option string;
  a_line2 : option string;
  a_city : option string;
  a_state : option string;
  a_pin : option string;
  a_country : option string
}.

(** [cartItems.map(...).filter(Boolean)]: the items whose product is known. *)
Definition cartDetails (cartItems : list CartItem)
    (catalog : list CatalogProduct) : list (CartItem * CatalogProduct) :=
  omap (λ item,
      match List.find (λ p, bool_decide (cp_id p = ci_productId item)) catalog with
      | Some product => Some (item, product)
      | None => None
      end) cartItems.

Definition subtotal (details : list (CartItem * CatalogProduct)) : Qc :=
  foldl (λ acc d, acc + cp_price d.2 * Qc_of_Z (ci_quantity d.1))%Qc 0%Qc details.

(** 18% GST *)
Definition gst : Qc := Q2Qc (18 # 100).

Definition street (address : Address) : string :=
  or_else (a_houseNo address) "" +:+ ", " +:+ or_else (a_line1 address) ""
  +:+ (if negb (falsy (a_line2 address))
       then ", " +:+ default "" (a_line2 address) else "").

(** [orderData] *)
Definition orderData (user : User) (customerName fullPhoneNumber : string)
    (address : Address) (details : list (CartItem * CatalogProduct))
    (now : Z) : Order :=
  let subtotal := subtotal details in
  let tax := (subtotal * gst)%Qc in
  let discountAmount := 0%Qc in
  let total := (subtotal + tax)%Qc in
  {| o_userId := Some (uid user);
     o_globalOrderId := None;
     o_items := Some (List.map (λ d,
        {| i_productId := ci_productId d.1;
           i_name := cp_name d.2;
           i_price := cp_price d.2;
           i_quantity := ci_quantity d.1;
           i_image := cp_image d.2 |}) details);
     o_status := Some "Placed";
     o_statusHistory := Some
       [ {| h_status := "Placed";
            h_timestamp := now;
            h_note := "Order placed successfully";
            h_updatedBy := None;
            h_previousStatus := None;
            h_adminNotes := None;
            h_metadata := None |} ];
     o_priority := None;
     o_tracking := None;
     o_tags := None;
     o_adminNotes := None;
     o_subtotal := Some subtotal;
     o_tax := Some tax;
     o_discount := Some discountAmount;
     o_importDuty := None;
     o_total := None;
     o_totalAmount := Some total;
     o_shippingCountry := None;
     o_shippingCost := None;
     o_extra := list_to_map
       [ ("userEmail", JStr (email user));
         ("userName", JStr (or_else (or_opt (Some customerName) (displayName user)) ""));
         ("userPhone", JStr (or_else (Some fullPhoneNumber) ""));
         ("orderDate", JTime now);
         ("createdAt", JTime now);
         ("payment.method", JStr "COD");
         ("shippingAddress.name", JStr customerName);
         ("shippingAddress.street", JStr (street address));
         ("shippingAddress.city", JStr (or_else (a_city address) ""));
         ("shippingAddress.state", JStr (or_else (a_state address) ""));
         ("shippingAddress.zip", JStr (or_else (a_pin address) ""));
         ("shippingAddress.country", JStr (or_else (a_country address) "")) ] |}.

(** [addDoc(collection(db, "orders"), orderData)]; [newId] is the identifier
    the store assigns to the new document. *)
Definition addDoc (newId : string) (o : Order) : Eff unit :=
  write (with_orders <[newId := o]>).

(** [completeOrder]: [false] when nobody is signed in. *)
Definition completeOrder (user : option User) (customerName fullPhoneNumber : string)
    (address : Address) (cartItems : list CartItem)
    (catalog : list CatalogProduct) (newId : string) (now : Z) : Eff bool :=
  match user with
  | None => mret false
  | Some user =>
      try_catch
        (_ ← addDoc newId
               (orderData user customerName fullPhoneNumber address
                          (cartDetails cartItems catalog) now);
         mret true)
        (λ _, mret false)
  end.

End Cart.

(** ** Order history of the customer (MyAccount) *)

Module MyAccount.

(** The total computed by [fetchOrders] for a document that stores none. *)
Definition calculatedTotal (data : Order) : Qc :=
  let subtotal := or_else (o_subtotal data) 0%Qc in
  let tax := or_else (o_tax data) 0%Qc in
  let shipping := 0%Qc in
  let discount := or_else (o_discount data) 0%Qc in
  let importDuty := or_else (o_importDuty data) 0%Qc in
  (subtotal + tax + shipping + importDuty - discount)%Qc.

Definition set_totalAmount (total : Qc) (o : Order) : Order :=
  {| o_userId := o_userId o; o_globalOrderId := o_globalOrderId o;
     o_items := o_items o; o_status := o_status o;
     o_statusHistory := o_statusHistory o; o_priority := o_priority o;
     o_tracking := o_tracking o; o_tags := o_tags o;
     o_adminNotes := o_adminNotes o; o_subtotal := o_subtotal o;
     o_tax := o_tax o; o_discount := o_discount o;
     o_importDuty := o_importDuty o; o_total := o_total o;
     o_totalAmount := Some total;
     o_shippingCountry := o_shippingCountry o;
     o_shippingCost := o_shippingCost o; o_extra := o_extra o |}.

(** [if (!data.totalAmount && !data.total) { data.totalAmount = ... }] *)
Definition ensureTotal (data : Order) : Order :=
  if falsy (o_totalAmount data) && falsy (o_total data)
  then set_totalAmount (calculatedTotal data) data
  else data.

(** The body of [ordersSnapshot.forEach]: the documents of the signed-in
    user, each with its total. *)
Definition fetchOrders (uid : string) (ordersSnapshot : list (string * Order))
    : list (string * Order) :=
  omap (λ doc,
      if bool_decide (o_userId doc.2 = Some uid)
      then Some (doc.1, ensureTotal doc.2)
      else None) ordersSnapshot.

(** [order.totalAmount || order.total || 0], the amount shown. *)
Definition displayedTotal (order : Order) : Qc :=
  or_else (or_opt (o_totalAmount order) (o_total order)) 0%Qc.

End MyAccount.

(** ** The missing total, on the doubles of the code

    The amounts of a document are JS numbers, IEEE 754 binary64.  The lines of
    [fetchOrders] that compute a missing total, and the expression that shows
    a total, are read here on the doubles themselves: addition and
    subtraction round, and [0], [-0] and [NaN] are falsy. *)

Module Float64.
Import PrimFloat.

#[export] Instance truthy_float : Truthy float :=
  λ x, negb ((x =? 0)%float || is_nan x).

(** The amounts of an order document; [d_shippingCost] is [shipping?.cost]. *)
Record Amounts := {
  d_subtotal : option float;
  d_tax : option float;
  d_discount : option float;
  d_importDuty : option float;
  d_shippingCost : option float;
  d_total : option float;
  d_totalAmount : option float
}.

(** [subtotal + tax + shipping + importDuty - discount], from the left. *)
Definition calculatedTotal (data : Amounts) : float :=
  let subtotal := or_else (d_subtotal data) 0%float in
  let tax := or_else (d_tax data) 0%float in
  let shipping := 0%float in
  let discount := or_else (d_discount data) 0%float in
  let importDuty := or_else (d_importDuty data) 0%float in
  (subtotal + tax + shipping + importDuty - discount)%float.

Definition set_totalAmount (total : float) (data : Amounts) : Amounts :=
  {| d_subtotal := d_subtotal data; d_tax := d_tax data;
     d_discount := d_discount data; d_importDuty := d_importDuty data;
     d_shippingCost := d_shippingCost data; d_total := d_total data;
     d_totalAmount := Some total |}.

(** [if (!data.totalAmount && !data.total) { data.totalAmount = ... }] *)
Definition ensureTotal (data : Amounts) : Amounts :=
  if falsy (d_totalAmount data) && falsy (d_total data)
  then set_totalAmount (calculatedTotal data) data
  else data.

(** [order.totalAmount || order.total || 0], the amount shown. *)
Definition displayedTotal (order : Amounts) : float :=
  or_else (or_opt (d_totalAmount order) (d_total order)) 0%float.

End Float64.

(** ** More of the Orders page: tracking, selection, bulk requests *)

Module OrdersPage.
Import AdminOrderService Orders.

(** A JS [Set] of order ids: the ids in insertion order, none twice. *)
Definition set_has (x : string) (s : list string) : bool := bool_decide (x ∈ s).

Definition set_add (x : string) (s : list string) : list string :=
  if set_has x s then s else s ++ [x].

Definition set_delete (x : string) (s : list string) : list string :=
  List.filter (λ y, negb (bool_decide (y = x))) s.

(** [new Set(array)] *)
Definition set_of (l : list string) : list string :=
  foldl (λ s x, set_add x s) [] l.

(** [toggleOrderSelection(orderId, isSelected)], as a function of the
    previous [selectedOrderIds]. *)
Definition toggleOrderSelection (orderId : string) (isSelected : bool)
    (prev : list string) : list string :=
  if negb (truthy orderId) then prev
  else if isSelected then set_delete orderId prev
  else set_add orderId prev.

(** [selectAllOrders()], from [filteredOrders] (ids with their documents)
    and the current selection. *)
Definition selectAllOrders (filteredOrders : list (string * Order))
    (selectedOrderIds : list string) : list string :=
  if bool_decide (length selectedOrderIds = length filteredOrders) then []
  else set_of (fst <$> List.filter (λ order, truthy order.1) filteredOrders).

(** The [shippingInfo] state of the page's tracking form. *)
Record TrackingForm := {
  tf_trackingNumber : string;
  tf_carrier : string
}.

(** [addTracking]: [selectedOrder] is the page's copy of the order (its id
    and the document as it was loaded), or [None] when no order is open. *)
Definition addTracking `{ToastImport} (selectedOrder : option (string * Order))
    (shippingInfo : TrackingForm) (now : Z) : Eff Toast :=
  match selectedOrder with
  | None => mret (toast_error "Please enter a valid tracking code")
  | Some (selectedId, selected) =>
      if negb (truthy (tf_trackingNumber shippingInfo)) then
        mret (toast_error "Please enter a valid tracking code")
      else
        try_catch
          (let trackingData : gmap string JVal :=
             {[ "code" := JStr (tf_trackingNumber shippingInfo);
                "carrier" := JStr (tf_carrier shippingInfo) ]} in
           let statusUpdate :=
             {| h_status := "Shipped";
                h_timestamp := now;
                h_note := "Shipped with tracking code: "
                          +:+ tf_trackingNumber shippingInfo;
                h_updatedBy := None; h_previousStatus := None;
                h_adminNotes := None; h_metadata := None |} in
           _ ← updateDoc selectedId
                 {| u_status := Some "Shipped";
                    u_statusHistory :=
                      Some (default [] (o_statusHistory selected)
                            ++ [statusUpdate]);
                    u_priority := None;
                    u_tracking := Some trackingData;
                    u_tags := None; u_adminNotes := None; u_extra := ∅ |};
           mret (toast_success
                   ("Tracking information added to order "
                    +:+ or_else (match o_extra selected !! "orderId" with
                                 | Some (JStr s) => Some s
                                 | _ => None
                                 end) selectedId)))
          (λ error,
             mret (toast_error ("Failed to add tracking: " +:+ error)))
  end.



End OrdersPage.

(** ** The phone number of the Cart page *)

Module CartPhone.

(** [COUNTRY_CODES], in the order [for ... in] visits it. *)
Definition COUNTRY_CODES : list (string * string) :=
  [ ("India", "+91"); ("United States", "+1"); ("Canada", "+1");
    ("United Kingdom", "+44"); ("France", "+33"); ("Germany", "+49");
    ("Italy", "+39"); ("Japan", "+81"); ("Thailand", "+66");
    ("Vietnam", "+84"); ("Indonesia", "+62"); ("Philippines", "+63");
    ("Spain", "+34"); ("Sri Lanka", "+94"); ("Nepal", "+977");
    ("Bhutan", "+975") ].

(** [s.startsWith(p)] *)
Fixpoint startsWith (s p : string) : bool :=
  match p, s with
  | EmptyString, _ => true
  | String a p', String b s' => bool_decide (a = b) && startsWith s' p'
  | String _ _, EmptyString => false
  end.

(** [s.substring(n)] *)
Fixpoint substring_from (n : nat) (s : string) : string :=
  match n, s with
  | O, _ => s
  | S n', String _ s' => substring_from n' s'
  | S _, EmptyString => EmptyString
  end.

(** The loop over [COUNTRY_CODES]: the code found and the rest of the
    number; the code is empty when the loop finds none. *)
Definition splitPhone (phone : string) : string * string :=
  match List.find (λ entry, startsWith phone entry.2) COUNTRY_CODES with
  | Some (_, code) => (code, substring_from (String.length code) phone)
  | None => ("", phone)
  end.

(** The two pieces of state the number is kept in. *)
Record PhoneState := {
  selectedCountryCode : string;
  phoneNumber : string
}.

(** [useState("+91")] and [useState("")] *)
Definition initialPhone : PhoneState :=
  {| selectedCountryCode := "+91"; phoneNumber := "" |}.

(** The [if (userData.phone)] block of [fetchUserData]. *)
Definition loadPhone (stored : option string) (st : PhoneState) : PhoneState :=
  match stored with
  | Some phone =>
      if truthy phone then
        let '(countryCode, rest) := splitPhone phone in
        {| selectedCountryCode :=
             if truthy countryCode then countryCode
             else selectedCountryCode st;
           phoneNumber := rest |}
      else st
  | None => st
  end.

Definition getFullPhoneNumber (st : PhoneState) : string :=
  if negb (truthy (phoneNumber st)) then ""
  else selectedCountryCode st +:+ phoneNumber st.

End CartPhone.

(** * Vocabulary of the properties *)

Module Terms.
Import ORDER_STATUSES AdminOrderService MyAccount.

(** *** Inventory restoration *)

(** The writes queued by the loop, as a function of the product collection. *)
Definition restore_writes (m : gmap string Product) (orderItems : list Item)
    : list (string * ProductUpdate) :=
  omap (λ item,
      (λ p, (i_productId item, stock_update p item)) <$> m !! i_productId item)
    orderItems.

(** The line items of an order document, none when it has no [items]. *)
Definition items_of (o : Order) : list Item := default [] (o_items o).

(** The stock of a product as the loop reads it ([stock || 0]). *)
Definition stock_of (p : Product) : Z := or_else (p_stock p) 0.

(** Every line item whose product exists finds that product's stock raised
    by the item's quantity. *)
Definition restores_each_item (before after : gmap string Product)
    (orderItems : list Item) : Prop :=
  ∀ item p, item ∈ orderItems →
    before !! i_productId item = Some p →
    ∃ p', after !! i_productId item = Some p'
          ∧ p_stock p' = Some (stock_of p + i_quantity item).

(** *** Status transitions *)

(** A pair of the transition table. *)
Definition in_table (currentStatus : option string) (newStatus : string) : bool :=
  match validTransitions (show currentStatus) with
  | Own allowed => includes allowed newStatus
  | _ => false
  end.

Definition is_updated (r : Outcome StatusResult) : bool :=
  match r with
  | Returned (StatusUpdated _ _ _ _ _ _) => true
  | _ => false
  end.

(** The order document after a call. *)
Definition order_after {A} (run : Outcome A * World) (orderId : string)
    : option Order :=
  orders (db run.2) !! orderId.

Definition history (o : Order) : list HistoryEntry :=
  default [] (o_statusHistory o).

Definition restoring (newStatus : string) : Prop :=
  newStatus = DECLINED ∨ newStatus = CANCELLED.

(** The [catch] of [updateOrderStatus]: an error becomes the result
    [{success: false, error: error.message, orderId}]. *)
Definition reported (orderId : string) (body : Eff StatusResult)
    : Eff StatusResult :=
  try_catch body
    (λ error,
       mret (StatusFailed (or_else (Some error) "Failed to update order status")
                          orderId)).

(** The order's line items can be iterated when the target asks for the
    inventory to be restored. *)
Definition items_readable (o : Order) (newStatus : string) : Prop :=
  restoring newStatus → is_Some (o_items o).

(** The world after the transition check: one warning more when the current
    status is a key of the table and the target is not in its list. *)
Definition after_check (currentStatus : option string) (newStatus : string)
    (w : World) : World :=
  match validTransitions (show currentStatus) with
  | Own allowed =>
      if includes allowed newStatus then w
      else {| db := db w;
              warnings := warnings w
                          ++ [WarnTransition (show currentStatus) newStatus] |}
  | _ => w
  end.

(** *** The Orders page *)

(** [o] with the two fields [status] and [statusHistory] replaced. *)
Definition with_status_and_history (status : string)
    (statusHistory : list HistoryEntry) (o : Order) : Order :=
  {| o_userId := o_userId o; o_globalOrderId := o_globalOrderId o;
     o_items := o_items o;
     o_status := Some status;
     o_statusHistory := Some statusHistory;
     o_priority := o_priority o; o_tracking := o_tracking o;
     o_tags := o_tags o; o_adminNotes := o_adminNotes o;
     o_subtotal := o_subtotal o; o_tax := o_tax o;
     o_discount := o_discount o; o_importDuty := o_importDuty o;
     o_total := o_total o; o_totalAmount := o_totalAmount o;
     o_shippingCountry := o_shippingCountry o;
     o_shippingCost := o_shippingCost o; o_extra := o_extra o |}.

(** The entry the page appends: status, timestamp and note only. *)
Definition page_entry (newStatus : string) (note : option string) (now : Z)
    : HistoryEntry :=
  {| h_status := newStatus; h_timestamp := now;
     h_note := or_else note ("Order " +:+ toLowerCase newStatus +:+ " by admin");
     h_updatedBy := None; h_previousStatus := None; h_adminNotes := None;
     h_metadata := None |}.

(** The page asks for confirmation and was refused. *)
Definition declined_by_user (newStatus : string) (confirmed : bool) : bool :=
  includes ["Declined"; "Cancelled"] newStatus && negb confirmed.

(** *** Bulk operations *)

Definition limit_message : string :=
  "Bulk operations are limited to 50 orders at a time for performance reasons".

Definition empty_message : string :=
  "No order IDs provided for bulk operation".

(** *** From checkout to shipment *)

(** [tracking.code] of an order document. *)
Definition tracking_code (o : Order) : option JVal :=
  o_tracking o ≫= (.!! "code").

(** The shipping details [{carrier: 'DHL', trackingNumber: 'X123'}]. *)
Definition dhl_x123 : ShippingInfo :=
  {| si_trackingNumber := Some "X123"; si_carrier := Some "DHL";
     si_service := None; si_weight := None; si_dimensions := None;
     si_shippingCost := None; si_notes := None |}.

(** Checkout, then Approved, then Packed, then the shipping details; [t0] to
    [t3] are the instants of the four calls. *)
Definition checkout_to_shipped `{TimeZone} (user : Cart.User)
    (customerName phone : string)
    (address : Cart.Address) (cartItems : list Cart.CartItem)
    (catalog : list Cart.CatalogProduct) (id : string)
    (info1 info2 : UpdateInfo) (admin : string) (t0 t1 t2 t3 : Z)
    (w : World) : World :=
  let w0 := (Cart.completeOrder (Some user) customerName phone address
               cartItems catalog id t0 w).2 in
  let w1 := (updateOrderStatus id APPROVED info1 admin t1 w0).2 in
  let w2 := (updateOrderStatus id PACKED info2 admin t2 w1).2 in
  (updateShippingInfo id dhl_x123 admin t3 w2).2.

(** *** Totals *)

(** No total is stored: [!data.totalAmount && !data.total]. *)
Definition no_stored_total (data : Order) : Prop :=
  falsy (o_totalAmount data) = true ∧ falsy (o_total data) = true.

End Terms.
Export Terms.

(** *** Totals on doubles *)

Module FloatTerms.
Import PrimFloat Float64.

(** No total is stored: [!data.totalAmount && !data.total]. *)
Definition no_total (data : Amounts) : Prop :=
  falsy (d_totalAmount data) = true ∧ falsy (d_total data) = true.

(** The components as the calculation reads them: an absent one, a zero
    and a [NaN] count as 0. *)
Definition subtotal_of (data : Amounts) : float :=
  or_else (d_subtotal data) 0%float.
Definition tax_of (data : Amounts) : float := or_else (d_tax data) 0%float.
Definition discount_of (data : Amounts) : float :=
  or_else (d_discount data) 0%float.
Definition importDuty_of (data : Amounts) : float :=
  or_else (d_importDuty data) 0%float.
Definition shippingCost_of (data : Amounts) : float :=
  or_else (d_shippingCost data) 0%float.

(** The reconstruction as the specification words it:
    subtotal + tax + shippingCost - discount. *)
Definition stated_total (data : Amounts) : float :=
  (subtotal_of data + tax_of data + shippingCost_of data - discount_of data)%float.

(** A document holding the given amounts and no total. *)
Definition bare_amounts (subtotal tax discount : float)
    (importDuty shippingCost : option float) : Amounts :=
  {| d_subtotal := Some subtotal; d_tax := Some tax;
     d_discount := Some discount; d_importDuty := importDuty;
     d_shippingCost := shippingCost; d_total := None;
     d_totalAmount := None |}.

(** The document with another shipping cost. *)
Definition with_shippingCost (cost : option float) (data : Amounts) : Amounts :=
  {| d_subtotal := d_subtotal data; d_tax := d_tax data;
     d_discount := d_discount data; d_importDuty := d_importDuty data;
     d_shippingCost := cost; d_total := d_total data;
     d_totalAmount := d_totalAmount data |}.

End FloatTerms.

(** * Sample data *)

Module Sample.
Import AdminOrderService.

Definition ann : Cart.User :=
  {| Cart.uid := "u1"; Cart.email := "ann@example.org";
     Cart.displayName := None |}.

Definition home : Cart.Address :=
  {| Cart.a_houseNo := Some "7"; Cart.a_line1 := Some "Main Road";
     Cart.a_line2 := None; Cart.a_city := Some "Pune";
     Cart.a_state := None; Cart.a_pin := None;
     Cart.a_country := Some "India" |}.

Definition catalog : list Cart.CatalogProduct :=
  [ {| Cart.cp_id := "p1"; Cart.cp_name := "Pen"; Cart.cp_price := Qc_of_Z 100;
       Cart.cp_image := "pen.png" |};
    {| Cart.cp_id := "p2"; Cart.cp_name := "Ink"; Cart.cp_price := Qc_of_Z 50;
       Cart.cp_image := "ink.png" |} ].

Definition cart : list Cart.CartItem :=
  [ {| Cart.ci_productId := "p1"; Cart.ci_quantity := 2 |};
    {| Cart.ci_productId := "p2"; Cart.ci_quantity := 1 |} ].

(** The order the checkout writes for [cart]. *)
Definition placed : Order :=
  Cart.orderData ann "Ann" "" home (Cart.cartDetails cart catalog) 0.

Definition pen : Product :=
  {| p_name := "Pen"; p_price := Qc_of_Z 100; p_image := "pen.png";
     p_stock := Some 10; p_extra := ∅ |}.

Definition ink : Product :=
  {| p_name := "Ink"; p_price := Qc_of_Z 50; p_image := "ink.png";
     p_stock := None; p_extra := ∅ |}.

Definition shop : World :=
  {| db := {| orders := {[ "A" := placed ]};
              products := {[ "p1" := pen; "p2" := ink ]};
              userOrders := ∅ |};
     warnings := [] |}.

Definition line (productId : string) (quantity : Z) : Item :=
  {| i_productId := productId; i_name := "Pen"; i_price := Qc_of_Z 100;
     i_quantity := quantity; i_image := "pen.png" |}.

(** An order document with two line items for the same product. *)
Definition twice : Order :=
  {| o_userId := None; o_globalOrderId := None;
     o_items := Some [line "p1" 2; line "p1" 3];
     o_status := Some "Placed"; o_statusHistory := None;
     o_priority := None; o_tracking := None; o_tags := None;
     o_adminNotes := None; o_subtotal := None; o_tax := None;
     o_discount := None; o_importDuty := None; o_total := None;
     o_totalAmount := None; o_shippingCountry := None;
     o_shippingCost := None; o_extra := ∅ |}.




(** Indian Standard Time: UTC+05:30 all year. *)
Definition ist : TimeZone := {| LocalTZA := λ _ _, 19800000 |}.

(** A zone that moves from UTC+01:00 to UTC+02:00 at the instant
    [1000 * msPerDay]. *)
Definition summer : TimeZone :=
  {| LocalTZA := λ t isUTC,
       if Z.ltb t (1000 * msPerDay + (if isUTC then 0 else 3600000))
       then 3600000 else 7200000 |}.

(** What react-toastify exports under [toast]: a function that carries the
    methods. *)
Definition callable : Orders.ToastImport := {| Orders.toast := IsFunction |}.


End Sample.

(** * More vocabulary *)

Module MoreTerms.
Import ORDER_STATUSES AdminOrderService.

(** The store after the transaction of [updateOrderStatus] has written
    [updateData] to the order [o] stored under [orderId]. *)
Definition committed (orderId : string) (o : Order) (updateData : OrderUpdate)
    (d : Db) : Db :=
  (if negb (falsy (o_userId o))
   then with_userOrders
          (sync_user_orders (default "" (o_userId o)) orderId updateData)
   else id)
  (with_orders <[orderId := merge_order updateData o]> d).

(** The customer's copy of an order: a document of [users/{userId}/orders]
    whose [globalOrderId] is the order's id. *)
Definition copy_of (userId orderId : string) (key : string * string)
    (doc : Order) : Prop :=
  key.1 = userId ∧ o_globalOrderId doc = Some orderId.

Definition status_failed (r : Outcome StatusResult) : bool :=
  match r with
  | Returned (StatusFailed _ _) => true
  | _ => false
  end.

Definition shipping_updated (r : Outcome ShippingResult) : bool :=
  match r with
  | Returned (ShippingUpdated _ _ _ _ _ _) => true
  | _ => false
  end.

(** [tracking.carrier] and other members of the tracking descriptor. *)
Definition tracking_field (key : string) (o : Order) : option JVal :=
  o_tracking o ≫= (.!! key).

Definition valid_list : string :=
  "Placed, Approved, Packed, Shipped, Delivered, Declined, Cancelled, Refunded".

(** The entry a bulk status update appends. *)
Definition bulk_entry (status : string) (note : option string)
    (adminUserId : string) (now : Z) : HistoryEntry :=
  {| h_status := status; h_timestamp := now;
     h_note := or_else note ("Bulk status update to " +:+ status);
     h_updatedBy := Some adminUserId; h_previousStatus := None;
     h_adminNotes := None;
     h_metadata := Some {[ "bulkOperation" := JBool true ]} |}.

Definition bulk_done (r : Outcome BulkResult) : bool :=
  match r with
  | Returned (BulkDone _ _ _ _ _) => true
  | _ => false
  end.

Definition bulk_results (r : Outcome BulkResult) : list ItemResult :=
  match r with
  | Returned (BulkDone _ _ _ _ results) => results
  | _ => []
  end.

Definition bulk_counts (r : Outcome BulkResult) : nat * nat * nat :=
  match r with
  | Returned (BulkDone _ total successes failures _) =>
      (total, successes, failures)
  | _ => (0, 0, 0)%nat
  end.

(** The document [o] stored as a customer's copy of the order [orderId]. *)
Definition as_copy (orderId : string) (o : Order) : Order :=
  {| o_userId := o_userId o; o_globalOrderId := Some orderId;
     o_items := o_items o; o_status := o_status o;
     o_statusHistory := o_statusHistory o; o_priority := o_priority o;
     o_tracking := o_tracking o; o_tags := o_tags o;
     o_adminNotes := o_adminNotes o; o_subtotal := o_subtotal o;
     o_tax := o_tax o; o_discount := o_discount o;
     o_importDuty := o_importDuty o; o_total := o_total o;
     o_totalAmount := o_totalAmount o;
     o_shippingCountry := o_shippingCountry o;
     o_shippingCost := o_shippingCost o; o_extra := o_extra o |}.

(** One iteration of the bulk loop, as a function of the order collection:
    the results and the batch after the order [orderId] was looked at. *)
Definition step_pure (m : gmap string Order) (operation : string)
    (operationData : OperationData) (adminUserId : string) (now : Z)
    (orderId : string) (acc : list ItemResult * list (string * OrderUpdate))
    : list ItemResult * list (string * OrderUpdate) :=
  match m !! orderId with
  | None => (acc.1 ++ [failed orderId "Order not found"], acc.2)
  | Some currentOrder =>
      match bulk_update operation operationData adminUserId now currentOrder with
      | inl error => (acc.1 ++ [failed orderId error], acc.2)
      | inr updateData =>
          if has_keys updateData
          then (acc.1 ++ [succeeded orderId operation],
                acc.2 ++ [(orderId, updateData)])
          else acc
      end
  end.

Definition loop_pure (m : gmap string Order) (operation : string)
    (operationData : OperationData) (adminUserId : string) (now : Z)
    (orderIds : list string)
    (acc : list ItemResult * list (string * OrderUpdate))
    : list ItemResult * list (string * OrderUpdate) :=
  foldl (λ acc orderId,
           step_pure m operation operationData adminUserId now orderId acc)
        acc orderIds.

(** The size the service accepts: 1 to 50 order ids. *)
Definition accepted_size (orderIds : list string) : Prop :=
  orderIds ≠ [] ∧ (length orderIds ≤ 50)%nat.

(** The operations [bulkOperation] knows. *)
Definition known_operations : list string :=
  ["update_status"; "update_priority"; "add_tag"; "remove_tag";
   "add_admin_note"].

(** The tags of an order document. *)
Definition tags_of (o : Order) : list string := default [] (o_tags o).

(** The [updateData] of [updateShippingInfo]. *)
Definition shipping_update `{TimeZone} (o : Order) (si : ShippingInfo)
    (trackingNumber carrier adminUserId : string) (now : Z) : OrderUpdate :=
  let carrierConfig := find_carrier carrier in
  {| u_status := Some SHIPPED;
     u_statusHistory :=
       Some (default [] (o_statusHistory o)
             ++ [shipping_statusUpdate
                   (or_else (c_name <$> carrierConfig) carrier)
                   trackingNumber adminUserId now
                   (addDays now (or_else (c_standardDays <$> carrierConfig) 7))]);
     u_priority := None;
     u_tracking := Some (trackingData o si trackingNumber carrier adminUserId now);
     u_tags := None;
     u_adminNotes := None;
     u_extra := {[ "shippedAt" := JServerTimestamp;
                   "shippedBy" := JStr adminUserId;
                   "updatedAt" := JServerTimestamp ]} |}.

(** A zone whose offset from UTC never changes. *)
Definition fixed_offset `{TimeZone} : Prop :=
  ∀ t t' isUTC isUTC', LocalTZA t isUTC = LocalTZA t' isUTC'.

(** The order may receive shipping details. *)
Definition shippable (o : Order) : Prop :=
  o_status o = Some PACKED ∨ o_status o = Some SHIPPED.

(** A delivered order that stores its total under [total]. *)
Definition billed (total : Qc) : Order :=
  {| o_userId := None; o_globalOrderId := None; o_items := Some [];
     o_status := Some DELIVERED; o_statusHistory := None;
     o_priority := None; o_tracking := None; o_tags := None;
     o_adminNotes := None; o_subtotal := None; o_tax := None;
     o_discount := None; o_importDuty := None; o_total := Some total;
     o_totalAmount := None; o_shippingCountry := None;
     o_shippingCost := None; o_extra := ∅ |}.

(** The sum of the line totals of an order's items. *)
Definition lines_total (items : list Item) : Qc :=
  foldl (λ acc item, acc + i_price item * Qc_of_Z (i_quantity item))%Qc
        0%Qc items.

(** A stored total, [totalAmount] or [total], that is not zero. *)
Definition stores_total (data : Order) : Prop :=
  falsy (o_totalAmount data) = false ∨ falsy (o_total data) = false.

(** The product a cart line refers to is in the catalog. *)
Definition known (catalog : list Cart.CatalogProduct) (productId : string)
    : bool :=
  bool_decide (productId ∈ Cart.cp_id <$> catalog).

(** The order the checkout writes for a cart. *)
Definition checkout_order (user : Cart.User) (customerName phone : string)
    (address : Cart.Address) (cartItems : list Cart.CartItem)
    (catalog : list Cart.CatalogProduct) (now : Z) : Order :=
  Cart.orderData user customerName phone address
    (Cart.cartDetails cartItems catalog) now.

End MoreTerms.
Export MoreTerms.

(** * Properties *)

(** ** Write batches *)

Section batches.
Context {D U : Type} (merge : U → D → D).

Lemma apply_batch_is_Some (batch : list (string * U)) (m : gmap string D) :
  (∀ id u, (id, u) ∈ batch → is_Some (m !! id)) →
  is_Some (apply_batch merge batch m).
Proof.
  revert m. induction batch as [|[id u] rest IH]; intros m Hall; simpl.
  - by eexists.
  - destruct (Hall id u) as [d Hd]; [left|]. rewrite Hd.
    apply IH. intros id' u' Hin.
    destruct (decide (id = id')) as [->|Hne].
    + rewrite lookup_insert_eq. by eexists.
    + rewrite lookup_insert_ne; [|done]. apply (Hall id' u'). by right.
Qed.

(** A committed batch creates no document. *)
Lemma apply_batch_None (batch : list (string * U)) (m m' : gmap string D) k :
  apply_batch merge batch m = Some m' → m !! k = None → m' !! k = None.
Proof.
  revert m. induction batch as [|[id u] rest IH]; intros m Hrun Hk; simpl in Hrun.
  - by simplify_eq.
  - destruct (m !! id) as [d|] eqn:Hd; [|done].
    apply (IH _ Hrun). rewrite lookup_insert_ne; [done|]. congruence.
Qed.

(** A document no write of the batch names is left as it was. *)
Lemma apply_batch_frame (batch : list (string * U)) (m m' : gmap string D) k :
  apply_batch merge batch m = Some m' →
  (∀ u, (k, u) ∉ batch) → m' !! k = m !! k.
Proof.
  revert m. induction batch as [|[id u] rest IH]; intros m Hrun Hk; simpl in Hrun.
  - by simplify_eq.
  - destruct (m !! id) as [d|] eqn:Hd; [|done].
    rewrite (IH _ Hrun).
    + apply lookup_insert_ne. intros ->. apply (Hk u). by left.
    + intros u' Hin. apply (Hk u'). by right.
Qed.

End batches.

(** Later writes to a product win: when every queued write to [k] stores the
    stock [v], and at least one is queued (or [v] is already stored), [v] is
    the stock after the commit. *)
Lemma apply_batch_stock (batch : list (string * ProductUpdate))
    (m m' : gmap string Product) k d v :
  apply_batch merge_product batch m = Some m' →
  m !! k = Some d →
  (∀ u, (k, u) ∈ batch → pu_stock u = Some v) →
  (p_stock d = Some v ∨ ∃ u, (k, u) ∈ batch) →
  ∃ d', m' !! k = Some d' ∧ p_stock d' = Some v.
Proof.
  revert m d. induction batch as [|[id u] rest IH]; intros m d Hrun Hk Hall Hex;
    simpl in Hrun.
  - simplify_eq. destruct Hex as [Hv|[u Hin]]; [eauto|]. by apply elem_of_nil in Hin.
  - destruct (m !! id) as [d0|] eqn:Hd0; [|done].
    destruct (decide (id = k)) as [->|Hne].
    + eapply (IH _ _ Hrun).
      * apply lookup_insert_eq.
      * intros u' Hin. apply Hall. by right.
      * left. simpl. rewrite (Hall u); [done|by left].
    + eapply (IH _ _ Hrun).
      * rewrite lookup_insert_ne; [exact Hk|done].
      * intros u' Hin. apply Hall. by right.
      * destruct Hex as [Hv|[u' Hin]]; [by left|right].
        apply elem_of_cons in Hin as [Heq|Hin]; [congruence|eauto].
Qed.

Lemma updateDoc_run id u o w :
  orders (db w) !! id = Some o →
  updateDoc id u w
  = (Returned tt, {| db := with_orders <[id := merge_order u o]> (db w);
                     warnings := warnings w |}).
Proof.
  intros Ho. unfold updateDoc, mbind, eff_bind, getOrder, read. simpl.
  by rewrite Ho.
Qed.

(** ** Inventory restoration *)

Module RestoreProps.
Import AdminOrderService.

Lemma restore_loop_run orderItems batch w :
  restore_loop orderItems batch w
  = (Returned (batch ++ restore_writes (products (db w)) orderItems)%list, w).
Proof.
  revert batch. induction orderItems as [|item rest IH]; intros batch; simpl.
  - by rewrite app_nil_r.
  - unfold mbind, eff_bind, getProduct, read; simpl.
    destruct (products (db w) !! i_productId item) as [p|]; simpl.
    + rewrite IH. by rewrite <- app_assoc.
    + apply IH.
Qed.

Lemma restore_writes_exist m orderItems id u :
  (id, u) ∈ restore_writes m orderItems → is_Some (m !! id).
Proof.
  unfold restore_writes. rewrite list_elem_of_omap.
  intros (item & _ & Hitem).
  destruct (m !! i_productId item) as [p|] eqn:Hp; simplify_eq/=. by eexists.
Qed.

Lemma restore_writes_elem m orderItems id u :
  (id, u) ∈ restore_writes m orderItems ↔
  ∃ item p, item ∈ orderItems ∧ id = i_productId item
            ∧ m !! id = Some p ∧ u = stock_update p item.
Proof.
  unfold restore_writes. rewrite list_elem_of_omap. split.
  - intros (item & Hin & Hitem).
    destruct (m !! i_productId item) as [p|] eqn:Hp; simplify_eq/=.
    by exists item, p.
  - intros (item & p & Hin & -> & Hp & ->). exists item. by rewrite Hp.
Qed.

(** Given a list, [restoreInventory] returns, and touches the products
    only. *)
Lemma restoreInventory_run orderItems w :
  ∃ m', apply_batch merge_product
          (restore_writes (products (db w)) orderItems) (products (db w)) = Some m'
        ∧ restoreInventory (Some orderItems) w
          = (Returned tt, {| db := with_products (λ _, m') (db w);
                             warnings := warnings w |}).
Proof.
  destruct (apply_batch_is_Some merge_product
              (restore_writes (products (db w)) orderItems) (products (db w)))
    as [m' Hm'].
  { intros id u. apply restore_writes_exist. }
  exists m'. split; [done|].
  unfold restoreInventory, try_catch, mbind, eff_bind.
  rewrite restore_loop_run. simpl. unfold commit_products. by rewrite Hm'.
Qed.

(** Given nothing to iterate over, it throws before any read. *)
Lemma restoreInventory_absent w :
  restoreInventory None w = (Threw not_iterable, w).
Proof. reflexivity. Qed.

(** The stock after the commit, for a product all of whose line items carry
    the same quantity (in particular a product named by one line item). *)
Lemma restore_stock m m' orderItems item p :
  apply_batch merge_product (restore_writes m orderItems) m = Some m' →
  item ∈ orderItems →
  m !! i_productId item = Some p →
  (∀ other, other ∈ orderItems → i_productId other = i_productId item →
            i_quantity other = i_quantity item) →
  ∃ p', m' !! i_productId item = Some p'
        ∧ p_stock p' = Some (stock_of p + i_quantity item).
Proof.
  intros Hrun Hin Hp Hsame.
  eapply apply_batch_stock; [exact Hrun|exact Hp| |].
  - intros u (other & p0 & Hother & Hid & Hp0 & ->)%restore_writes_elem.
    simpl. unfold restoredStock, stock_of.
    rewrite (Hsame other Hother (eq_sym Hid)). congruence.
  - right. exists (stock_update p item). apply restore_writes_elem.
    by exists item, p.
Qed.

Lemma restore_distinct m m' orderItems :
  apply_batch merge_product (restore_writes m orderItems) m = Some m' →
  NoDup (i_productId <$> orderItems) →
  restores_each_item m m' orderItems.
Proof.
  intros Hrun Hnd item p Hin Hp.
  apply (restore_stock m m' orderItems item p Hrun Hin Hp).
  intros other Hother Hid.
  apply list_elem_of_lookup in Hin as [i Hi].
  apply list_elem_of_lookup in Hother as [j Hj].
  assert (i = j) as ->; [|congruence].
  eapply NoDup_lookup; [exact Hnd| |].
  - by rewrite list_lookup_fmap, Hi.
  - rewrite list_lookup_fmap, Hj. simpl. by rewrite Hid.
Qed.

End RestoreProps.

(** ** Status transitions of the admin service *)

Module StatusProps.
Import ORDER_STATUSES AdminOrderService RestoreProps.

Lemma set_extra_status k v u : u_status (set_extra k v u) = u_status u.
Proof. done. Qed.

Lemma set_extra_history k v u :
  u_statusHistory (set_extra k v u) = u_statusHistory u.
Proof. done. Qed.

(** The [switch] returns when the line items can be read; it keeps [status]
    and [statusHistory] of the update, and writes to the store only through
    [restoreInventory]. *)
Lemma status_specific_run o t info admin now u w :
  items_readable o t →
  ∃ u' w',
    status_specific o t info admin now u w = (Returned u', w')
    ∧ u_status u' = u_status u
    ∧ u_statusHistory u' = u_statusHistory u
    ∧ warnings w' = warnings w
    ∧ orders (db w') = orders (db w)
    ∧ userOrders (db w') = userOrders (db w)
    ∧ (¬ restoring t → products (db w') = products (db w))
    ∧ (restoring t →
         apply_batch merge_product
           (restore_writes (products (db w)) (items_of o)) (products (db w))
         = Some (products (db w'))).
Proof.
  intros Hitems.
  assert (restoring t →
          restoreInventory (o_items o) w = restoreInventory (Some (items_of o)) w)
    as Hsome.
  { intros Hr. destruct (Hitems Hr) as [items Hi]. unfold items_of.
    by rewrite Hi. }
  clear Hitems. unfold status_specific, restoring in *.
  destruct (restoreInventory_run (items_of o) w) as (m' & Hm' & Hrestore).
  repeat case_decide; subst;
    try (unfold mbind, eff_bind; rewrite Hsome by auto; rewrite Hrestore);
    repeat match goal with
           | |- context [falsy ?x] => destruct (falsy x)
           | |- context [match ?x with _ => _ end] => destruct x
           end;
    (eexists _, _; split; [reflexivity|]; simpl;
     repeat split; try done; try (intros [?|?]; done);
     try (intros H'; exfalso; apply H'; auto; fail)).
Qed.

Lemma transaction_run orderId cur u o w :
  orders (db w) !! orderId = Some o →
  ∃ w', transaction orderId cur u w = (Returned tt, w')
        ∧ orders (db w') = <[orderId := merge_order u o]> (orders (db w))
        ∧ products (db w') = products (db w)
        ∧ warnings w' = warnings w.
Proof.
  intros Ho. unfold transaction, mbind, eff_bind, getOrder, read; simpl.
  rewrite Ho. unfold write. eexists; split; [reflexivity|].
  simpl. by destruct (negb (falsy (o_userId cur))).
Qed.

(** The update itself goes through whatever the two statuses are, as long
    as the line items can be read. *)
Lemma apply_status_run orderId o t info admin now w :
  orders (db w) !! orderId = Some o →
  items_readable o t →
  ∃ u w',
    apply_status orderId o t info admin now w
    = (Returned (StatusUpdated ("Order status successfully updated to " +:+ t)
                   orderId (o_status o) t now u), w')
    ∧ u_status u = Some t
    ∧ u_statusHistory u
      = Some (history o ++ [statusHistoryEntry o t info admin now])%list
    ∧ orders (db w') = <[orderId := merge_order u o]> (orders (db w))
    ∧ warnings w' = warnings w
    ∧ (¬ restoring t → products (db w') = products (db w))
    ∧ (restoring t →
         apply_batch merge_product
           (restore_writes (products (db w)) (items_of o)) (products (db w))
         = Some (products (db w'))).
Proof.
  intros Ho Hitems. unfold apply_status.
  destruct (status_specific_run o t info admin now
              (base_update o t info admin now) w Hitems)
    as (u & w1 & Hsw & Hst & Hhist & Hwarn & Hord & _ & Hkeep & Hrest).
  destruct (transaction_run orderId o u o w1) as (w2 & Htx & Hord2 & Hprod2 & Hwarn2).
  { by rewrite Hord. }
  exists u, w2. unfold mbind, eff_bind. rewrite Hsw, Htx. simpl.
  repeat split; try done.
  - by rewrite Hord2, Hord.
  - congruence.
  - intros Hn. rewrite Hprod2. auto.
  - intros Hr. rewrite Hprod2. auto.
Qed.

(** A target that restores the inventory, on a document without [items]:
    the [switch] throws before anything is written. *)
Lemma apply_status_absent orderId o t info admin now w :
  restoring t → o_items o = None →
  apply_status orderId o t info admin now w = (Threw not_iterable, w).
Proof.
  intros [-> | ->] Hnone; unfold apply_status, status_specific, mbind, eff_bind;
    simpl; by rewrite Hnone.
Qed.

Lemma after_check_orders cur t w :
  orders (db (after_check cur t w)) = orders (db w).
Proof.
  unfold after_check. destruct (validTransitions _) as [allowed| |]; [|done..].
  by destruct (includes allowed t).
Qed.

End StatusProps.

Module StatusTheorems.
Import ORDER_STATUSES AdminOrderService RestoreProps StatusProps.


(** A request for a status of the enumeration on an existing order reaches
    [apply_status], whether or not the pair is in the table; what
    [apply_status] throws is reported by the [catch]. *)
Lemma updateOrderStatus_reported orderId o t info admin now w :
  orders (db w) !! orderId = Some o →
  includes ORDER_STATUSES.values t = true →
  validTransitions (show (o_status o)) ≠ Inherited →
  updateOrderStatus orderId t info admin now w
  = reported orderId (apply_status orderId o t info admin now)
      (after_check (o_status o) t w).
Proof.
  intros Ho Ht Hkey.
  unfold updateOrderStatus, reported, try_catch, mbind, eff_bind, getOrder, read.
  rewrite Ht. simpl. rewrite Ho.
  unfold check_transition, after_check.
  destruct (validTransitions (show (o_status o))) as [allowed| |]; [|done|done].
  by destruct (includes allowed t).
Qed.

(** When the line items can be read nothing is thrown. *)
Lemma updateOrderStatus_run orderId o t info admin now w :
  orders (db w) !! orderId = Some o →
  includes ORDER_STATUSES.values t = true →
  validTransitions (show (o_status o)) ≠ Inherited →
  items_readable o t →
  updateOrderStatus orderId t info admin now w
  = apply_status orderId o t info admin now (after_check (o_status o) t w).
Proof.
  intros Ho Ht Hkey Hitems.
  rewrite (updateOrderStatus_reported _ o); try done.
  destruct (apply_status_run orderId o t info admin now
              (after_check (o_status o) t w)) as (u & w' & Hrun & _); [|done|].
  { by rewrite after_check_orders. }
  unfold reported, try_catch. by rewrite Hrun.
Qed.

(** Without them, a target that restores the inventory fails after the
    transition check. *)
Lemma updateOrderStatus_absent orderId o t info admin now w :
  orders (db w) !! orderId = Some o →
  validTransitions (show (o_status o)) ≠ Inherited →
  restoring t → o_items o = None →
  updateOrderStatus orderId t info admin now w
  = (Returned (StatusFailed not_iterable orderId),
     after_check (o_status o) t w).
Proof.
  intros Ho Hkey Hr Hnone.
  rewrite (updateOrderStatus_reported _ o); try done.
  - unfold reported, try_catch. by rewrite apply_status_absent.
  - by destruct Hr as [-> | ->].
Qed.

(** Only such requests succeed. *)
Lemma updateOrderStatus_updated_inv orderId t info admin now w :
  is_updated (updateOrderStatus orderId t info admin now w).1 = true →
  includes ORDER_STATUSES.values t = true
  ∧ validTransitions (show (default None (o_status <$> orders (db w) !! orderId)))
    ≠ Inherited
  ∧ is_Some (orders (db w) !! orderId)
  ∧ ∀ o, orders (db w) !! orderId = Some o → items_readable o t.
Proof.
  intros Hok.
  assert (includes ORDER_STATUSES.values t = true
          ∧ validTransitions
              (show (default None (o_status <$> orders (db w) !! orderId)))
            ≠ Inherited
          ∧ is_Some (orders (db w) !! orderId)) as (Ht & Hkey & Hsome).
  { revert Hok.
    unfold updateOrderStatus, try_catch, mbind, eff_bind, getOrder, read.
    destruct (includes ORDER_STATUSES.values t); simpl; [|done].
    destruct (orders (db w) !! orderId) as [o|]; simpl; [|done].
    unfold check_transition.
    destruct (validTransitions (show (o_status o))); simpl; try done;
      intros _; repeat split; try done; by eexists. }
  repeat split; try done.
  intros o Ho Hr. rewrite Ho in Hkey. simpl in Hkey.
  destruct (o_items o) as [items|] eqn:Hitems; [by eexists|].
  rewrite (updateOrderStatus_absent _ o) in Hok; done.
Qed.

(** The transitions of the table take the same path, without the warning. *)
Lemma in_table_transition orderId o t info admin now w :
  orders (db w) !! orderId = Some o →
  includes ORDER_STATUSES.values t = true →
  in_table (o_status o) t = true →
  updateOrderStatus orderId t info admin now w
  = reported orderId (apply_status orderId o t info admin now) w.
Proof.
  intros Ho Ht Hin. rewrite (updateOrderStatus_reported _ o); try done.
  - unfold after_check. unfold in_table in Hin.
    destruct (validTransitions _); [|done..]. by rewrite Hin.
  - unfold in_table in Hin. by destruct (validTransitions _).
Qed.



(** C2. A successful [updateOrderStatus] on an existing order, for a target
    of the enumeration, leaves [statusHistory] equal to the former history
    followed by exactly one entry.  The entry holds the new status, the
    timestamp, the note (the one supplied, or "Order <status> by admin") and
    the acting admin; the length grows by exactly 1. *)
Theorem status_history_appended orderId o t info admin now w :
  orders (db w) !! orderId = Some o →
  includes ORDER_STATUSES.values t = true →
  is_updated (updateOrderStatus orderId t info admin now w).1 = true →
  ∃ o' e,
    order_after (updateOrderStatus orderId t info admin now w) orderId = Some o'
    ∧ o_statusHistory o' = Some (history o ++ [e])%list
    ∧ h_status e = t
    ∧ h_timestamp e = now
    ∧ h_note e = or_else (ui_note info)
                   ("Order " +:+ toLowerCase t +:+ " by admin")
    ∧ h_updatedBy e = Some admin
    ∧ length (history o') = S (length (history o)).
Proof.
  intros Ho Ht Hok.
  apply updateOrderStatus_updated_inv in Hok as (_ & Hkey & _ & Hitems).
  rewrite Ho in Hkey. simpl in Hkey. specialize (Hitems o Ho).
  rewrite (updateOrderStatus_run _ o); try done.
  destruct (apply_status_run orderId o t info admin now
              (after_check (o_status o) t w))
    as (u & w' & Happly & Hst & Hh & Hord & _); [|done|].
  { by rewrite after_check_orders. }
  rewrite Happly. unfold order_after. simpl. rewrite Hord, lookup_insert_eq.
  eexists _, (statusHistoryEntry o t info admin now).
  split; [reflexivity|]. simpl. rewrite Hh. simpl.
  repeat split; try done.
  unfold history at 1. simpl. rewrite Hh. simpl. rewrite length_app. simpl. lia.
Qed.

Lemma status_history_appended_witness :
  let run := updateOrderStatus "A" "Approved" no_info "admin" 5 Sample.shop in
  is_updated run.1 = true
  ∧ ∃ o' e, order_after run "A" = Some o'
            ∧ o_statusHistory o' = Some (history Sample.placed ++ [e])
            ∧ h_status e = "Approved"
            ∧ h_updatedBy e = Some "admin"
            ∧ length (history o') = 2%nat.
Proof.
  intros run. split; [reflexivity|].
  destruct (status_history_appended "A" Sample.placed "Approved" no_info
              "admin" 5 Sample.shop) as (o' & e & H1 & H2 & H3 & _ & _ & H6 & H7);
    [reflexivity..|].
  exists o', e. repeat split; assumption.
Defined.

(** X30. A successful transition to Declined or Cancelled of an order whose
    line items name pairwise distinct products restores the inventory: for
    every line item whose product document exists, the stock after the call
    is the stock before it (an absent counter counting as 0) plus the
    quantity of that item. *)
Theorem inventory_restored_on_decline_or_cancel orderId o t info admin now w :
  orders (db w) !! orderId = Some o →
  restoring t →
  NoDup (i_productId <$> items_of o) →
  is_updated (updateOrderStatus orderId t info admin now w).1 = true →
  is_Some (o_items o)
  ∧ restores_each_item (products (db w))
      (products (db (updateOrderStatus orderId t info admin now w).2))
      (items_of o).
Proof.
  intros Ho Hr Hnd Hok.
  apply updateOrderStatus_updated_inv in Hok as (Ht & Hkey & _ & Hitems).
  rewrite Ho in Hkey. simpl in Hkey. specialize (Hitems o Ho).
  split; [by apply Hitems|].
  rewrite (updateOrderStatus_run _ o); try done.
  assert (products (db (after_check (o_status o) t w)) = products (db w)) as Hsame.
  { unfold after_check. destruct (validTransitions _) as [allowed| |]; [|done..].
    by destruct (includes allowed t). }
  destruct (apply_status_run orderId o t info admin now
              (after_check (o_status o) t w))
    as (u & w' & Happly & _ & _ & _ & _ & _ & Hrest); [|done|].
  { by rewrite after_check_orders. }
  rewrite Happly. simpl. specialize (Hrest Hr). rewrite Hsame in Hrest.
  by apply restore_distinct.
Qed.

Lemma inventory_restored_witness :
  let run := updateOrderStatus "A" "Cancelled" no_info "admin" 5 Sample.shop in
  NoDup (i_productId <$> items_of Sample.placed)
  ∧ is_updated run.1 = true
  ∧ restores_each_item (products (db Sample.shop)) (products (db run.2))
      (items_of Sample.placed).
Proof.
  intros run.
  assert (NoDup (i_productId <$> items_of Sample.placed)) as Hnd.
  { apply (bool_decide_unpack _). reflexivity. }
  split; [exact Hnd|]. split; [reflexivity|].
  apply (inventory_restored_on_decline_or_cancel "A" Sample.placed "Cancelled"
           no_info "admin" 5 Sample.shop);
    [reflexivity|by right|exact Hnd|reflexivity].
Defined.


(** C10. A line item whose product document no longer exists is skipped by
    [restoreInventory]: the call behaves exactly as if the item were not in
    the list, it returns without an error, the product is still absent
    afterwards (no write was issued for it), and for the remaining items the
    restored stock is committed. *)
Theorem missing_product_is_skipped w before item rest :
  products (db w) !! i_productId item = None →
  let run := restoreInventory (Some (before ++ item :: rest)) w in
  run = restoreInventory (Some (before ++ rest)) w
  ∧ run.1 = Returned tt
  ∧ products (db run.2) !! i_productId item = None
  ∧ (∀ u, (i_productId item, u)
          ∉ restore_writes (products (db w)) (before ++ item :: rest))
  ∧ ∀ other p,
      other ∈ before ++ rest →
      products (db w) !! i_productId other = Some p →
      (∀ x, x ∈ before ++ rest → i_productId x = i_productId other →
            i_quantity x = i_quantity other) →
      ∃ p', products (db run.2) !! i_productId other = Some p'
            ∧ p_stock p' = Some (stock_of p + i_quantity other).
Proof.
  intros Hgone run.
  assert (restore_writes (products (db w)) (before ++ item :: rest)
          = restore_writes (products (db w)) (before ++ rest)) as Hw.
  { unfold restore_writes. rewrite !omap_app. simpl. by rewrite Hgone. }
  assert (run = restoreInventory (Some (before ++ rest)) w) as Hrun.
  { unfold run, restoreInventory, try_catch, mbind, eff_bind.
    by rewrite !restore_loop_run, Hw. }
  destruct (restoreInventory_run (before ++ rest) w) as (m' & Hm' & Hres).
  rewrite Hrun, Hres. simpl. repeat split.
  - by apply (apply_batch_None merge_product _ _ _ _ Hm').
  - intros u Hin. apply restore_writes_exist in Hin as [p Hp]. congruence.
  - intros other p Hin Hp Hsame.
    by apply (restore_stock _ _ (before ++ rest) other p Hm').
Qed.

Lemma missing_product_witness :
  let items := [Sample.line "p1" 2; Sample.line "gone" 4; Sample.line "p2" 1] in
  let run := restoreInventory (Some items) Sample.shop in
  products (db Sample.shop) !! "gone" = None
  ∧ run.1 = Returned tt
  ∧ products (db run.2) !! "gone" = None
  ∧ run = restoreInventory (Some [Sample.line "p1" 2; Sample.line "p2" 1])
            Sample.shop.
Proof.
  intros items run.
  destruct (missing_product_is_skipped Sample.shop [Sample.line "p1" 2]
              (Sample.line "gone" 4) [Sample.line "p2" 1])
    as (H1 & H2 & H3 & _); [reflexivity|].
  split; [reflexivity|]. split; [exact H2|]. split; [exact H3|exact H1].
Defined.

End StatusTheorems.

(** ** The status handler of the Orders page *)

Module OrdersPageTheorems.

(** C4. Whatever the target status -- Declined and Cancelled included -- the
    page's own [updateOrderStatus] leaves every product document, every
    customer copy and every other order as they were.  When it writes (the
    order exists and the confirmation was not refused) the order document
    changes in [status] and [statusHistory] only: no status-specific field is
    set and no stock is restored.  Otherwise nothing is written at all. *)
Theorem orders_page_writes_status_and_history_only `{Orders.ToastImport}
    orderId newStatus note confirmed now w :
  let run := Orders.updateOrderStatus orderId newStatus note confirmed now w in
  products (db run.2) = products (db w)
  ∧ userOrders (db run.2) = userOrders (db w)
  ∧ (∀ id, id ≠ orderId → orders (db run.2) !! id = orders (db w) !! id)
  ∧ match orders (db w) !! orderId with
    | Some o =>
        if declined_by_user newStatus confirmed then run.2 = w
        else orders (db run.2) !! orderId
             = Some (with_status_and_history newStatus
                       (default [] (o_statusHistory o)
                        ++ [page_entry newStatus note now]) o)
    | None => run.2 = w
    end.
Proof.
  intros run. unfold run, Orders.updateOrderStatus, try_catch, mbind, eff_bind,
    getOrder, read, declined_by_user.
  simpl. destruct (orders (db w) !! orderId) as [o|] eqn:Ho; simpl.
  - destruct (includes ["Declined"; "Cancelled"] newStatus && negb confirmed);
      simpl; [done|].
    rewrite (updateDoc_run _ _ o _ Ho). simpl. repeat split.
    + intros id Hne. by rewrite lookup_insert_ne.
    + rewrite lookup_insert_eq. f_equal.
      unfold merge_order, with_status_and_history, page_entry. simpl.
      by rewrite (left_id_L ∅ (∪)).
  - done.
Qed.

End OrdersPageTheorems.

(** ** Bulk operations and shipping validation *)

Module BulkTheorems.
Import AdminOrderService.

Lemma world_eta (w : World) :
  {| db := {| orders := orders (db w); products := products (db w);
              userOrders := userOrders (db w) |};
     warnings := warnings w |} = w.
Proof. by destruct w as [[? ? ?] ?]. Qed.

(** C6. [bulkOperation('update_status', [A, B], {status: S})] with [S] outside
    the enumeration, [A] stored and [B] not: both orders are processed, each
    gets its own failure entry ("Invalid status: S" for [A], "Order not
    found" for [B]), the counts are 0 successes and 2 failures, and the
    store is unchanged. *)
Theorem bulk_invalid_status_and_missing_order
    A B S o operationData adminUserId now w :
  orders (db w) !! A = Some o →
  orders (db w) !! B = None →
  od_status operationData = Some S →
  includes ORDER_STATUSES.values S = false →
  bulkOperation "update_status" [A; B] operationData adminUserId now w
  = (Returned (BulkDone "update_status" 2 0 2
                 [failed A ("Invalid status: " +:+ S);
                  failed B "Order not found"]), w)
  ∧ r_error (failed A ("Invalid status: " +:+ S))
    ≠ r_error (failed B "Order not found").
Proof.
  intros HA HB HS Hinvalid. split; [|done].
  unfold bulkOperation, try_catch, mbind, eff_bind. simpl.
  unfold bulk_step, try_catch, mbind, eff_bind, getOrder, read. simpl.
  rewrite HA. simpl. unfold bulk_update. simpl. rewrite HS, Hinvalid. simpl.
  rewrite HB. simpl. unfold commit_orders, write. simpl.
  unfold with_orders. by rewrite world_eta.
Qed.

Lemma bulk_invalid_status_witness :
  orders (db Sample.shop) !! "A" = Some Sample.placed
  ∧ orders (db Sample.shop) !! "B" = None
  ∧ bulkOperation "update_status" ["A"; "B"]
      {| od_status := Some "INVALID"; od_priority := None; od_tag := "";
         od_note := None |} "admin" 9 Sample.shop
    = (Returned (BulkDone "update_status" 2 0 2
                   [failed "A" "Invalid status: INVALID";
                    failed "B" "Order not found"]), Sample.shop).
Proof.
  split; [reflexivity|]. split; [reflexivity|].
  apply (bulk_invalid_status_and_missing_order "A" "B" "INVALID" Sample.placed);
    reflexivity.
Defined.

(** C7. A bulk operation on more than 50 order ids fails at once with the
    limit message, one on no order id with the "no order IDs" message; in
    both cases the store is exactly as before: no order is written. *)
Theorem bulk_size_is_validated operation orderIds operationData adminUserId now w :
  orderIds = [] ∨ (50 < length orderIds)%nat →
  bulkOperation operation orderIds operationData adminUserId now w
  = (Returned (BulkFailed (match orderIds with
                           | [] => empty_message
                           | _ => limit_message
                           end) operation), w).
Proof.
  intros Hsize. unfold bulkOperation, try_catch.
  destruct orderIds as [|orderId rest]; [done|].
  destruct Hsize as [?|Hlen]; [done|].
  rewrite bool_decide_eq_false_2; [|done].
  by rewrite bool_decide_eq_true_2.
Qed.

Lemma bulk_size_witness :
  (50 < length (replicate 51 "A"))%nat
  ∧ bulkOperation "update_status" (replicate 51 "A")
      {| od_status := Some "Approved"; od_priority := None; od_tag := "";
         od_note := None |} "admin" 9 Sample.shop
    = (Returned (BulkFailed limit_message "update_status"), Sample.shop).
Proof.
  assert (50 < length (replicate 51 "A"))%nat as Hlen by (vm_compute; lia).
  split; [exact Hlen|].
  apply (bulk_size_is_validated "update_status" (replicate 51 "A")).
  right. exact Hlen.
Defined.

(** C8. [updateShippingInfo] with an empty (or missing) tracking number, or
    an empty (or missing) carrier, fails with the validation message and
    changes nothing: the world after the call is the world before it, so the
    order keeps its status, its tracking descriptor and its history. *)
Theorem shipping_info_is_validated `{TimeZone}
    orderId shippingInfo adminUserId now w :
  falsy (si_trackingNumber shippingInfo) = true
  ∨ falsy (si_carrier shippingInfo) = true →
  let run := updateShippingInfo orderId shippingInfo adminUserId now w in
  run = (Returned (ShippingFailed
                     (if falsy (si_trackingNumber shippingInfo)
                      then "Tracking number is required for shipping updates"
                      else "Shipping carrier is required for shipping updates")),
         w)
  ∧ orders (db run.2) !! orderId = orders (db w) !! orderId.
Proof.
  intros Hempty run.
  assert (run = (Returned (ShippingFailed
                     (if falsy (si_trackingNumber shippingInfo)
                      then "Tracking number is required for shipping updates"
                      else "Shipping carrier is required for shipping updates")),
                 w)) as Hrun.
  { unfold run, updateShippingInfo, try_catch.
    destruct (falsy (si_trackingNumber shippingInfo)); [done|].
    destruct Hempty as [?|Hc]; [done|]. by rewrite Hc. }
  by rewrite Hrun.
Qed.

Lemma shipping_info_validation_witness :
  let si := {| si_trackingNumber := Some "X123"; si_carrier := Some "";
               si_service := None; si_weight := None; si_dimensions := None;
               si_shippingCost := None; si_notes := None |} in
  falsy (si_carrier si) = true
  ∧ @updateShippingInfo Sample.ist "A" si "admin" 9 Sample.shop
    = (Returned (ShippingFailed
                   "Shipping carrier is required for shipping updates"),
       Sample.shop).
Proof.
  intros si. split; [reflexivity|].
  apply (@shipping_info_is_validated Sample.ist "A" si "admin" 9 Sample.shop).
  by right.
Defined.

End BulkTheorems.

(** ** From checkout to shipment *)

Module Scenario.
Import ORDER_STATUSES AdminOrderService StatusProps StatusTheorems.

(** One transition of the table, seen from the order document. *)
Lemma transition_step id o cur t info admin now w :
  orders (db w) !! id = Some o →
  o_status o = Some cur →
  includes ORDER_STATUSES.values t = true →
  in_table (Some cur) t = true →
  items_readable o t →
  ∃ o', orders (db (updateOrderStatus id t info admin now w).2) !! id = Some o'
        ∧ o_status o' = Some t
        ∧ history o' = history o ++ [statusHistoryEntry o t info admin now].
Proof.
  intros Ho Hcur Ht Hin Hitems.
  rewrite (in_table_transition _ o); [|done..|by rewrite Hcur].
  destruct (apply_status_run id o t info admin now w Ho Hitems)
    as (u & w' & Happly & Hst & Hh & Hord & _).
  unfold reported, try_catch. rewrite Happly. simpl.
  rewrite Hord, lookup_insert_eq.
  eexists. split; [reflexivity|]. unfold history. simpl.
  by rewrite Hst, Hh.
Qed.

(** Shipping details with a tracking number and a carrier, on a Packed or
    Shipped order. *)
Lemma updateShippingInfo_run `{TimeZone}
    id o si trackingNumber carrier admin now w :
  orders (db w) !! id = Some o →
  si_trackingNumber si = Some trackingNumber → trackingNumber ≠ "" →
  si_carrier si = Some carrier → carrier ≠ "" →
  o_status o = Some PACKED ∨ o_status o = Some SHIPPED →
  ∃ o' e,
    orders (db (updateShippingInfo id si admin now w).2) !! id = Some o'
    ∧ o_status o' = Some SHIPPED
    ∧ tracking_code o' = Some (JStr trackingNumber)
    ∧ history o' = history o ++ [e]
    ∧ h_status e = SHIPPED.
Proof.
  intros Ho Htn Hne Hc Hcne Hst.
  unfold updateShippingInfo, try_catch.
  rewrite Htn, Hc. simpl.
  destruct trackingNumber as [|a s]; [done|].
  destruct carrier as [|a' s']; [done|]. simpl.
  unfold mbind, eff_bind, getOrder, read. simpl. rewrite Ho. simpl.
  assert (negb (bool_decide (o_status o = Some PACKED))
          && negb (bool_decide (o_status o = Some SHIPPED)) = false) as ->.
  { destruct Hst as [-> | ->]; reflexivity. }
  set (cfg := find_carrier (String a' s')).
  assert ((if defined cfg then mret tt
           else warn (WarnUnknownCarrier (String a' s'))) w
          = (Returned tt,
             {| db := db w;
                warnings := (if defined cfg then warnings w
                             else warnings w
                                  ++ [WarnUnknownCarrier (String a' s')]) |}))
    as ->.
  { destruct (defined cfg); [by destruct w|done]. }
  simpl.
  erewrite updateDoc_run; [|exact Ho]. simpl. rewrite lookup_insert_eq.
  eexists _, _. split; [reflexivity|]. unfold tracking_code, history. simpl.
  unfold trackingData. rewrite list_to_map_cons, lookup_insert_eq.
  repeat split; done.
Qed.

(** C5 (amended). An order created at checkout (status Placed, with the
    history entry the checkout writes), then approved, packed and given the
    shipping details [{carrier: 'DHL', trackingNumber: 'X123'}], ends with
    status Shipped, tracking code X123 and a status history of 4 entries: the
    one of the checkout and one for each of the three calls. *)
Theorem checkout_approve_pack_ship `{TimeZone} user customerName phone address
    cartItems catalog id info1 info2 admin t0 t1 t2 t3 w :
  ∃ o, orders (db (checkout_to_shipped user customerName phone address
                     cartItems catalog id info1 info2 admin t0 t1 t2 t3 w))
         !! id = Some o
       ∧ o_status o = Some SHIPPED
       ∧ tracking_code o = Some (JStr "X123")
       ∧ length (history o) = 4%nat.
Proof.
  unfold checkout_to_shipped.
  set (o0 := Cart.orderData user customerName phone address
               (Cart.cartDetails cartItems catalog) t0).
  set (w0 := (Cart.completeOrder _ _ _ _ _ _ _ _ _).2).
  assert (orders (db w0) !! id = Some o0) as H0.
  { unfold w0. simpl. apply lookup_insert_eq. }
  destruct (transition_step id o0 PLACED APPROVED info1 admin t1 w0)
    as (o1 & H1 & Hs1 & Hh1); [done..|by intros [?|?]|].
  destruct (transition_step id o1 APPROVED PACKED info2 admin t2 _ H1)
    as (o2 & H2 & Hs2 & Hh2); [done..|by intros [?|?]|].
  destruct (updateShippingInfo_run id o2 dhl_x123 "X123" "DHL" admin t3 _ H2)
    as (o3 & e & H3 & Hs3 & Hcode & Hh3 & _); [done..|by left|].
  exists o3. repeat split; try done.
  rewrite Hh3, Hh2, Hh1. by rewrite !length_app.
Qed.

(** The same run on a concrete shop: the history has 4 entries, not 3. *)
Lemma shipped_order_history_is_not_three :
  let final := @checkout_to_shipped Sample.ist
                 Sample.ann "Ann" "" Sample.home Sample.cart
                 Sample.catalog "A" no_info no_info "admin" 0 1 2 3
                 {| db := {| orders := ∅; products := ∅; userOrders := ∅ |};
                    warnings := [] |} in
  o_status <$> orders (db final) !! "A" = Some (Some "Shipped")
  ∧ (orders (db final) !! "A" ≫= tracking_code) = Some (JStr "X123")
  ∧ length ∘ history <$> orders (db final) !! "A" = Some 4%nat
  ∧ ¬ ∃ o, orders (db final) !! "A" = Some o
           ∧ o_status o = Some "Shipped"
           ∧ tracking_code o = Some (JStr "X123")
           ∧ length (history o) = 3%nat.
Proof.
  intros final.
  assert (length ∘ history <$> orders (db final) !! "A" = Some 4%nat) as H4
    by reflexivity.
  repeat split; try reflexivity.
  intros (o & Ho & _ & _ & Hlen).
  rewrite Ho in H4. simpl in H4. rewrite Hlen in H4. discriminate H4.
Qed.

End Scenario.

(** ** The total shown to the customer *)

Module TotalsTheorems.
Import MyAccount.

Lemma falsy_Qc_zero (x : option Qc) :
  falsy x = true → or_else x 0%Qc = 0%Qc.
Proof.
  destruct x as [q|]; simpl; [|done]. unfold truthy, truthy_Qc.
  destruct (Qc_eq_bool q 0) eqn:Hq; simpl; [done|discriminate].
Qed.

Lemma or_else_untruthy (q : Qc) :
  truthy q = false → q = 0%Qc.
Proof.
  unfold truthy, truthy_Qc. intros Hq. apply Qc_eq_bool_correct.
  by destruct (Qc_eq_bool q 0).
Qed.

(** The amount shown for a document without a stored total. *)
Lemma displayed_total_is_calculated data :
  no_stored_total data →
  displayedTotal (ensureTotal data) = calculatedTotal data.
Proof.
  intros [Hta Ht]. unfold ensureTotal, displayedTotal. rewrite Hta, Ht.
  cbn [andb set_totalAmount o_totalAmount o_total or_opt].
  destruct (truthy (calculatedTotal data)) eqn:Hc.
  - cbn [or_else]. by rewrite Hc.
  - rewrite (falsy_Qc_zero _ Ht). symmetry. by apply or_else_untruthy.
Qed.

End TotalsTheorems.

(** ** The missing total as the code computes it *)

Module DoubleTotals.
Import PrimFloat Float64 FloatTerms.

Lemma falsy_or_zero (x : option float) :
  falsy x = true → or_else x 0%float = 0%float.
Proof.
  destruct x as [v|]; simpl; [|done].
  by destruct (truthy v).
Qed.

(** Two doubles that [==] tells apart are different. *)
Lemma eqb_false_ne (x y : float) : (x =? y)%float = false → (y =? y)%float = true → x ≠ y.
Proof. intros Hxy Hyy ->. congruence. Qed.

(** C9 (amended). For a document that stores no total, [fetchOrders] sets
    [totalAmount] to subtotal + tax + 0 + importDuty - discount, added from
    the left on the doubles of the code, a component that is absent (or zero,
    or not a number) counting as 0; the 0 stands for shipping, and a stored
    shipping cost does not enter the result.  That sum is the amount then
    shown, except that a sum that is zero or not a number is shown as 0.
    With subtotal 100, tax 18, discount 0 and no import duty the amount is
    exactly 118. *)
Theorem missing_total_is_reconstructed data :
  no_total data →
  let sum := (subtotal_of data + tax_of data + 0 + importDuty_of data
              - discount_of data)%float in
  d_totalAmount (ensureTotal data) = Some sum
  ∧ displayedTotal (ensureTotal data) = or_else (Some sum) 0%float
  ∧ (∀ cost, ensureTotal (with_shippingCost cost data)
             = with_shippingCost cost (ensureTotal data))
  ∧ (subtotal_of data = 100%float → tax_of data = 18%float →
     discount_of data = 0%float → importDuty_of data = 0%float →
     d_totalAmount (ensureTotal data) = Some 118%float
     ∧ displayedTotal (ensureTotal data) = 118%float).
Proof.
  intros [Hta Ht] sum.
  assert (ensureTotal data = set_totalAmount sum data) as Hensure.
  { unfold ensureTotal. by rewrite Hta, Ht. }
  assert (displayedTotal (ensureTotal data) = or_else (Some sum) 0%float)
    as Hshown.
  { rewrite Hensure. unfold displayedTotal.
    cbn [set_totalAmount d_totalAmount d_total or_opt or_else].
    destruct (truthy sum) eqn:Hsum; cbn [or_else].
    - by rewrite Hsum.
    - by apply falsy_or_zero. }
  split; [by rewrite Hensure|]. split; [exact Hshown|]. split.
  - intros cost. unfold ensureTotal, with_shippingCost. simpl.
    by destruct (falsy (d_totalAmount data) && falsy (d_total data)).
  - intros Hs Htax Hd Hi. rewrite Hshown, Hensure. unfold sum.
    rewrite Hs, Htax, Hd, Hi. split; reflexivity.
Qed.

Lemma missing_total_witness :
  let data := bare_amounts 100 18 0 None (Some 0%float) in
  no_total data
  ∧ d_totalAmount (ensureTotal data) = Some 118%float
  ∧ displayedTotal (ensureTotal data) = 118%float.
Proof.
  intros data.
  assert (no_total data) as Hno by (split; reflexivity).
  destruct (missing_total_is_reconstructed data Hno) as (_ & _ & _ & H118).
  split; [exact Hno|]. by apply H118.
Defined.

(** Import duty is added, a stored shipping cost is not, and nothing keeps
    the result from being negative. *)
Lemma total_is_not_the_stated_formula :
  let dutied := bare_amounts 100 18 0 (Some 5%float) (Some 0%float) in
  let shipped := bare_amounts 100 18 0 None (Some 10%float) in
  let discounted := bare_amounts 10 0 30 None None in
  (no_total dutied
   ∧ displayedTotal (ensureTotal dutied) = 123%float
   ∧ stated_total dutied = 118%float
   ∧ displayedTotal (ensureTotal dutied) ≠ stated_total dutied)
  ∧ (no_total shipped
     ∧ displayedTotal (ensureTotal shipped) = 118%float
     ∧ stated_total shipped = 128%float
     ∧ displayedTotal (ensureTotal shipped) ≠ stated_total shipped)
  ∧ (no_total discounted
     ∧ d_totalAmount (ensureTotal discounted) = Some (-20)%float
     ∧ displayedTotal (ensureTotal discounted) = (-20)%float
     ∧ (displayedTotal (ensureTotal discounted) <? 0)%float = true).
Proof.
  intros dutied shipped discounted.
  split; [|split]; (split; [by split|]); repeat split;
    try reflexivity; by apply eqb_false_ne.
Qed.

End DoubleTotals.

(** * Further properties of the admin service *)

Module ServiceProps.
Import ORDER_STATUSES AdminOrderService RestoreProps StatusProps StatusTheorems.

Lemma after_check_db cur t w : db (after_check cur t w) = db w.
Proof.
  unfold after_check. destruct (validTransitions _) as [allowed| |]; [|done..].
  by destruct (includes allowed t).
Qed.

Lemma transaction_committed orderId o u w :
  orders (db w) !! orderId = Some o →
  transaction orderId o u w
  = (Returned tt, {| db := committed orderId o u (db w);
                     warnings := warnings w |}).
Proof.
  intros Ho. unfold transaction, mbind, eff_bind, getOrder, read; simpl.
  by rewrite Ho.
Qed.

(** The whole call, when the [switch] adds its fields without touching the
    store (every target but Declined and Cancelled). *)
Lemma updateOrderStatus_committed orderId o t info admin now u w :
  orders (db w) !! orderId = Some o →
  includes ORDER_STATUSES.values t = true →
  validTransitions (show (o_status o)) ≠ Inherited →
  (∀ w0, status_specific o t info admin now
           (base_update o t info admin now) w0 = (Returned u, w0)) →
  updateOrderStatus orderId t info admin now w
  = (Returned (StatusUpdated ("Order status successfully updated to " +:+ t)
                 orderId (o_status o) t now u),
     {| db := committed orderId o u (db w);
        warnings := warnings (after_check (o_status o) t w) |}).
Proof.
  intros Ho Ht Hkey Hsw.
  rewrite (updateOrderStatus_reported _ o); try done.
  unfold reported, try_catch, apply_status, mbind, eff_bind. rewrite Hsw.
  rewrite transaction_committed; [|by rewrite after_check_db].
  simpl. by rewrite after_check_db.
Qed.

Lemma is_updated_key orderId o t info admin now w :
  orders (db w) !! orderId = Some o →
  is_updated (updateOrderStatus orderId t info admin now w).1 = true →
  includes ORDER_STATUSES.values t = true
  ∧ validTransitions (show (o_status o)) ≠ Inherited
  ∧ items_readable o t.
Proof.
  intros Ho Hok.
  apply updateOrderStatus_updated_inv in Hok as (Ht & Hkey & _ & Hitems).
  rewrite Ho in Hkey. repeat split; try done. by apply Hitems.
Qed.

Lemma invalid_status_run orderId t info admin now w :
  includes ORDER_STATUSES.values t = false →
  updateOrderStatus orderId t info admin now w
  = (Returned (StatusFailed ("Invalid order status: " +:+ t
                             +:+ ". Must be one of: " +:+ valid_list)
                            orderId), w).
Proof.
  intros Ht. unfold updateOrderStatus, try_catch. by rewrite Ht.
Qed.

Lemma missing_order_run orderId t info admin now w :
  includes ORDER_STATUSES.values t = true →
  orders (db w) !! orderId = None →
  updateOrderStatus orderId t info admin now w
  = (Returned (StatusFailed ("Order with ID " +:+ orderId
                             +:+ " not found in database") orderId), w).
Proof.
  intros Ht Hnone.
  unfold updateOrderStatus, try_catch, mbind, eff_bind, getOrder, read.
  rewrite Ht. simpl. by rewrite Hnone.
Qed.

(** X1. A target that is not one of the eight statuses is rejected before
    anything is read: the result is a failure naming the valid statuses and
    the world is unchanged. *)
Theorem invalid_status_is_rejected orderId t info admin now w :
  includes ORDER_STATUSES.values t = false →
  updateOrderStatus orderId t info admin now w
  = (Returned (StatusFailed ("Invalid order status: " +:+ t
                             +:+ ". Must be one of: " +:+ valid_list)
                            orderId), w).
Proof. apply invalid_status_run. Qed.

Lemma invalid_status_witness :
  includes ORDER_STATUSES.values "Lost" = false
  ∧ updateOrderStatus "A" "Lost" no_info "admin" 5 Sample.shop
    = (Returned (StatusFailed ("Invalid order status: Lost. Must be one of: "
                               +:+ valid_list) "A"), Sample.shop).
Proof.
  split; [reflexivity|].
  apply (invalid_status_is_rejected "A" "Lost" no_info "admin" 5 Sample.shop).
  reflexivity.
Defined.

(** X2. A valid target for an order id that is not in the store fails with
    "Order with ID ... not found in database"; no document is created and
    nothing else changes. *)
Theorem missing_order_is_rejected orderId t info admin now w :
  includes ORDER_STATUSES.values t = true →
  orders (db w) !! orderId = None →
  updateOrderStatus orderId t info admin now w
  = (Returned (StatusFailed ("Order with ID " +:+ orderId
                             +:+ " not found in database") orderId), w).
Proof. apply missing_order_run. Qed.

Lemma missing_order_witness :
  orders (db Sample.shop) !! "Z" = None
  ∧ updateOrderStatus "Z" "Approved" no_info "admin" 5 Sample.shop
    = (Returned (StatusFailed "Order with ID Z not found in database" "Z"),
       Sample.shop).
Proof.
  split; [reflexivity|].
  apply (missing_order_is_rejected "Z" "Approved" no_info "admin" 5 Sample.shop);
    reflexivity.
Defined.

(** X3. Whatever its arguments and its outcome, [updateOrderStatus] leaves
    every other order document as it was, and it leaves the product
    collection as it was unless the target is Declined or Cancelled. *)
Theorem updateOrderStatus_frame orderId t info admin now w :
  let run := updateOrderStatus orderId t info admin now w in
  (∀ other, other ≠ orderId →
            orders (db run.2) !! other = orders (db w) !! other)
  ∧ (t ≠ DECLINED → t ≠ CANCELLED → products (db run.2) = products (db w)).
Proof.
  intros run.
  destruct (includes ORDER_STATUSES.values t) eqn:Ht;
    [|unfold run; by rewrite invalid_status_run].
  destruct (orders (db w) !! orderId) as [o|] eqn:Ho;
    [|unfold run; by rewrite missing_order_run].
  destruct (validTransitions (show (o_status o))) as [allowed| |] eqn:Hv.
  2:{ unfold run, updateOrderStatus, try_catch, mbind, eff_bind, getOrder, read.
      rewrite Ht. simpl. rewrite Ho. simpl. unfold check_transition.
      by rewrite Hv. }
  all: assert (validTransitions (show (o_status o)) ≠ Inherited) as Hkey
    by (by rewrite Hv).
  all: clear Hv.
  all: destruct (decide (restoring t ∧ o_items o = None)) as [[Hr Hnone]|Hitems];
    [unfold run; rewrite (updateOrderStatus_absent _ o) by done; simpl;
     rewrite after_check_db; split; [done|];
     intros Hd Hc; by destruct Hr
    |].
  all: assert (items_readable o t) as Hread
    by (intros Hr; destruct (o_items o); [by eexists|by destruct Hitems]).
  all: unfold run; rewrite (updateOrderStatus_run _ o); try done.
  all: destruct (apply_status_run orderId o t info admin now
              (after_check (o_status o) t w))
    as (u & w' & Happly & _ & _ & Hord & _ & Hkeep & _);
    [by rewrite after_check_db|done|].
  all: rewrite Happly; simpl; rewrite after_check_db in Hord, Hkeep; split;
    [intros other Hne; by rewrite Hord, lookup_insert_ne
    |intros Hd Hc; apply Hkeep; by intros [?|?]].
Qed.

Lemma status_specific_approved o info admin now u w :
  status_specific o APPROVED info admin now u w
  = (Returned (set_priority
                 (or_else (or_opt (ui_priority info) (o_priority o))
                          ORDER_PRIORITIES.NORMAL)
              (set_extra "approvedBy" (JStr admin)
              (set_extra "approvedAt" JServerTimestamp u))), w).
Proof. reflexivity. Qed.

(** X4. Approving an order stores a priority: the one given with the
    request, else the one the order already has, else "normal" (an empty
    string counting as none); it also records who approved. *)
Theorem approval_assigns_priority orderId o info admin now w :
  orders (db w) !! orderId = Some o →
  is_updated (updateOrderStatus orderId APPROVED info admin now w).1 = true →
  ∃ o', order_after (updateOrderStatus orderId APPROVED info admin now w) orderId
        = Some o'
        ∧ o_priority o'
          = Some (or_else (or_opt (ui_priority info) (o_priority o)) "normal")
        ∧ o_extra o' !! "approvedBy" = Some (JStr admin).
Proof.
  intros Ho Hok.
  destruct (is_updated_key _ _ _ _ _ _ _ Ho Hok) as (Ht & Hkey & _).
  erewrite updateOrderStatus_committed;
    [|done..|intros w0; apply status_specific_approved].
  unfold order_after, committed. simpl.
  eexists. split.
  - destruct (negb (falsy (o_userId o))); simpl; apply lookup_insert_eq.
  - split; [done|]. simpl. apply lookup_union_Some_l.
    by rewrite lookup_insert_eq.
Qed.

Lemma approval_priority_witness :
  let run := updateOrderStatus "A" "Approved" no_info "admin" 5 Sample.shop in
  is_updated run.1 = true
  ∧ ∃ o', order_after run "A" = Some o' ∧ o_priority o' = Some "normal".
Proof.
  intros run. split; [reflexivity|].
  destruct (approval_assigns_priority "A" Sample.placed no_info "admin" 5
              Sample.shop) as (o' & Ho' & Hp & _); [reflexivity..|].
  exists o'. split; [exact Ho'|exact Hp].
Defined.

Lemma status_specific_packed o info admin now u w :
  status_specific o PACKED info admin now u w
  = (Returned
       (let u' := set_extra "packingNotes"
                    (JStr (or_else (ui_packingNotes info) ""))
                  (set_extra "packedBy" (JStr admin)
                  (set_extra "packedAt" JServerTimestamp u)) in
        if falsy (o_tracking o ≫= (.!! "carrier")) then
          set_tracking
            (<["carrier" := JStr (if negb (bool_decide
                                             (o_shippingCountry o = Some "India"))
                                  then "DHL" else "IndiaPost")]>
               (obj (o_tracking o))) u'
        else u'), w).
Proof.
  unfold status_specific. simpl.
  by destruct (falsy (o_tracking o ≫= (.!! "carrier"))).
Qed.

(** X5. Packing an order that has no carrier yet assigns one: IndiaPost when
    the shipping country is exactly "India", DHL otherwise (also when no
    country is recorded); the other members of the tracking descriptor are
    kept.  An order that already has a carrier keeps its tracking
    descriptor untouched. *)
Theorem packing_assigns_carrier orderId o info admin now w :
  orders (db w) !! orderId = Some o →
  is_updated (updateOrderStatus orderId PACKED info admin now w).1 = true →
  ∃ o', order_after (updateOrderStatus orderId PACKED info admin now w) orderId
        = Some o'
        ∧ (falsy (tracking_field "carrier" o) = true →
           tracking_field "carrier" o'
           = Some (JStr (if bool_decide (o_shippingCountry o = Some "India")
                         then "IndiaPost" else "DHL"))
           ∧ ∀ key, key ≠ "carrier" →
                    tracking_field key o' = tracking_field key o)
        ∧ (falsy (tracking_field "carrier" o) = false →
           o_tracking o' = o_tracking o).
Proof.
  intros Ho Hok.
  destruct (is_updated_key _ _ _ _ _ _ _ Ho Hok) as (Ht & Hkey & _).
  erewrite updateOrderStatus_committed;
    [|done..|intros w0; apply status_specific_packed].
  unfold order_after, committed, tracking_field. simpl.
  eexists. split.
  { destruct (negb (falsy (o_userId o))); simpl; apply lookup_insert_eq. }
  split; intros Hc; rewrite Hc; simpl; [|done].
  split.
  - rewrite lookup_insert_eq.
    by destruct (bool_decide (o_shippingCountry o = Some "India")).
  - intros key Hne. rewrite lookup_insert_ne; [|done].
    unfold obj. by destruct (o_tracking o).
Qed.

Lemma packing_carrier_witness :
  let w := (updateOrderStatus "A" "Approved" no_info "admin" 5 Sample.shop).2 in
  let run := updateOrderStatus "A" "Packed" no_info "admin" 6 w in
  is_updated run.1 = true
  ∧ ∃ o', order_after run "A" = Some o'
          ∧ tracking_field "carrier" o' = Some (JStr "DHL").
Proof.
  intros w run. split; [reflexivity|].
  set (o := default Sample.placed (orders (db w) !! "A")).
  destruct (packing_assigns_carrier "A" o no_info "admin" 6 w)
    as (o' & Ho' & Hnew & _); [reflexivity..|].
  exists o'. split; [exact Ho'|]. by apply Hnew.
Defined.

(** The call with the store it leaves, for any target. *)
Lemma updateOrderStatus_world orderId o t info admin now w :
  orders (db w) !! orderId = Some o →
  includes ORDER_STATUSES.values t = true →
  validTransitions (show (o_status o)) ≠ Inherited →
  items_readable o t →
  ∃ u d1,
    updateOrderStatus orderId t info admin now w
    = (Returned (StatusUpdated ("Order status successfully updated to " +:+ t)
                   orderId (o_status o) t now u),
       {| db := committed orderId o u d1;
          warnings := warnings (after_check (o_status o) t w) |})
    ∧ u_status u = Some t
    ∧ u_statusHistory u
      = Some (history o ++ [statusHistoryEntry o t info admin now])
    ∧ orders d1 = orders (db w)
    ∧ userOrders d1 = userOrders (db w)
    ∧ (¬ restoring t → products d1 = products (db w))
    ∧ (restoring t →
         apply_batch merge_product
           (restore_writes (products (db w)) (items_of o)) (products (db w))
         = Some (products d1)).
Proof.
  intros Ho Ht Hkey Hitems. rewrite (updateOrderStatus_run _ o); try done.
  destruct (status_specific_run o t info admin now
              (base_update o t info admin now) (after_check (o_status o) t w)
              Hitems)
    as (u & w1 & Hsw & Hst & Hh & Hwarn & Hord & Huo & Hkeep & Hrest).
  rewrite after_check_db in Hord, Huo, Hkeep, Hrest.
  exists u, (db w1). unfold apply_status, mbind, eff_bind. rewrite Hsw.
  rewrite transaction_committed; [|by rewrite Hord]. simpl.
  rewrite Hwarn. repeat split; try done.
Qed.

Lemma committed_order orderId o u d :
  orders (committed orderId o u d) !! orderId = Some (merge_order u o).
Proof.
  unfold committed.
  destruct (negb (falsy (o_userId o))); simpl; apply lookup_insert_eq.
Qed.

Lemma committed_products orderId o u d :
  products (committed orderId o u d) = products d.
Proof. unfold committed. by destruct (negb (falsy (o_userId o))). Qed.

(** X6. After a successful status update of an order that names its
    customer, every copy of the order kept under that customer (the
    documents of users/{userId}/orders whose globalOrderId is the order's id)
    carries the new status and the order's new status history; every other
    customer document is unchanged.  For an order without a customer id no
    customer document changes. *)
Theorem customer_copies_follow orderId o t info admin now w :
  orders (db w) !! orderId = Some o →
  is_updated (updateOrderStatus orderId t info admin now w).1 = true →
  let after := userOrders (db (updateOrderStatus orderId t info admin now w).2) in
  (falsy (o_userId o) = true → after = userOrders (db w))
  ∧ ∀ userId key doc,
      o_userId o = Some userId → userId ≠ "" →
      userOrders (db w) !! key = Some doc →
      ∃ doc', after !! key = Some doc'
        ∧ (copy_of userId orderId key doc →
           o_status doc' = Some t
           ∧ o_statusHistory doc'
             = Some (history o ++ [statusHistoryEntry o t info admin now]))
        ∧ (¬ copy_of userId orderId key doc → doc' = doc).
Proof.
  intros Ho Hok after.
  destruct (is_updated_key _ _ _ _ _ _ _ Ho Hok) as (Ht & Hkey & Hitems).
  destruct (updateOrderStatus_world orderId o t info admin now w Ho Ht Hkey
              Hitems)
    as (u & d1 & Hrun & Hst & Hh & _ & Huo & _).
  unfold after. rewrite Hrun. simpl. unfold committed. split.
  - intros Hnone. rewrite Hnone. simpl. exact Huo.
  - intros userId key doc Huid Hne Hdoc. rewrite Huid. simpl.
    destruct userId as [|a s]; [done|]. simpl.
    unfold sync_user_orders. rewrite map_lookup_imap, Huo, Hdoc. simpl.
    eexists. split; [reflexivity|]. unfold copy_of.
    case_bool_decide as Hcopy; split; try done.
    intros _. simpl. by rewrite Hst, Hh.
Qed.

Lemma customer_copies_witness :
  let copy := as_copy "A" Sample.placed in
  let w := {| db := {| orders := {[ "A" := Sample.placed ]};
                       products := ∅;
                       userOrders := {[ ("u1", "c1") := copy ]} |};
              warnings := [] |} in
  let run := updateOrderStatus "A" "Approved" no_info "admin" 5 w in
  is_updated run.1 = true
  ∧ ∃ doc', userOrders (db run.2) !! ("u1", "c1") = Some doc'
            ∧ o_status doc' = Some "Approved".
Proof.
  intros copy w run. split; [vm_compute; reflexivity|].
  destruct (customer_copies_follow "A" Sample.placed "Approved" no_info
              "admin" 5 w) as [_ Hcopies];
    [vm_compute; reflexivity..|].
  destruct (Hcopies "u1" ("u1", "c1") copy) as (doc' & Hdoc' & Hnew & _);
    [reflexivity|done|vm_compute; reflexivity|].
  exists doc'. split; [exact Hdoc'|]. apply Hnew. split; reflexivity.
Defined.

Lemma stock_of_Some p x : p_stock p = Some x → stock_of p = x.
Proof.
  unfold stock_of. intros ->. simpl. unfold truthy, truthy_Z.
  destruct (Z.eqb_spec x 0); simpl; congruence.
Qed.

(** A successful transition to Declined or Cancelled: the order stored
    afterwards, and the products after the committed restoration. *)
Lemma restoring_run orderId o t info admin now w :
  orders (db w) !! orderId = Some o →
  restoring t →
  is_updated (updateOrderStatus orderId t info admin now w).1 = true →
  let after := db (updateOrderStatus orderId t info admin now w).2 in
  (∃ o', orders after !! orderId = Some o'
         ∧ o_items o' = o_items o ∧ o_status o' = Some t)
  ∧ is_Some (o_items o)
  ∧ apply_batch merge_product
      (restore_writes (products (db w)) (items_of o)) (products (db w))
    = Some (products after).
Proof.
  intros Ho Hr Hok after.
  destruct (is_updated_key _ _ _ _ _ _ _ Ho Hok) as (Ht & Hkey & Hitems).
  destruct (updateOrderStatus_world orderId o t info admin now w Ho Ht Hkey
              Hitems)
    as (u & d1 & Hrun & Hst & _ & _ & _ & _ & Hrest).
  unfold after. rewrite Hrun. simpl. split; [|split].
  - eexists. split; [apply committed_order|]. simpl. by rewrite Hst.
  - by apply Hitems.
  - rewrite committed_products. by apply Hrest.
Qed.

(** X7. Nothing records that an order's inventory was restored: when an
    order with pairwise distinct products is declined or cancelled and then
    declined or cancelled again, the second call succeeds as well and the
    stock of each of its existing products ends at the original stock plus
    twice the ordered quantity. *)
Theorem repeated_cancellation_restores_twice
    orderId o t1 t2 info1 info2 admin1 admin2 now1 now2 w :
  orders (db w) !! orderId = Some o →
  restoring t1 → restoring t2 →
  NoDup (i_productId <$> items_of o) →
  is_updated (updateOrderStatus orderId t1 info1 admin1 now1 w).1 = true →
  let w1 := (updateOrderStatus orderId t1 info1 admin1 now1 w).2 in
  let run2 := updateOrderStatus orderId t2 info2 admin2 now2 w1 in
  is_updated run2.1 = true
  ∧ ∀ item p, item ∈ items_of o →
      products (db w) !! i_productId item = Some p →
      ∃ p2, products (db run2.2) !! i_productId item = Some p2
            ∧ p_stock p2 = Some (stock_of p + 2 * i_quantity item).
Proof.
  intros Ho Hr1 Hr2 Hnd Hok1 w1 run2.
  destruct (restoring_run orderId o t1 info1 admin1 now1 w Ho Hr1 Hok1)
    as ((o1 & Ho1 & Hitems & Hst1) & Hsome & Hbatch1).
  fold w1 in Ho1, Hbatch1.
  assert (items_of o1 = items_of o) as Hlist
    by (unfold items_of; by rewrite Hitems).
  assert (includes ORDER_STATUSES.values t2 = true) as Ht2.
  { by destruct Hr2 as [-> | ->]. }
  assert (validTransitions (show (o_status o1)) ≠ Inherited) as Hkey2.
  { rewrite Hst1. by destruct Hr1 as [-> | ->]. }
  assert (is_updated run2.1 = true) as Hok2.
  { unfold run2.
    destruct (updateOrderStatus_world orderId o1 t2 info2 admin2 now2 w1
                Ho1 Ht2 Hkey2) as (u & d1 & Hrun & _).
    { intros _. by rewrite Hitems. }
    by rewrite Hrun. }
  split; [exact Hok2|].
  destruct (restoring_run orderId o1 t2 info2 admin2 now2 w1 Ho1 Hr2 Hok2)
    as (_ & _ & Hbatch2).
  rewrite Hlist in Hbatch2.
  intros item p Hin Hp.
  destruct (restore_distinct _ _ _ Hbatch1 Hnd item p Hin Hp)
    as (p1 & Hp1 & Hstock1).
  destruct (restore_distinct _ _ _ Hbatch2 Hnd item p1 Hin Hp1)
    as (p2 & Hp2 & Hstock2).
  exists p2. split; [exact Hp2|].
  rewrite Hstock2, (stock_of_Some _ _ Hstock1). f_equal. lia.
Qed.

Lemma repeated_cancellation_witness :
  let w1 := (updateOrderStatus "A" "Cancelled" no_info "admin" 5 Sample.shop).2 in
  let run2 := updateOrderStatus "A" "Cancelled" no_info "admin" 6 w1 in
  is_updated run2.1 = true
  ∧ ∃ p2, products (db run2.2) !! "p1" = Some p2 ∧ p_stock p2 = Some 14.
Proof.
  intros w1 run2.
  destruct (repeated_cancellation_restores_twice "A" Sample.placed
              "Cancelled" "Cancelled" no_info no_info "admin" "admin" 5 6
              Sample.shop) as [Hok Hstock].
  - reflexivity.
  - by right.
  - by right.
  - apply (bool_decide_unpack _). reflexivity.
  - vm_compute. reflexivity.
  - split; [exact Hok|].
    destruct (Hstock (Sample.line "p1" 2) Sample.pen) as (p2 & Hp2 & Hs);
      [by left|reflexivity|].
    exists p2. split; [exact Hp2|exact Hs].
Defined.

Lemma status_specific_refunded o info admin now u w :
  status_specific o REFUNDED info admin now u w
  = (Returned
       (set_extra "refundMethod"
          (JStr (or_else (ui_refundMethod info) "original_payment_method"))
       (set_extra "refundReason"
          (JStr (or_else (ui_reason info) "Refund processed"))
          (match or_opt (ui_refundAmount info) (o_total o) with
           | Some amount =>
               set_extra "refundAmount" (JNum amount)
                 (set_extra "refundedBy" (JStr admin)
                 (set_extra "refundedAt" JServerTimestamp u))
           | None => set_extra "refundedBy" (JStr admin)
                     (set_extra "refundedAt" JServerTimestamp u)
           end))), w).
Proof. reflexivity. Qed.

(** X8. A refund records the amount given with the request; when the request
    gives none -- or gives 0 -- it records the order's stored [total]
    instead.  The refund method defaults to "original_payment_method". *)
Theorem refund_amount_defaults_to_total orderId o info admin now amount w :
  orders (db w) !! orderId = Some o →
  or_opt (ui_refundAmount info) (o_total o) = Some amount →
  is_updated (updateOrderStatus orderId REFUNDED info admin now w).1 = true →
  ∃ o', order_after (updateOrderStatus orderId REFUNDED info admin now w) orderId
        = Some o'
        ∧ o_extra o' !! "refundAmount" = Some (JNum amount)
        ∧ o_extra o' !! "refundMethod"
          = Some (JStr (or_else (ui_refundMethod info)
                                "original_payment_method")).
Proof.
  intros Ho Hamount Hok.
  destruct (is_updated_key _ _ _ _ _ _ _ Ho Hok) as (Ht & Hkey & _).
  erewrite updateOrderStatus_committed;
    [|done..|intros w0; apply status_specific_refunded].
  unfold order_after. simpl. rewrite committed_order.
  eexists. split; [reflexivity|]. rewrite Hamount. simpl.
  split; apply lookup_union_Some_l.
  - rewrite lookup_insert_ne; [|done]. rewrite lookup_insert_ne; [|done].
    apply lookup_insert_eq.
  - apply lookup_insert_eq.
Qed.

Lemma refund_amount_witness :
  let w := {| db := {| orders := {[ "R" := billed (Qc_of_Z 118) ]};
                       products := ∅; userOrders := ∅ |};
              warnings := [] |} in
  let run := updateOrderStatus "R" "Refunded" no_info "admin" 5 w in
  is_updated run.1 = true
  ∧ ∃ o', order_after run "R" = Some o'
          ∧ o_extra o' !! "refundAmount" = Some (JNum (Qc_of_Z 118)).
Proof.
  intros w run. split; [vm_compute; reflexivity|].
  destruct (refund_amount_defaults_to_total "R" (billed (Qc_of_Z 118)) no_info
              "admin" 5 (Qc_of_Z 118) w) as (o' & Ho' & Ha & _);
    [reflexivity|reflexivity|vm_compute; reflexivity|].
  exists o'. split; [exact Ho'|exact Ha].
Defined.

End ServiceProps.

(** * Further properties of shipping updates *)

Module ShippingProps.
Import ORDER_STATUSES AdminOrderService StatusProps.

(** The call on an order that may be shipped, with a tracking number and a
    carrier: the write and the warning. *)
Lemma addDays_fixed_offset `{TimeZone} t days :
  fixed_offset → addDays t days = t + days * msPerDay.
Proof.
  intros Hfixed. unfold addDays, UTC, LocalTime.
  rewrite (Hfixed (t + LocalTZA t true + days * msPerDay) t false true). lia.
Qed.

Lemma updateShippingInfo_committed `{TimeZone}
    id o si trackingNumber carrier admin now w :
  orders (db w) !! id = Some o →
  si_trackingNumber si = Some trackingNumber → trackingNumber ≠ "" →
  si_carrier si = Some carrier → carrier ≠ "" →
  shippable o →
  let cfg := find_carrier carrier in
  updateShippingInfo id si admin now w
  = (Returned (ShippingUpdated "Shipping information updated successfully"
                 id trackingNumber (or_else (c_name <$> cfg) carrier)
                 (addDays now (or_else (c_standardDays <$> cfg) 7))
                 (or_null (JStr <$> (c_trackingUrl <$> cfg)))),
     {| db := with_orders
                <[id := merge_order
                          (shipping_update o si trackingNumber carrier admin now)
                          o]> (db w);
        warnings := if defined cfg then warnings w
                    else warnings w ++ [WarnUnknownCarrier carrier] |}).
Proof.
  intros Ho Htn Hne Hc Hcne Hst cfg.
  unfold updateShippingInfo, try_catch.
  rewrite Htn, Hc. simpl.
  destruct trackingNumber as [|a s]; [done|].
  destruct carrier as [|a' s']; [done|]. simpl.
  unfold mbind, eff_bind, getOrder, read. simpl. rewrite Ho. simpl.
  assert (negb (bool_decide (o_status o = Some PACKED))
          && negb (bool_decide (o_status o = Some SHIPPED)) = false) as ->.
  { destruct Hst as [-> | ->]; reflexivity. }
  fold cfg.
  assert ((if defined cfg then mret tt
           else warn (WarnUnknownCarrier (String a' s'))) w
          = (Returned tt,
             {| db := db w;
                warnings := (if defined cfg then warnings w
                             else warnings w
                                  ++ [WarnUnknownCarrier (String a' s')]) |}))
    as ->.
  { destruct (defined cfg); [by destruct w|done]. }
  simpl. erewrite updateDoc_run; [|exact Ho]. reflexivity.
Qed.

(** X9. Shipping details for an order that is not in the store, or whose
    status is neither Packed nor Shipped, are refused: the result is a
    failure whose message names the missing order, or the current status,
    and the world is unchanged. *)
Theorem shipping_needs_packed_or_shipped `{TimeZone}
    id si trackingNumber carrier admin now w :
  si_trackingNumber si = Some trackingNumber → trackingNumber ≠ "" →
  si_carrier si = Some carrier → carrier ≠ "" →
  (∀ o, orders (db w) !! id = Some o → ¬ shippable o) →
  updateShippingInfo id si admin now w
  = (Returned (ShippingFailed
       match orders (db w) !! id with
       | None => "Order " +:+ id +:+ " not found"
       | Some o =>
           "Order must be in Packed or Shipped status to update shipping info. Current status: "
           +:+ show (o_status o)
       end), w).
Proof.
  intros Htn Hne Hc Hcne Hnot.
  unfold updateShippingInfo, try_catch.
  rewrite Htn, Hc. simpl.
  destruct trackingNumber as [|a s]; [done|].
  destruct carrier as [|a' s']; [done|]. simpl.
  unfold mbind, eff_bind, getOrder, read. simpl.
  destruct (orders (db w) !! id) as [o|]; simpl; [|done].
  specialize (Hnot o eq_refl). unfold shippable in Hnot.
  rewrite !bool_decide_eq_false_2; [done|tauto..].
Qed.

Lemma shipping_needs_packed_witness :
  @updateShippingInfo Sample.ist "A" dhl_x123 "admin" 9 Sample.shop
  = (Returned (ShippingFailed
       "Order must be in Packed or Shipped status to update shipping info. Current status: Placed"),
     Sample.shop).
Proof.
  apply (@shipping_needs_packed_or_shipped Sample.ist "A" dhl_x123 "X123" "DHL"
           "admin" 9 Sample.shop); [reflexivity|done|reflexivity|done|].
  intros o Ho. vm_compute in Ho. injection Ho as <-.
  intros [H|H]; discriminate H.
Defined.

(** A carrier is recognised by its name or its code, whatever the case of
    the letters. *)
Lemma find_carrier_known c s :
  c ∈ SHIPPING_CARRIERS.values →
  toLowerCase s = toLowerCase (c_name c)
  ∨ toLowerCase s = toLowerCase (c_code c) →
  find_carrier s = Some c.
Proof.
  unfold SHIPPING_CARRIERS.values. intros Hc Hs.
  repeat (apply elem_of_cons in Hc as [->|Hc]);
    [..|by apply elem_of_nil in Hc];
    unfold find_carrier, SHIPPING_CARRIERS.values; cbn [List.find];
    destruct Hs as [-> | ->]; reflexivity.
Qed.

Ltac tracking_lookup :=
  unfold trackingData; rewrite ?list_to_map_cons;
  repeat (rewrite lookup_insert_ne by done); rewrite lookup_insert_eq.

Lemma shipped_order `{TimeZone} id o si trackingNumber carrier admin now w :
  orders (db w) !! id = Some o →
  si_trackingNumber si = Some trackingNumber → trackingNumber ≠ "" →
  si_carrier si = Some carrier → carrier ≠ "" →
  shippable o →
  order_after (updateShippingInfo id si admin now w) id
  = Some (merge_order (shipping_update o si trackingNumber carrier admin now) o).
Proof.
  intros. unfold order_after.
  rewrite (updateShippingInfo_committed id o si trackingNumber carrier); try done.
  simpl. apply lookup_insert_eq.
Qed.

(** X10. When the carrier given with the shipping details matches one of the
    four configured carriers by name or by code, letter case aside, the
    stored tracking descriptor carries that carrier's canonical name, code and
    tracking URL, and no warning is logged.  The estimated delivery is the
    local date and time of the call moved by the carrier's standard number of
    calendar days, as [setDate] moves it in the time zone of the runtime;
    where the offset of that zone never changes, this is exactly so many
    times 24 hours after the call. *)
Theorem known_carrier_is_normalised `{TimeZone}
    id o si trackingNumber carrier c admin now w :
  orders (db w) !! id = Some o →
  si_trackingNumber si = Some trackingNumber → trackingNumber ≠ "" →
  si_carrier si = Some carrier → carrier ≠ "" →
  shippable o →
  c ∈ SHIPPING_CARRIERS.values →
  toLowerCase carrier = toLowerCase (c_name c)
  ∨ toLowerCase carrier = toLowerCase (c_code c) →
  let run := updateShippingInfo id si admin now w in
  warnings run.2 = warnings w
  ∧ ∃ o', order_after run id = Some o'
      ∧ tracking_field "carrier" o' = Some (JStr (c_name c))
      ∧ tracking_field "carrierCode" o' = Some (JStr (c_code c))
      ∧ tracking_field "url" o' = Some (JStr (c_trackingUrl c))
      ∧ tracking_field "estimatedDelivery" o'
        = Some (JTime (UTC (LocalTime now + c_standardDays c * msPerDay)))
      ∧ (fixed_offset →
         tracking_field "estimatedDelivery" o'
         = Some (JTime (now + c_standardDays c * msPerDay))).
Proof.
  intros Ho Htn Hne Hc Hcne Hst Hin Hmatch run.
  pose proof (find_carrier_known c carrier Hin Hmatch) as Hfind.
  split.
  - unfold run.
    rewrite (updateShippingInfo_committed id o si trackingNumber carrier);
      try done.
    simpl. by rewrite Hfind.
  - eexists. split; [by apply shipped_order|].
    assert (tracking_field "estimatedDelivery"
              (merge_order
                 (shipping_update o si trackingNumber carrier admin now) o)
            = Some (JTime (addDays now (c_standardDays c)))) as Heta.
    { unfold tracking_field. simpl. unfold SHIPPING_CARRIERS.values in Hin.
      repeat (apply elem_of_cons in Hin as [->|Hin]);
        [..|by apply elem_of_nil in Hin];
        (tracking_lookup; by rewrite Hfind). }
    split; [|split; [|split; [|split; [exact Heta|]]]].
    4:{ intros Hfixed. rewrite Heta. by rewrite addDays_fixed_offset. }
    all: unfold tracking_field; simpl;
      unfold SHIPPING_CARRIERS.values in Hin;
      repeat (apply elem_of_cons in Hin as [->|Hin]);
        [..|by apply elem_of_nil in Hin];
        (tracking_lookup; by rewrite Hfind).
Qed.

Lemma known_carrier_witness :
  let w := (updateOrderStatus "A" "Packed" no_info "admin" 6 Sample.shop).2 in
  let si := {| si_trackingNumber := Some "X123"; si_carrier := Some "fedex";
               si_service := None; si_weight := None; si_dimensions := None;
               si_shippingCost := None; si_notes := None |} in
  let run := @updateShippingInfo Sample.ist "A" si "admin" 9 w in
  let noon := 1000 * msPerDay - 43200000 in
  let switch := @updateShippingInfo Sample.summer "A" si "admin" noon w in
  warnings run.2 = warnings w
  ∧ (∃ o', order_after run "A" = Some o'
           ∧ tracking_field "carrier" o' = Some (JStr "FedEx")
           ∧ tracking_field "estimatedDelivery" o'
             = Some (JTime (9 + 3 * msPerDay)))
  ∧ ∃ o', order_after switch "A" = Some o'
          ∧ tracking_field "estimatedDelivery" o'
            = Some (JTime (noon + 3 * msPerDay - 3600000)).
Proof.
  intros w si run noon switch.
  set (o := default Sample.placed (orders (db w) !! "A")).
  destruct (@known_carrier_is_normalised Sample.ist "A" o si "X123" "fedex"
              SHIPPING_CARRIERS.FEDEX "admin" 9 w)
    as (Hw & o' & Ho' & Hname & _ & _ & _ & Heta);
    [reflexivity|reflexivity|done|reflexivity|done|by left| |by right|].
  { unfold SHIPPING_CARRIERS.values. set_solver. }
  destruct (@known_carrier_is_normalised Sample.summer "A" o si "X123" "fedex"
              SHIPPING_CARRIERS.FEDEX "admin" noon w)
    as (_ & o2 & Ho2 & _ & _ & _ & Heta2 & _);
    [reflexivity|reflexivity|done|reflexivity|done|by left| |by right|].
  { unfold SHIPPING_CARRIERS.values. set_solver. }
  split; [exact Hw|]. split.
  - exists o'. split; [exact Ho'|]. split; [exact Hname|].
    apply Heta. by intros ? ? ? ?.
  - exists o2. split; [exact Ho2|]. rewrite Heta2. reflexivity.
Defined.

(** X11. A carrier that matches none of the configured ones is accepted as it
    is given: one warning is logged, the descriptor keeps the carrier string
    and takes [null] as the URL; its code is the carrier in upper case, here
    for a carrier written in ASCII characters.  The estimated delivery is the
    local date and time of the call moved by 7 calendar days, exactly 7 times
    24 hours where the offset of the zone never changes. *)
Theorem unknown_carrier_is_accepted `{TimeZone}
    id o si trackingNumber carrier admin now w :
  orders (db w) !! id = Some o →
  si_trackingNumber si = Some trackingNumber → trackingNumber ≠ "" →
  si_carrier si = Some carrier → carrier ≠ "" →
  ascii_only carrier = true →
  shippable o →
  find_carrier carrier = None →
  let run := updateShippingInfo id si admin now w in
  shipping_updated run.1 = true
  ∧ warnings run.2 = warnings w ++ [WarnUnknownCarrier carrier]
  ∧ ∃ o', order_after run id = Some o'
      ∧ tracking_field "carrier" o' = Some (JStr carrier)
      ∧ tracking_field "carrierCode" o' = Some (JStr (toUpperCase carrier))
      ∧ tracking_field "url" o' = Some JNull
      ∧ tracking_field "estimatedDelivery" o'
        = Some (JTime (UTC (LocalTime now + 7 * msPerDay)))
      ∧ (fixed_offset →
         tracking_field "estimatedDelivery" o'
         = Some (JTime (now + 7 * msPerDay))).
Proof.
  intros Ho Htn Hne Hc Hcne _ Hst Hfind run.
  assert (toUpperCase carrier ≠ "") as Hup by (by destruct carrier).
  unfold run.
  rewrite (updateShippingInfo_committed id o si trackingNumber carrier);
    try done.
  rewrite Hfind. simpl. repeat split.
  unfold order_after. simpl. rewrite lookup_insert_eq.
  eexists. split; [reflexivity|].
  assert (tracking_field "estimatedDelivery"
            (merge_order
               (shipping_update o si trackingNumber carrier admin now) o)
          = Some (JTime (addDays now 7))) as Heta.
  { unfold tracking_field. simpl. tracking_lookup. by rewrite Hfind. }
  split; [|split; [|split; [|split; [exact Heta|]]]].
  4:{ intros Hfixed. rewrite Heta. by rewrite addDays_fixed_offset. }
  all: unfold tracking_field; simpl; tracking_lookup; rewrite Hfind; simpl;
    try done; try (by destruct carrier); by destruct (toUpperCase carrier).
Qed.

Lemma unknown_carrier_witness :
  let w := (updateOrderStatus "A" "Packed" no_info "admin" 6 Sample.shop).2 in
  let si := {| si_trackingNumber := Some "X123"; si_carrier := Some "Acme";
               si_service := None; si_weight := None; si_dimensions := None;
               si_shippingCost := None; si_notes := None |} in
  let run := @updateShippingInfo Sample.ist "A" si "admin" 9 w in
  find_carrier "Acme" = None
  ∧ ascii_only "Acme" = true
  ∧ shipping_updated run.1 = true
  ∧ warnings run.2 = warnings w ++ [WarnUnknownCarrier "Acme"]
  ∧ ∃ o', order_after run "A" = Some o'
          ∧ tracking_field "carrierCode" o' = Some (JStr "ACME").
Proof.
  intros w si run.
  set (o := default Sample.placed (orders (db w) !! "A")).
  destruct (@unknown_carrier_is_accepted Sample.ist "A" o si "X123" "Acme"
              "admin" 9 w)
    as (Hok & Hw & o' & Ho' & _ & Hcode & _);
    [reflexivity|reflexivity|done|reflexivity|done|reflexivity|by left
    |reflexivity|].
  split; [reflexivity|]. split; [reflexivity|]. split; [exact Hok|].
  split; [exact Hw|]. exists o'. split; [exact Ho'|exact Hcode].
Defined.

(** X12. Shipping details for a Packed order, and again for an order that is
    already Shipped, are applied: the status is Shipped, the history gains
    exactly one entry (so re-sending the details adds another one), the
    tracking code is the number given, and no product, customer copy or other
    order is touched. *)
Theorem shipping_details_are_applied `{TimeZone}
    id o si trackingNumber carrier admin now w :
  orders (db w) !! id = Some o →
  si_trackingNumber si = Some trackingNumber → trackingNumber ≠ "" →
  si_carrier si = Some carrier → carrier ≠ "" →
  shippable o →
  let run := updateShippingInfo id si admin now w in
  shipping_updated run.1 = true
  ∧ products (db run.2) = products (db w)
  ∧ userOrders (db run.2) = userOrders (db w)
  ∧ (∀ other, other ≠ id →
              orders (db run.2) !! other = orders (db w) !! other)
  ∧ ∃ o' e, order_after run id = Some o'
      ∧ o_status o' = Some SHIPPED
      ∧ o_items o' = o_items o
      ∧ tracking_field "code" o' = Some (JStr trackingNumber)
      ∧ history o' = history o ++ [e]
      ∧ h_status e = SHIPPED
      ∧ h_updatedBy e = Some admin.
Proof.
  intros Ho Htn Hne Hc Hcne Hst run. unfold run, order_after.
  rewrite (updateShippingInfo_committed id o si trackingNumber carrier);
    try done.
  simpl. repeat split.
  - intros other Hother. by rewrite lookup_insert_ne.
  - rewrite lookup_insert_eq. eexists _, _. split; [reflexivity|].
    unfold tracking_field, history. simpl.
    repeat split; try by tracking_lookup.
Qed.

Lemma shipping_details_witness :
  let w1 := (updateOrderStatus "A" "Packed" no_info "admin" 6 Sample.shop).2 in
  let w2 := (@updateShippingInfo Sample.ist "A" dhl_x123 "admin" 7 w1).2 in
  let run := @updateShippingInfo Sample.ist "A" dhl_x123 "admin" 8 w2 in
  shipping_updated run.1 = true
  ∧ length ∘ history <$> order_after run "A" = Some 4%nat.
Proof.
  intros w1 w2 run.
  set (o := default Sample.placed (orders (db w2) !! "A")).
  destruct (@shipping_details_are_applied Sample.ist "A" o dhl_x123 "X123" "DHL"
              "admin" 8 w2) as (Hok & _);
    [reflexivity|reflexivity|done|reflexivity|done|by right|].
  split; [exact Hok|reflexivity].
Defined.

End ShippingProps.

(** * Further properties of bulk operations *)

Module BulkProps.
Import ORDER_STATUSES AdminOrderService StatusProps.

Section establish.
Context {D U : Type} (merge : U → D → D) (P : D → Prop).

(** What every queued write to [k] establishes holds after the commit, as
    soon as one write to [k] is queued (or it held before). *)
Lemma apply_batch_establish (batch : list (string * U))
    (m m' : gmap string D) k d :
  apply_batch merge batch m = Some m' →
  m !! k = Some d →
  (∀ u d0, (k, u) ∈ batch → P (merge u d0)) →
  (P d ∨ ∃ u, (k, u) ∈ batch) →
  ∃ d', m' !! k = Some d' ∧ P d'.
Proof.
  revert m d. induction batch as [|[id u] rest IH]; intros m d Hrun Hk Hall Hex;
    simpl in Hrun.
  - simplify_eq. destruct Hex as [Hv|[u Hin]]; [eauto|]. by apply elem_of_nil in Hin.
  - destruct (m !! id) as [d0|] eqn:Hd0; [|done].
    destruct (decide (id = k)) as [->|Hne].
    + eapply (IH _ _ Hrun).
      * apply lookup_insert_eq.
      * intros u' d1 Hin. apply Hall. by right.
      * left. apply Hall. by left.
    + eapply (IH _ _ Hrun).
      * rewrite lookup_insert_ne; [exact Hk|done].
      * intros u' d1 Hin. apply Hall. by right.
      * destruct Hex as [Hv|[u' Hin]]; [by left|right].
        apply elem_of_cons in Hin as [Heq|Hin]; [congruence|eauto].
Qed.

End establish.

Lemma bulk_step_run op od admin now orderId acc w :
  bulk_step op od admin now orderId acc w
  = (Returned (step_pure (orders (db w)) op od admin now orderId acc), w).
Proof.
  destruct acc as [results batch].
  unfold bulk_step, step_pure, try_catch, mbind, eff_bind, getOrder, read.
  simpl. destruct (orders (db w) !! orderId) as [o|]; simpl; [|done].
  destruct (bulk_update op od admin now o) as [e|u]; simpl; [done|].
  by destruct (has_keys u).
Qed.

Lemma bulk_loop_run op od admin now orderIds acc w :
  bulk_loop op od admin now orderIds acc w
  = (Returned (loop_pure (orders (db w)) op od admin now orderIds acc), w).
Proof.
  revert acc. induction orderIds as [|orderId rest IH]; intros acc; simpl.
  - done.
  - unfold mbind, eff_bind. rewrite bulk_step_run. apply IH.
Qed.

(** What the loop adds to the results and to the batch. *)
Lemma loop_pure_grows m op od admin now orderIds acc :
  ∃ results batch,
    loop_pure m op od admin now orderIds acc
    = (acc.1 ++ results, acc.2 ++ batch)
    ∧ (length results ≤ length orderIds)%nat
    ∧ length (List.filter r_success results) = length batch
    ∧ (∀ k u, (k, u) ∈ batch → k ∈ orderIds ∧ is_Some (m !! k)).
Proof.
  revert acc. induction orderIds as [|orderId rest IH]; intros acc.
  - exists [], []. unfold loop_pure. simpl. rewrite !app_nil_r.
    split; [by destruct acc|]. split; [done|]. split; [done|].
    intros k u Hin. by apply elem_of_nil in Hin.
  - unfold loop_pure in *. simpl.
    destruct (IH (step_pure m op od admin now orderId acc))
      as (results & batch & Hloop & Hlen & Hsucc & Hin).
    rewrite Hloop. clear Hloop IH.
    assert (∀ k u, (k, u) ∈ batch
                   → k ∈ orderId :: rest ∧ is_Some (m !! k)) as Hin'.
    { intros k u Hu. destruct (Hin k u Hu). split; [by right|done]. }
    clear Hin. unfold step_pure.
    destruct (m !! orderId) as [o|] eqn:Ho; simpl.
    + destruct (bulk_update op od admin now o) as [e|u]; simpl.
      * exists (failed orderId e :: results), batch.
        rewrite <- app_assoc. simpl. split; [done|].
        split; [lia|]. split; [done|exact Hin'].
      * destruct (has_keys u); simpl.
        -- exists (succeeded orderId op :: results), ((orderId, u) :: batch).
           rewrite <- !app_assoc. simpl. split; [done|].
           split; [lia|]. split; [lia|].
           intros k u0 Hu.
           apply elem_of_cons in Hu as [Heq|Hu]; [|by apply (Hin' _ _ Hu)].
           simplify_eq. split; [by left|by eexists].
        -- exists results, batch. split; [done|].
           split; [lia|]. split; [done|exact Hin'].
    + exists (failed orderId "Order not found" :: results), batch.
      rewrite <- app_assoc. simpl. split; [done|].
      split; [lia|]. split; [done|exact Hin'].
Qed.

(** The whole call on a selection of accepted size. *)
Lemma bulkOperation_run op orderIds od admin now w :
  accepted_size orderIds →
  ∃ results batch m',
    loop_pure (orders (db w)) op od admin now orderIds ([], [])
    = (results, batch)
    ∧ apply_batch merge_order batch (orders (db w)) = Some m'
    ∧ (length results ≤ length orderIds)%nat
    ∧ length (List.filter r_success results) = length batch
    ∧ (∀ k u, (k, u) ∈ batch → k ∈ orderIds)
    ∧ bulkOperation op orderIds od admin now w
      = (Returned (BulkDone op (length orderIds)
                     (length (List.filter r_success results))
                     (length (List.filter (λ r, negb (r_success r)) results))
                     results),
         {| db := with_orders (λ _, m') (db w); warnings := warnings w |}).
Proof.
  intros [Hne Hlen].
  destruct (loop_pure_grows (orders (db w)) op od admin now orderIds ([], []))
    as (results & batch & Hloop & Hres & Hsucc & Hin).
  simpl in Hloop.
  destruct (apply_batch_is_Some merge_order batch (orders (db w))) as [m' Hm'].
  { intros k u Hu. by apply (Hin k u). }
  exists results, batch, m'. repeat (split; [done|]).
  split; [intros k u Hu; by apply (Hin k u)|].
  unfold bulkOperation, try_catch, mbind, eff_bind.
  rewrite bool_decide_eq_false_2; [|by destruct orderIds].
  rewrite bool_decide_eq_false_2; [|lia].
  rewrite bulk_loop_run, Hloop. simpl. unfold commit_orders. by rewrite Hm'.
Qed.

Lemma filter_split {A} (f : A → bool) (l : list A) :
  (length (List.filter f l) + length (List.filter (λ x, negb (f x)) l)
   = length l)%nat.
Proof.
  induction l as [|x l IH]; simpl; [done|].
  destruct (f x); simpl; lia.
Qed.

(** X13. Whatever the operation and its outcome, [bulkOperation] changes
    order documents only, and only those whose ids were listed: products
    (no stock is restored, not even by a bulk Declined or Cancelled),
    customer copies, the warnings and all other orders are as before. *)
Theorem bulk_operation_frame op orderIds od admin now w :
  let run := bulkOperation op orderIds od admin now w in
  products (db run.2) = products (db w)
  ∧ userOrders (db run.2) = userOrders (db w)
  ∧ warnings run.2 = warnings w
  ∧ ∀ other, other ∉ orderIds →
             orders (db run.2) !! other = orders (db w) !! other.
Proof.
  intros run.
  destruct (decide (orderIds = [] ∨ (50 < length orderIds)%nat)) as [Hbad|Hok].
  - assert (run.2 = w) as ->; [|done].
    unfold run, bulkOperation, try_catch.
    destruct orderIds as [|orderId rest]; [done|].
    destruct Hbad as [?|Hlen]; [done|].
    rewrite bool_decide_eq_false_2; [|done].
    by rewrite bool_decide_eq_true_2.
  - assert (accepted_size orderIds) as Hsize.
    { split; [tauto|]. destruct (decide (length orderIds ≤ 50)%nat); [done|].
      exfalso. apply Hok. right. lia. }
    destruct (bulkOperation_run op orderIds od admin now w Hsize)
      as (results & batch & m' & _ & Hm' & _ & _ & Hin & Hrun).
    unfold run. rewrite Hrun. simpl. repeat split.
    intros other Hother.
    apply (apply_batch_frame merge_order _ _ _ _ Hm').
    intros u Hu. apply Hother. by apply (Hin other u).
Qed.

(** X14. A bulk operation of accepted size (1 to 50 ids) always completes,
    and its counts add up: successCount + failureCount is the number of
    result entries, which never exceeds the number of ids.  (An order may
    produce no entry at all, see the tag that is already present.) *)
Theorem bulk_counts_add_up op orderIds od admin now w :
  accepted_size orderIds →
  let run := bulkOperation op orderIds od admin now w in
  bulk_done run.1 = true
  ∧ ∃ total successes failures,
      bulk_counts run.1 = (total, successes, failures)
      ∧ total = length orderIds
      ∧ (successes + failures)%nat = length (bulk_results run.1)
      ∧ (length (bulk_results run.1) ≤ total)%nat.
Proof.
  intros Hsize run.
  destruct (bulkOperation_run op orderIds od admin now w Hsize)
    as (results & batch & m' & _ & _ & Hlen & _ & _ & Hrun).
  unfold run. rewrite Hrun. simpl. split; [done|].
  eexists _, _, _. split; [reflexivity|]. split; [done|].
  split; [apply filter_split|done].
Qed.

Lemma bulk_counts_witness :
  let od := {| od_status := Some "Approved"; od_priority := None; od_tag := "";
               od_note := None |} in
  let run := bulkOperation "update_status" ["A"; "Z"] od "admin" 9 Sample.shop in
  accepted_size ["A"; "Z"]
  ∧ bulk_done run.1 = true
  ∧ bulk_counts run.1 = (2, 1, 1)%nat.
Proof.
  intros od run.
  assert (accepted_size ["A"; "Z"]) as Hsize by (split; [done|simpl; lia]).
  destruct (bulk_counts_add_up "update_status" ["A"; "Z"] od "admin" 9
              Sample.shop Hsize) as [Hdone _].
  split; [exact Hsize|]. split; [exact Hdone|reflexivity].
Defined.

(** When every iteration adds nothing, the loop adds nothing. *)
Lemma loop_pure_idle m op od admin now orderIds acc :
  (∀ orderId, orderId ∈ orderIds →
              step_pure m op od admin now orderId acc = acc) →
  loop_pure m op od admin now orderIds acc = acc.
Proof.
  unfold loop_pure. induction orderIds as [|orderId rest IH]; intros Hidle;
    simpl; [done|].
  rewrite Hidle; [|by left]. apply IH. intros k Hk. apply Hidle. by right.
Qed.

(** When every iteration adds one result, and possibly one write. *)
Lemma loop_pure_uniform m op od admin now
    (res : string → ItemResult) (wr : string → option OrderUpdate)
    orderIds acc :
  (∀ orderId acc', orderId ∈ orderIds →
     step_pure m op od admin now orderId acc'
     = (acc'.1 ++ [res orderId],
        acc'.2 ++ option_list ((orderId,.) <$> wr orderId))) →
  loop_pure m op od admin now orderIds acc
  = (acc.1 ++ (res <$> orderIds),
     acc.2 ++ omap (λ orderId, (orderId,.) <$> wr orderId) orderIds).
Proof.
  unfold loop_pure. revert acc.
  induction orderIds as [|orderId rest IH]; intros acc Hstep; simpl.
  - rewrite !app_nil_r. by destruct acc.
  - rewrite Hstep; [|by left]. rewrite IH; [|intros; apply Hstep; by right].
    simpl. rewrite <- !app_assoc. f_equal.
    by destruct (wr orderId).
Qed.

Lemma omap_none {A B} (f : A → option B) (l : list A) :
  (∀ x, f x = None) → omap f l = [].
Proof.
  intros Hf. induction l as [|x l IH]; [done|]. simpl. by rewrite Hf.
Qed.

Lemma count_all_failed {A} (res : A → ItemResult) (l : list A) :
  (∀ x, r_success (res x) = false) →
  List.filter r_success (res <$> l) = []
  ∧ length (List.filter (λ r, negb (r_success r)) (res <$> l)) = length l.
Proof.
  intros Hres. induction l as [|x l [IH1 IH2]]; [done|].
  rewrite fmap_cons. simpl. rewrite Hres. simpl. by rewrite IH1, IH2.
Qed.

Lemma count_by_presence (m : gmap string Order) (res : string → ItemResult)
    (l : list string) :
  (∀ k, r_success (res k) = bool_decide (is_Some (m !! k))) →
  length (List.filter r_success (res <$> l))
  = length (List.filter (λ k, bool_decide (is_Some (m !! k))) l)
  ∧ length (List.filter (λ r, negb (r_success r)) (res <$> l))
    = length (List.filter (λ k, negb (bool_decide (is_Some (m !! k)))) l).
Proof.
  intros Hres. induction l as [|x l [IH1 IH2]]; [done|].
  rewrite fmap_cons. simpl. rewrite Hres.
  destruct (bool_decide (is_Some (m !! x))); simpl; by rewrite IH1, IH2.
Qed.

Lemma world_same (w : World) m :
  m = orders (db w) →
  {| db := with_orders (λ _, m) (db w); warnings := warnings w |} = w.
Proof. intros ->. by destruct w as [[? ? ?] ?]. Qed.

(** X15. Adding a tag to orders that all carry it already is a silent no-op:
    the operation completes with no result entry at all (0 successes and 0
    failures for any number of orders) and the world is unchanged. *)
Theorem bulk_add_tag_already_present orderIds od admin now w :
  accepted_size orderIds →
  (∀ orderId, orderId ∈ orderIds →
     ∃ o, orders (db w) !! orderId = Some o ∧ od_tag od ∈ tags_of o) →
  bulkOperation "add_tag" orderIds od admin now w
  = (Returned (BulkDone "add_tag" (length orderIds) 0 0 []), w).
Proof.
  intros Hsize Htagged.
  destruct (bulkOperation_run "add_tag" orderIds od admin now w Hsize)
    as (results & batch & m' & Hloop & Hm' & _ & _ & _ & Hrun).
  rewrite loop_pure_idle in Hloop.
  - simplify_eq. simpl in Hm'. simplify_eq. rewrite Hrun. simpl.
    by rewrite world_same.
  - intros orderId Hin. destruct (Htagged orderId Hin) as (o & Ho & Htag).
    unfold step_pure. rewrite Ho. unfold bulk_update. simpl.
    unfold includes. fold (tags_of o). by rewrite bool_decide_eq_true_2.
Qed.

Lemma bulk_add_tag_witness :
  let tagged := Sample.twice in
  let od := {| od_status := None; od_priority := None; od_tag := "gift";
               od_note := None |} in
  let w0 := {| db := {| orders := {[ "D" := Sample.twice ]};
                        products := ∅; userOrders := ∅ |};
               warnings := [] |} in
  let w := (bulkOperation "add_tag" ["D"] od "admin" 1 w0).2 in
  bulk_counts (bulkOperation "add_tag" ["D"] od "admin" 1 w0).1 = (1, 1, 0)%nat
  ∧ bulkOperation "add_tag" ["D"; "D"; "D"] od "admin" 2 w
    = (Returned (BulkDone "add_tag" 3 0 0 []), w).
Proof.
  intros tagged od w0 w. split; [reflexivity|].
  apply (bulk_add_tag_already_present ["D"; "D"; "D"] od "admin" 2 w).
  - split; [done|simpl; lia].
  - intros orderId Hin.
    assert (orderId = "D") as ->.
    { repeat (apply elem_of_cons in Hin as [->|Hin]); try done.
      by apply elem_of_nil in Hin. }
    eexists. split; [vm_compute; reflexivity|].
    unfold tags_of. simpl. by left.
Defined.

(** X16. After a bulk remove_tag of accepted size, every listed order that
    exists has lost the tag and kept its other tags, in their order; the
    order is reported as a success even when it never carried the tag. *)
Theorem bulk_remove_tag_removes orderIds od admin now w orderId o :
  accepted_size orderIds →
  orderId ∈ orderIds →
  orders (db w) !! orderId = Some o →
  let run := bulkOperation "remove_tag" orderIds od admin now w in
  succeeded orderId "remove_tag" ∈ bulk_results run.1
  ∧ ∃ o', order_after run orderId = Some o'
      ∧ tags_of o' = List.filter (λ tag, negb (bool_decide (tag = od_tag od)))
                       (tags_of o)
      ∧ (od_tag od ∉ tags_of o')
      ∧ ∀ tag, tag ≠ od_tag od → (tag ∈ tags_of o' ↔ tag ∈ tags_of o).
Proof.
  intros Hsize Hin Ho run.
  set (keep := List.filter (λ tag, negb (bool_decide (tag = od_tag od)))).
  set (wr := λ k : string,
         (λ o0, {| u_status := None; u_statusHistory := None;
                   u_priority := None; u_tracking := None;
                   u_tags := Some (keep (tags_of o0));
                   u_adminNotes := None; u_extra := stamp admin |})
         <$> orders (db w) !! k).
  set (res := λ k : string,
         match orders (db w) !! k with
         | Some _ => succeeded k "remove_tag"
         | None => failed k "Order not found"
         end).
  destruct (bulkOperation_run "remove_tag" orderIds od admin now w Hsize)
    as (results & batch & m' & Hloop & Hm' & _ & _ & _ & Hrun).
  rewrite (loop_pure_uniform _ _ _ _ _ res wr) in Hloop.
  2:{ intros k acc' _. unfold step_pure, res, wr.
      destruct (orders (db w) !! k) as [o0|]; simpl; [done|].
      by rewrite app_nil_r. }
  simpl in Hloop. simplify_eq.
  unfold run, order_after. rewrite Hrun. simpl. split.
  { apply list_elem_of_fmap. exists orderId. split; [|done].
    unfold res. by rewrite Ho. }
  destruct (apply_batch_establish merge_order
              (λ d, tags_of d = keep (tags_of o)) _ _ _ orderId o Hm' Ho)
    as (o' & Ho' & Htags).
  - intros u d0 Hu. apply list_elem_of_omap in Hu as (k & _ & Hk).
    unfold wr in Hk. destruct (orders (db w) !! k) as [o0|] eqn:Hk0;
      by simplify_eq/=.
  - right. eexists. apply list_elem_of_omap. exists orderId.
    split; [done|]. unfold wr. by rewrite Ho.
  - exists o'. split; [done|]. split; [done|]. rewrite Htags. unfold keep.
    split.
    + rewrite list_elem_of_In, filter_In.
      intros [_ Hf]. by rewrite bool_decide_eq_true_2 in Hf.
    + intros tag Hne.
      rewrite !list_elem_of_In, filter_In.
      rewrite bool_decide_eq_false_2; [|done]. simpl. tauto.
Qed.

Lemma bulk_remove_tag_witness :
  let od := {| od_status := None; od_priority := None; od_tag := "gift";
               od_note := None |} in
  let run := bulkOperation "remove_tag" ["A"] od "admin" 9 Sample.shop in
  accepted_size ["A"]
  ∧ succeeded "A" "remove_tag" ∈ bulk_results run.1
  ∧ ∃ o', order_after run "A" = Some o' ∧ tags_of o' = [].
Proof.
  intros od run.
  assert (accepted_size ["A"]) as Hsize by (split; [done|simpl; lia]).
  destruct (bulk_remove_tag_removes ["A"] od "admin" 9 Sample.shop "A"
              Sample.placed Hsize) as (Hres & o' & Ho' & Htags & _);
    [by left|reflexivity|].
  split; [exact Hsize|]. split; [exact Hres|].
  exists o'. split; [exact Ho'|exact Htags].
Defined.

(** X17. An operation name the service does not know fails for every listed
    order that exists ("Unknown operation: ..."; "Order not found" for the
    others); the operation still completes, with 0 successes, and the world
    is unchanged. *)
Theorem bulk_unknown_operation op orderIds od admin now w :
  accepted_size orderIds →
  op ∉ known_operations →
  bulkOperation op orderIds od admin now w
  = (Returned (BulkDone op (length orderIds) 0 (length orderIds)
       ((λ orderId,
           failed orderId
             (match orders (db w) !! orderId with
              | Some _ => "Unknown operation: " +:+ op
              | None => "Order not found"
              end)) <$> orderIds)), w).
Proof.
  intros Hsize Hop.
  set (res := λ orderId : string,
         failed orderId
           (match orders (db w) !! orderId with
            | Some _ => "Unknown operation: " +:+ op
            | None => "Order not found"
            end)).
  assert (∀ o, bulk_update op od admin now o
               = inl ("Unknown operation: " +:+ op)) as Hunknown.
  { intros o. unfold bulk_update, known_operations in *.
    repeat (case_decide; [exfalso; apply Hop; subst; set_solver|]). done. }
  destruct (bulkOperation_run op orderIds od admin now w Hsize)
    as (results & batch & m' & Hloop & Hm' & _ & _ & _ & Hrun).
  rewrite (loop_pure_uniform _ _ _ _ _ res (λ _, None)) in Hloop.
  2:{ intros k acc' _. unfold step_pure, res. simpl. rewrite app_nil_r.
      destruct (orders (db w) !! k) as [o0|]; [|done]. by rewrite Hunknown. }
  rewrite omap_none in Hloop; [|done].
  simpl in Hloop. simplify_eq. simpl in Hm'. simplify_eq.
  rewrite Hrun, world_same; [|done].
  destruct (count_all_failed res orderIds) as [-> ->]; [|done].
  intros k. unfold res. by destruct (orders (db w) !! k).
Qed.

Lemma bulk_unknown_operation_witness :
  let od := {| od_status := None; od_priority := None; od_tag := "";
               od_note := None |} in
  ("archive" ∉ known_operations)
  ∧ bulkOperation "archive" ["A"; "Z"] od "admin" 9 Sample.shop
    = (Returned (BulkDone "archive" 2 0 2
                   [failed "A" "Unknown operation: archive";
                    failed "Z" "Order not found"]), Sample.shop).
Proof.
  intros od.
  assert ("archive" ∉ known_operations) as Hop.
  { apply (bool_decide_unpack _). reflexivity. }
  split; [exact Hop|].
  apply (bulk_unknown_operation "archive" ["A"; "Z"] od "admin" 9 Sample.shop);
    [split; [done|simpl; lia]|exact Hop].
Defined.

(** X18. A bulk update_status of accepted size to a status [S] of the
    enumeration sets every listed order that exists to [S] and appends one
    history entry, marked as a bulk operation, to the history the order had
    before the call -- also when the id is listed more than once, each
    listing counting as a success.  Listed ids that do not exist are the
    only failures.  No transition is checked and nothing is logged. *)
Theorem bulk_status_update orderIds od S admin now w :
  accepted_size orderIds →
  od_status od = Some S →
  includes ORDER_STATUSES.values S = true →
  let run := bulkOperation "update_status" orderIds od admin now w in
  bulk_counts run.1
  = (length orderIds,
     length (List.filter (λ k, bool_decide (is_Some (orders (db w) !! k)))
               orderIds),
     length (List.filter (λ k, negb (bool_decide (is_Some (orders (db w) !! k))))
               orderIds))
  ∧ warnings run.2 = warnings w
  ∧ ∀ orderId o, orderId ∈ orderIds → orders (db w) !! orderId = Some o →
      ∃ o', order_after run orderId = Some o'
        ∧ o_status o' = Some S
        ∧ history o' = history o ++ [bulk_entry S (od_note od) admin now].
Proof.
  intros Hsize HS Hvalid run.
  set (wr := λ k : string,
         (λ o0, {| u_status := Some S;
                   u_statusHistory :=
                     Some (history o0 ++ [bulk_entry S (od_note od) admin now]);
                   u_priority := None; u_tracking := None; u_tags := None;
                   u_adminNotes := None; u_extra := stamp admin |})
         <$> orders (db w) !! k).
  set (res := λ k : string,
         match orders (db w) !! k with
         | Some _ => succeeded k "update_status"
         | None => failed k "Order not found"
         end).
  destruct (bulkOperation_run "update_status" orderIds od admin now w Hsize)
    as (results & batch & m' & Hloop & Hm' & _ & _ & _ & Hrun).
  rewrite (loop_pure_uniform _ _ _ _ _ res wr) in Hloop.
  2:{ intros k acc' _. unfold step_pure, res, wr.
      destruct (orders (db w) !! k) as [o0|]; simpl;
        [|by rewrite app_nil_r].
      unfold bulk_update. simpl. by rewrite HS, Hvalid. }
  simpl in Hloop. simplify_eq.
  unfold run, order_after. rewrite Hrun. simpl. split; [|split; [done|]].
  - destruct (count_by_presence (orders (db w)) res orderIds) as [-> ->];
      [|done].
    intros k. unfold res. by destruct (orders (db w) !! k).
  - intros orderId o Hin Ho.
    apply (apply_batch_establish merge_order
             (λ d, o_status d = Some S
                   ∧ history d
                     = history o ++ [bulk_entry S (od_note od) admin now])
             _ _ _ orderId o Hm' Ho).
    + intros u d0 Hu. apply list_elem_of_omap in Hu as (k & _ & Hk).
      unfold wr in Hk. destruct (orders (db w) !! k) as [o0|] eqn:Hk0;
        by simplify_eq/=.
    + right. eexists. apply list_elem_of_omap. exists orderId.
      split; [done|]. unfold wr. by rewrite Ho.
Qed.

Lemma bulk_status_update_witness :
  let od := {| od_status := Some "Cancelled"; od_priority := None;
               od_tag := ""; od_note := None |} in
  let run := bulkOperation "update_status" ["A"; "A"; "Z"] od "admin" 9
               Sample.shop in
  accepted_size ["A"; "A"; "Z"]
  ∧ bulk_counts run.1 = (3, 2, 1)%nat
  ∧ products (db run.2) = products (db Sample.shop)
  ∧ length ∘ history <$> order_after run "A" = Some 2%nat.
Proof.
  intros od run.
  assert (accepted_size ["A"; "A"; "Z"]) as Hsize by (split; [done|simpl; lia]).
  destruct (bulk_status_update ["A"; "A"; "Z"] od "Cancelled" "admin" 9
              Sample.shop Hsize) as (Hcounts & _ & _); [reflexivity..|].
  split; [exact Hsize|]. split; [exact Hcounts|]. split; reflexivity.
Defined.

End BulkProps.

(** * Further properties of the inventory restoration *)

Module RestoreFrame.
Import AdminOrderService RestoreProps BulkProps.

(** X19. [restoreInventory] fails in one case only, when it is given no
    list to iterate over (the [items] of a document that has none): it then
    throws "orderItems is not iterable" and leaves the world as it is.  Given
    a list it returns.  Either way it writes to products only, and only to
    those a line item names: orders, customer copies and warnings are as
    before, every other product document is as before, and no product
    document is created. *)
Theorem restoreInventory_frame orderItems w :
  let run := restoreInventory orderItems w in
  (run.1 = Returned tt ↔ is_Some orderItems)
  ∧ (orderItems = None → run = (Threw not_iterable, w))
  ∧ orders (db run.2) = orders (db w)
  ∧ userOrders (db run.2) = userOrders (db w)
  ∧ warnings run.2 = warnings w
  ∧ dom (products (db run.2)) = dom (products (db w))
  ∧ ∀ productId, productId ∉ i_productId <$> default [] orderItems →
      products (db run.2) !! productId = products (db w) !! productId.
Proof.
  intros run. destruct orderItems as [orderItems|].
  2:{ unfold run. rewrite restoreInventory_absent. simpl.
      split; [split; [done|by intros [? ?]]|]. by repeat split. }
  destruct (restoreInventory_run orderItems w) as (m' & Hm' & Hrun).
  unfold run. rewrite Hrun. simpl.
  split; [split; [by eexists|done]|]. split; [done|].
  repeat (split; [done|]). split.
  - apply set_eq. intros k. rewrite !elem_of_dom.
    destruct (products (db w) !! k) as [p|] eqn:Hk.
    + destruct (apply_batch_establish merge_product (λ _, True) _ _ _ k p Hm' Hk)
        as (p' & Hp' & _); [done|by left|].
      rewrite Hp'. split; by eexists.
    + rewrite (apply_batch_None merge_product _ _ _ _ Hm' Hk).
      split; by intros [? ?].
  - intros productId Hnot.
    apply (apply_batch_frame merge_product _ _ _ _ Hm').
    intros u Hu. apply restore_writes_elem in Hu as (item & p & Hin & -> & _).
    apply Hnot. apply list_elem_of_fmap. by exists item.
Qed.

End RestoreFrame.

(** * Properties of the Orders page *)

Module OrdersPageProps.
Import AdminOrderService OrdersPage StatusProps BulkProps.

(** X20. [addTracking] on an open order with a non-empty tracking number
    writes without looking at the stored document: whatever the stored
    status was, it becomes Shipped; the tracking descriptor is replaced by
    exactly the two members code and carrier; and the stored history is
    replaced by the history of the page's own copy of the order followed by
    one new entry.  Products and other orders are unchanged. *)
Theorem addTracking_overwrites `{Orders.ToastImport}
    selectedId selected stored form now w :
  tf_trackingNumber form ≠ "" →
  orders (db w) !! selectedId = Some stored →
  let run := addTracking (Some (selectedId, selected)) form now w in
  products (db run.2) = products (db w)
  ∧ (∀ other, other ≠ selectedId →
              orders (db run.2) !! other = orders (db w) !! other)
  ∧ ∃ o' e, order_after run selectedId = Some o'
      ∧ o_status o' = Some "Shipped"
      ∧ o_tracking o' = Some {[ "code" := JStr (tf_trackingNumber form);
                                "carrier" := JStr (tf_carrier form) ]}
      ∧ history o' = history selected ++ [e]
      ∧ h_status e = "Shipped"
      ∧ o_items o' = o_items stored.
Proof.
  intros Hne Hstored run. unfold run, addTracking, order_after.
  destruct (tf_trackingNumber form) as [|a s] eqn:Htn; [done|]. simpl.
  unfold try_catch, mbind, eff_bind.
  rewrite (updateDoc_run _ _ stored _ Hstored). simpl.
  split; [done|]. split.
  - intros other Hother. by rewrite lookup_insert_ne.
  - rewrite lookup_insert_eq. eexists _, _. split; [reflexivity|].
    unfold history. simpl. repeat split.
Qed.

Lemma addTracking_witness :
  let form := {| tf_trackingNumber := "T9"; tf_carrier := "" |} in
  let w1 := (updateOrderStatus "A" "Approved" no_info "admin" 5 Sample.shop).2 in
  let run := @addTracking Sample.callable (Some ("A", Sample.placed)) form 7 w1 in
  length ∘ history <$> orders (db w1) !! "A" = Some 2%nat
  ∧ o_status <$> order_after run "A" = Some (Some "Shipped")
  ∧ length ∘ history <$> order_after run "A" = Some 2%nat.
Proof.
  intros form w1 run.
  set (stored := default Sample.placed (orders (db w1) !! "A")).
  destruct (@addTracking_overwrites Sample.callable "A" Sample.placed stored
              form 7 w1)
    as (_ & _ & o' & e & Ho' & Hst & _ & Hh & _); [done|reflexivity|].
  split; [reflexivity|]. fold run in Ho'. rewrite Ho'. simpl.
  split; [by rewrite Hst|]. by rewrite Hh.
Defined.

Lemma set_add_elem x y s : y ∈ set_add x s ↔ y = x ∨ y ∈ s.
Proof.
  unfold set_add, set_has. case_bool_decide as Hx.
  - split; [by right|]. by intros [->|?].
  - rewrite elem_of_app, list_elem_of_singleton. tauto.
Qed.

Lemma set_delete_elem x y s : y ∈ set_delete x s ↔ y ≠ x ∧ y ∈ s.
Proof.
  unfold set_delete. rewrite !list_elem_of_In, filter_In.
  case_bool_decide; simpl; split; intros [? ?]; try done; by split.
Qed.

Lemma set_add_NoDup x s : NoDup s → NoDup (set_add x s).
Proof.
  intros Hnd. unfold set_add, set_has. case_bool_decide as Hx; [done|].
  apply list.NoDup_app. split; [done|]. split; [|apply NoDup_singleton].
  intros y Hy ->%list_elem_of_singleton. done.
Qed.

Lemma set_delete_NoDup x s : NoDup s → NoDup (set_delete x s).
Proof.
  unfold set_delete. induction 1 as [|y s Hy Hnd IH]; simpl; [constructor|].
  destruct (negb (bool_decide (y = x))); [|done].
  constructor; [|done]. intros Hin.
  apply Hy. by apply (set_delete_elem x y s).
Qed.

(** X21. Ticking an order's checkbox with the order's current selection state
    flips exactly that order: afterwards it is selected if and only if it was
    not, every other order keeps its state, and the selection still holds no
    id twice.  An empty order id is ignored. *)
Theorem toggle_flips_one orderId prev :
  NoDup prev →
  let next := toggleOrderSelection orderId (set_has orderId prev) prev in
  NoDup next
  ∧ (orderId = "" → next = prev)
  ∧ (orderId ≠ "" → (orderId ∈ next ↔ orderId ∉ prev))
  ∧ ∀ other, other ≠ orderId → (other ∈ next ↔ other ∈ prev).
Proof.
  intros Hnd next. unfold next.
  destruct orderId as [|a s]; [by repeat split|].
  change (toggleOrderSelection (String a s) (set_has (String a s) prev) prev)
    with (if set_has (String a s) prev then set_delete (String a s) prev
          else set_add (String a s) prev).
  unfold set_has. case_bool_decide as Hin.
  - split; [by apply set_delete_NoDup|]. split; [done|]. split.
    + intros _. rewrite set_delete_elem. tauto.
    + intros other Hother. rewrite set_delete_elem. tauto.
  - split; [by apply set_add_NoDup|]. split; [done|]. split.
    + intros _. rewrite set_add_elem. tauto.
    + intros other Hother. rewrite set_add_elem. tauto.
Qed.

Lemma toggle_witness :
  NoDup ["A"; "B"]
  ∧ toggleOrderSelection "A" (set_has "A" ["A"; "B"]) ["A"; "B"] = ["B"]
  ∧ NoDup (toggleOrderSelection "A" (set_has "A" ["A"; "B"]) ["A"; "B"]).
Proof.
  assert (NoDup ["A"; "B"]) as Hnd.
  { apply (bool_decide_unpack _). reflexivity. }
  destruct (toggle_flips_one "A" ["A"; "B"] Hnd) as [Hnext _].
  split; [exact Hnd|]. split; [reflexivity|exact Hnext].
Defined.

Lemma set_of_elem l y : y ∈ set_of l ↔ y ∈ l.
Proof.
  unfold set_of.
  assert (∀ s, y ∈ foldl (λ s x, set_add x s) s l ↔ y ∈ s ∨ y ∈ l) as Hgen.
  { induction l as [|x l IH]; intros s; simpl.
    - rewrite elem_of_nil. tauto.
    - rewrite IH, set_add_elem, elem_of_cons. tauto. }
  rewrite Hgen, elem_of_nil. tauto.
Qed.

Lemma set_of_NoDup l : NoDup (set_of l).
Proof.
  unfold set_of.
  assert (∀ s, NoDup s → NoDup (foldl (λ s x, set_add x s) s l)) as Hgen.
  { induction l as [|x l IH]; intros s Hs; simpl; [done|].
    apply IH. by apply set_add_NoDup. }
  apply Hgen. constructor.
Qed.

(** X22. "Select all" compares sizes only.  When the selection has as many
    ids as there are orders shown it is cleared -- whichever ids it holds;
    otherwise it becomes exactly the ids of the orders shown (those with a
    non-empty id), each once. *)
Theorem select_all_by_size filteredOrders selectedOrderIds :
  let next := selectAllOrders filteredOrders selectedOrderIds in
  (length selectedOrderIds = length filteredOrders → next = [])
  ∧ (length selectedOrderIds ≠ length filteredOrders →
     NoDup next
     ∧ ∀ orderId, orderId ∈ next
                  ↔ orderId ≠ "" ∧ orderId ∈ filteredOrders.*1).
Proof.
  intros next. unfold next, selectAllOrders. split; intros Hsize.
  - by rewrite bool_decide_eq_true_2.
  - rewrite bool_decide_eq_false_2; [|done].
    split; [apply set_of_NoDup|]. intros orderId.
    rewrite set_of_elem, !list_elem_of_fmap. split.
    + intros ([k o] & -> & Hin). rewrite list_elem_of_In, filter_In in Hin.
      destruct Hin as [Hin Hk]. simpl in *. split; [by destruct k|].
      exists (k, o). by rewrite list_elem_of_In.
    + intros (Hne & [k o] & -> & Hin). exists (k, o). split; [done|].
      rewrite list_elem_of_In, filter_In, <- list_elem_of_In.
      split; [done|]. simpl in *. by destruct k.
Qed.



End OrdersPageProps.

(** * Properties of the customer's pages *)

Module CustomerProps.
Import ORDER_STATUSES AdminOrderService MyAccount Cart CartPhone
       RestoreProps StatusProps StatusTheorems ServiceProps.

Lemma calculatedTotal_set total data :
  calculatedTotal (set_totalAmount total data) = calculatedTotal data.
Proof. reflexivity. Qed.

(** X24. Computing the missing total is idempotent; it changes no member of
    the document but [totalAmount]; and it leaves the document alone when a
    non-zero [totalAmount] or [total] is stored. *)
Theorem ensureTotal_idempotent data :
  ensureTotal (ensureTotal data) = ensureTotal data
  ∧ (∃ total, ensureTotal data = set_totalAmount total data
              ∨ ensureTotal data = data)
  ∧ (stores_total data → ensureTotal data = data).
Proof.
  assert (ensureTotal data
          = if falsy (o_totalAmount data) && falsy (o_total data)
            then set_totalAmount (calculatedTotal data) data else data)
    as Hcase by reflexivity.
  unfold stores_total.
  destruct (falsy (o_totalAmount data)) eqn:Hta;
    destruct (falsy (o_total data)) eqn:Ht; cbn [andb] in Hcase;
    rewrite !Hcase;
    try (split; [done|split; [exists 0%Qc; by right|done]]).
  split; [|split; [eexists; by left|by intros [?|?]]].
  unfold ensureTotal. cbn [set_totalAmount o_totalAmount o_total].
  rewrite Ht. cbn [falsy].
  destruct (truthy (calculatedTotal data)) eqn:Hc; cbn [negb andb]; [done|].
  by rewrite calculatedTotal_set.
Qed.

(** X25. [fetchOrders] shows a customer only their own orders: every
    document it returns belongs to the signed-in user, every document of
    that user in the snapshot is returned under its id with its total
    ensured, and the snapshot's order is kept. *)
Theorem fetchOrders_own_orders_only uid ordersSnapshot :
  (∀ id o, (id, o) ∈ fetchOrders uid ordersSnapshot →
           o_userId o = Some uid
           ∧ ∃ data, (id, data) ∈ ordersSnapshot ∧ o = ensureTotal data)
  ∧ (∀ id data, (id, data) ∈ ordersSnapshot → o_userId data = Some uid →
                (id, ensureTotal data) ∈ fetchOrders uid ordersSnapshot)
  ∧ (fetchOrders uid ordersSnapshot).*1
    = (List.filter (λ doc, bool_decide (o_userId doc.2 = Some uid))
         ordersSnapshot).*1.
Proof.
  assert (∀ data, o_userId (ensureTotal data) = o_userId data) as Huser.
  { intros data. unfold ensureTotal. by destruct (_ && _). }
  unfold fetchOrders. split; [|split].
  - intros id o Hin. apply list_elem_of_omap in Hin as ([k data] & Hin & Hdoc).
    simpl in Hdoc. case_bool_decide as Hown; simplify_eq.
    split; [by rewrite Huser|]. by exists data.
  - intros id data Hin Hown. apply list_elem_of_omap. exists (id, data).
    split; [done|]. simpl. by rewrite bool_decide_eq_true_2.
  - induction ordersSnapshot as [|[k data] l IH]; [done|].
    cbn [omap list_omap List.filter snd fst].
    case_bool_decide; rewrite ?fmap_cons; by rewrite IH.
Qed.

Lemma find_product catalog productId :
  match List.find (λ p, bool_decide (cp_id p = productId)) catalog with
  | Some product =>
      product ∈ catalog ∧ cp_id product = productId
      ∧ known catalog productId = true
  | None => known catalog productId = false
  end.
Proof.
  unfold known.
  destruct (List.find _ catalog) as [product|] eqn:Hfind.
  - apply find_some in Hfind as [Hin Hid].
    apply bool_decide_eq_true in Hid. rewrite <- list_elem_of_In in Hin.
    repeat split; try done. apply bool_decide_eq_true.
    apply list_elem_of_fmap. by exists product.
  - apply bool_decide_eq_false. intros Hin.
    apply list_elem_of_fmap in Hin as (p & -> & Hp).
    rewrite list_elem_of_In in Hp.
    pose proof (find_none _ _ Hfind p Hp) as Hf. simpl in Hf.
    by rewrite bool_decide_eq_true_2 in Hf.
Qed.

(** X26. The line items of the order written at checkout are the cart lines
    whose product is in the catalog, in cart order -- a cart line for an
    unknown product is dropped without notice -- and each stored item takes
    its name and price from a catalog product with that id and its quantity
    from the cart. *)
Theorem order_lines_follow_cart user customerName phone address cartItems
    catalog now :
  let o := checkout_order user customerName phone address cartItems catalog
             now in
  is_Some (o_items o)
  ∧ i_productId <$> items_of o
    = List.filter (known catalog) (ci_productId <$> cartItems)
  ∧ ∀ item, item ∈ items_of o →
      ∃ line product,
        line ∈ cartItems ∧ product ∈ catalog
        ∧ cp_id product = ci_productId line
        ∧ i_productId item = ci_productId line
        ∧ i_quantity item = ci_quantity line
        ∧ i_name item = cp_name product
        ∧ i_price item = cp_price product.
Proof.
  intros o. unfold o, checkout_order, orderData, items_of.
  cbn [o_items from_option id]. split; [by eexists|]. split.
  - unfold cartDetails.
    induction cartItems as [|line rest IH]; [done|].
    cbn [omap list_omap]. rewrite fmap_cons. cbn [List.filter].
    pose proof (find_product catalog (ci_productId line)) as Hfind.
    destruct (List.find _ catalog) as [product|].
    + destruct Hfind as (_ & _ & ->). cbn [List.map]. fold (@fmap list _).
      simpl. f_equal. exact IH.
    + rewrite Hfind. exact IH.
  - intros item Hin. rewrite list_elem_of_In, in_map_iff in Hin.
    destruct Hin as ([line product] & <- & Hin).
    rewrite <- list_elem_of_In in Hin. unfold cartDetails in Hin.
    apply list_elem_of_omap in Hin as (line' & Hline & Hsome).
    pose proof (find_product catalog (ci_productId line')) as Hfind.
    destruct (List.find _ catalog) as [product'|]; simplify_eq.
    destruct Hfind as (Hp & Hid & _). by exists line, product.
Qed.

Lemma lines_total_details details acc :
  foldl (λ acc d, acc + cp_price d.2 * Qc_of_Z (ci_quantity d.1))%Qc acc details
  = foldl (λ acc item, acc + i_price item * Qc_of_Z (i_quantity item))%Qc acc
      (List.map (λ d, {| i_productId := ci_productId d.1;
                         i_name := cp_name d.2;
                         i_price := cp_price d.2;
                         i_quantity := ci_quantity d.1;
                         i_image := cp_image d.2 |}) details).
Proof.
  revert acc. induction details as [|d l IH]; intros acc; [done|].
  cbn [foldl List.map]. apply IH.
Qed.

(** X27. The amounts of the order written at checkout are consistent: the
    subtotal is the sum of price times quantity over the stored line items,
    the tax is 18% of it, the discount is 0, the stored [totalAmount] is
    subtotal plus tax, and that is the amount the customer's order history
    shows for the order. *)
Theorem checkout_amounts user customerName phone address cartItems catalog now :
  let o := checkout_order user customerName phone address cartItems catalog
             now in
  let subtotal := lines_total (items_of o) in
  o_subtotal o = Some subtotal
  ∧ o_tax o = Some (subtotal * Q2Qc (18 # 100))%Qc
  ∧ o_discount o = Some 0%Qc
  ∧ o_totalAmount o = Some (subtotal + subtotal * Q2Qc (18 # 100))%Qc
  ∧ displayedTotal (ensureTotal o)
    = (subtotal + subtotal * Q2Qc (18 # 100))%Qc.
Proof.
  intros o subtotal.
  assert (Cart.subtotal (cartDetails cartItems catalog) = subtotal) as Hsub.
  { unfold subtotal, lines_total, Cart.subtotal, o, checkout_order, orderData,
      items_of.
    cbn [o_items from_option id]. apply lines_total_details. }
  assert (o_totalAmount o
          = Some (subtotal + subtotal * Q2Qc (18 # 100))%Qc) as Htotal.
  { unfold o, checkout_order, orderData. cbn [o_totalAmount].
    by rewrite Hsub. }
  repeat split; try done.
  - unfold o, checkout_order, orderData. cbn [o_subtotal]. by rewrite Hsub.
  - unfold o, checkout_order, orderData. cbn [o_tax]. by rewrite Hsub.
  - set (total := (subtotal + subtotal * Q2Qc (18 # 100))%Qc) in *.
    assert (o_total o = None) as Hnone by reflexivity.
    destruct (truthy total) eqn:Htruthy.
    + unfold ensureTotal, displayedTotal. rewrite Htotal, Hnone.
      cbn [falsy andb negb]. rewrite Htruthy. cbn [negb andb].
      rewrite Htotal, Hnone. cbn [or_opt]. rewrite Htruthy.
      cbn [or_else]. by rewrite Htruthy.
    + rewrite TotalsTheorems.displayed_total_is_calculated.
      * unfold calculatedTotal.
        assert (o_subtotal o = Some subtotal) as ->.
        { unfold o, checkout_order, orderData. cbn [o_subtotal].
          by rewrite Hsub. }
        assert (o_tax o = Some (subtotal * Q2Qc (18 # 100))%Qc) as ->.
        { unfold o, checkout_order, orderData. cbn [o_tax]. by rewrite Hsub. }
        assert (o_discount o = Some 0%Qc) as -> by reflexivity.
        assert (o_importDuty o = None) as -> by reflexivity.
        pose proof (TotalsTheorems.or_else_untruthy total Htruthy) as Hzero.
        assert (∀ q : Qc, or_else (Some q) 0%Qc = q) as Hor.
        { intros q. cbn [or_else]. destruct (truthy q) eqn:Hq; [done|].
          symmetry. by apply TotalsTheorems.or_else_untruthy. }
        rewrite !Hor. cbn [or_else]. unfold total. ring.
      * split; [|by rewrite Hnone].
        rewrite Htotal. cbn [falsy]. by rewrite Htruthy.
Qed.

Lemma order_line_ids user customerName phone address cartItems catalog now :
  i_productId
    <$> items_of (checkout_order user customerName phone address cartItems
                    catalog now)
  = List.filter (known catalog) (ci_productId <$> cartItems).
Proof.
  unfold checkout_order, orderData, items_of. cbn [o_items from_option id].
  unfold cartDetails.
  induction cartItems as [|line rest IH]; [done|].
  cbn [omap list_omap]. rewrite fmap_cons. cbn [List.filter].
  pose proof (find_product catalog (ci_productId line)) as Hfind.
  destruct (List.find _ catalog) as [product|].
  - destruct Hfind as (_ & _ & ->). cbn [List.map]. fold (@fmap list _).
    simpl. f_equal. exact IH.
  - rewrite Hfind. exact IH.
Qed.

Lemma order_line_of user customerName phone address cartItems catalog now line :
  line ∈ cartItems →
  known catalog (ci_productId line) = true →
  ∃ item,
    item ∈ items_of (checkout_order user customerName phone address cartItems
                       catalog now)
    ∧ i_productId item = ci_productId line
    ∧ i_quantity item = ci_quantity line.
Proof.
  intros Hin Hknown. unfold checkout_order, orderData, items_of.
  cbn [o_items from_option id].
  pose proof (find_product catalog (ci_productId line)) as Hfind.
  destruct (List.find _ catalog) as [product|] eqn:Hf; [|congruence].
  eexists. split.
  - rewrite list_elem_of_In. apply in_map_iff. exists (line, product).
    split; [reflexivity|]. rewrite <- list_elem_of_In.
    unfold cartDetails. apply list_elem_of_omap. exists line.
    split; [done|]. by rewrite Hf.
  - done.
Qed.

(** X28. The checkout writes the order and leaves every product's stock as
    it is; so when a freshly placed order (its cart lines naming distinct
    products) is declined or cancelled, the restoration raises the stock of
    each of its existing products above the stock before the purchase, by the
    quantity ordered. *)
Theorem cancelling_a_fresh_order_adds_stock user customerName phone address
    cartItems catalog newId t info admin t0 t1 w :
  NoDup (ci_productId <$> cartItems) →
  restoring t →
  let w0 := (completeOrder (Some user) customerName phone address cartItems
               catalog newId t0 w).2 in
  let run := updateOrderStatus newId t info admin t1 w0 in
  products (db w0) = products (db w)
  ∧ is_updated run.1 = true
  ∧ ∀ line p, line ∈ cartItems →
      known catalog (ci_productId line) = true →
      products (db w) !! ci_productId line = Some p →
      ∃ p', products (db run.2) !! ci_productId line = Some p'
            ∧ p_stock p' = Some (stock_of p + ci_quantity line).
Proof.
  intros Hnd Hr w0 run.
  set (o := checkout_order user customerName phone address cartItems catalog t0).
  assert (orders (db w0) !! newId = Some o) as Ho.
  { unfold w0. simpl. apply lookup_insert_eq. }
  assert (products (db w0) = products (db w)) as Hprod by reflexivity.
  assert (includes ORDER_STATUSES.values t = true) as Ht.
  { by destruct Hr as [-> | ->]. }
  assert (validTransitions (show (o_status o)) ≠ Inherited) as Hkey by done.
  assert (is_updated run.1 = true) as Hok.
  { unfold run.
    destruct (updateOrderStatus_world newId o t info admin t1 w0 Ho Ht Hkey)
      as (u & d1 & Hrun & _).
    { intros _. by eexists. }
    by rewrite Hrun. }
  split; [exact Hprod|]. split; [exact Hok|].
  destruct (restoring_run newId o t info admin t1 w0 Ho Hr Hok)
    as (_ & _ & Hbatch).
  rewrite Hprod in Hbatch.
  assert (NoDup (i_productId <$> items_of o)) as Hitems.
  { unfold o. rewrite order_line_ids. apply NoDup_ListNoDup.
    apply List.NoDup_filter. by apply NoDup_ListNoDup. }
  intros line p Hin Hknown Hp.
  destruct (order_line_of user customerName phone address cartItems catalog t0
              line Hin Hknown) as (item & Hitem & Hid & Hq).
  fold o in Hitem. rewrite <- Hid in Hp |- *. rewrite <- Hq.
  by apply (restore_distinct _ _ _ Hbatch Hitems item p).
Qed.

Lemma cancelling_a_fresh_order_witness :
  let w := {| db := {| orders := ∅;
                       products := {[ "p1" := Sample.pen; "p2" := Sample.ink ]};
                       userOrders := ∅ |};
              warnings := [] |} in
  let w0 := (completeOrder (Some Sample.ann) "Ann" "" Sample.home Sample.cart
               Sample.catalog "N" 0 w).2 in
  let run := updateOrderStatus "N" "Cancelled" no_info "admin" 1 w0 in
  NoDup (ci_productId <$> Sample.cart)
  ∧ p_stock <$> products (db w) !! "p1" = Some (Some 10)
  ∧ ∃ p', products (db run.2) !! "p1" = Some p' ∧ p_stock p' = Some 12.
Proof.
  intros w w0 run.
  assert (NoDup (ci_productId <$> Sample.cart)) as Hnd.
  { apply (bool_decide_unpack _). reflexivity. }
  destruct (cancelling_a_fresh_order_adds_stock Sample.ann "Ann" "" Sample.home
              Sample.cart Sample.catalog "N" "Cancelled" no_info "admin" 0 1 w
              Hnd) as (_ & _ & Hstock); [by right|].
  split; [exact Hnd|]. split; [reflexivity|].
  destruct (Hstock {| ci_productId := "p1"; ci_quantity := 2 |} Sample.pen)
    as (p' & Hp' & Hs); [by left|reflexivity|reflexivity|].
  exists p'. split; [exact Hp'|exact Hs].
Defined.

Lemma startsWith_split s p :
  startsWith s p = true → p +:+ substring_from (String.length p) s = s.
Proof.
  revert s. induction p as [|a p IH]; intros s Hs; [done|].
  destruct s as [|b s]; [done|]. simpl in Hs.
  apply andb_true_iff in Hs as [Hab Hs]. apply bool_decide_eq_true in Hab.
  subst.
  change (String b (p +:+ substring_from (String.length p) s) = String b s).
  f_equal. by apply IH.
Qed.

Lemma splitPhone_joins phone :
  (splitPhone phone).1 +:+ (splitPhone phone).2 = phone.
Proof.
  unfold splitPhone.
  destruct (List.find _ COUNTRY_CODES) as [[country code]|] eqn:Hfind; [|done].
  apply find_some in Hfind as [_ Hstarts]. simpl in *.
  by apply startsWith_split.
Qed.

Lemma truthy_nonempty (s : string) : truthy s = true ↔ s ≠ "".
Proof. destruct s; simpl; split; done. Qed.

(** X29. Loading a stored phone number into the checkout form and reading it
    back gives the stored number exactly when it starts with one of the known
    country codes and has digits after it.  A number with no known code comes
    back with the previously selected code prepended, and a number that is
    only a country code comes back empty.  The split itself loses nothing:
    code and rest, concatenated, are the stored number. *)
Theorem phone_round_trip phone st :
  phone ≠ "" →
  let code := (splitPhone phone).1 in
  let rest := (splitPhone phone).2 in
  let st' := loadPhone (Some phone) st in
  code +:+ rest = phone
  ∧ (code ≠ "" → rest ≠ "" → getFullPhoneNumber st' = phone)
  ∧ (code = "" → getFullPhoneNumber st' = selectedCountryCode st +:+ phone)
  ∧ (rest = "" → getFullPhoneNumber st' = "").
Proof.
  intros Hne code rest st'.
  pose proof (splitPhone_joins phone) as Hjoin. fold code rest in Hjoin.
  assert (st' = {| selectedCountryCode :=
                     if truthy code then code else selectedCountryCode st;
                   phoneNumber := rest |}) as ->.
  { unfold st', loadPhone, code, rest.
    destruct phone as [|a s]; [done|]. cbn [truthy truthy_string].
    by destruct (splitPhone (String a s)). }
  unfold getFullPhoneNumber. cbn [phoneNumber selectedCountryCode].
  split; [exact Hjoin|]. split; [|split].
  - intros Hcode Hrest.
    apply truthy_nonempty in Hcode, Hrest. by rewrite Hcode, Hrest.
  - intros Hcode. rewrite Hcode in Hjoin. change (rest = phone) in Hjoin.
    rewrite Hcode, Hjoin. apply truthy_nonempty in Hne. by rewrite Hne.
  - intros ->. done.
Qed.

Lemma phone_round_trip_witness :
  "+977981234" ≠ ""
  ∧ splitPhone "+977981234" = ("+977", "981234")
  ∧ getFullPhoneNumber (loadPhone (Some "+977981234") initialPhone)
    = "+977981234".
Proof.
  assert ("+977981234" ≠ "") as Hne by done.
  destruct (phone_round_trip "+977981234" initialPhone Hne) as (_ & Hback & _).
  split; [exact Hne|]. split; [reflexivity|]. by apply Hback.
Defined.

End CustomerProps.
